(** * Two-Player Auction Learner (algnet.py): a shallow embedding

    The arrays of the program hold floating-point numbers; here their entries
    are real numbers ([R]), so that [exp], [sqrt], the logistic function and
    the softmax are the mathematical ones.  Shapes, slicing, broadcasting,
    [squeeze], [stack] and the shape assertions are modelled as the program
    performs them, on arrays of rank 0, 1 and 2: the rank the networks and
    the losses see for one valuation profile of shape [(bidders, items)]
    (the losses are mapped over the batch axis by [jax.vmap]); and on the
    arrays of rank 3 that [test] passes to the networks without
    [jax.vmap]. *)

From Stdlib Require Import Reals Lra Lia List ZArith Bool Arith Permutation.
Import ListNotations.
Local Open Scope R_scope.

(** ** Exceptions *)

Inductive exn : Type :=
| AssertionError
| ValueError
| IndexError
| ZeroDivisionError
| UnboundLocalError.

Inductive result (A : Type) : Type :=
| Ok (a : A)
| Raise (e : exn).

Arguments Ok {A} a.
Arguments Raise {A} e.

Definition bind {A B : Type} (m : result A) (k : A -> result B) : result B :=
  match m with
  | Ok a => k a
  | Raise e => Raise e
  end.

Notation "x <- m ;; k" := (bind m (fun x => k))
  (at level 61, m at next level, right associativity).
Notation "' ( x , y ) <- m ;; k" := (bind m (fun xy => let '(x, y) := xy in k))
  (at level 61, x name, y name, m at next level, right associativity).
Notation "m ;;; k" := (bind m (fun _ => k))
  (at level 61, right associativity).

(** [chex.assert_shape] and [chex.assert_equal_shape] raise an
    [AssertionError] when the check fails. *)
Definition assert (b : bool) : result unit :=
  if b then Ok tt else Raise AssertionError.

Fixpoint mapM {A B : Type} (f : A -> result B) (l : list A) : result (list B) :=
  match l with
  | [] => Ok []
  | a :: l' => b <- f a ;; bs <- mapM f l' ;; Ok (b :: bs)
  end.

(** ** Arrays *)

Abbreviation vec := (list R) (only parsing).
Abbreviation mat := (list (list R)) (only parsing).

(** An array of rank 0, 1 or 2; a matrix is the list of its rows. *)
Inductive ndarray : Type :=
| Arr0 (x : R)
| Arr1 (v : vec)
| Arr2 (m : mat).

Section Generic.
Context {A : Type}.

Definition ncols (m : list (list A)) : nat := length (hd [] m).

(** [m.shape == (r, c)] *)
Definition has_shape2 (r c : nat) (m : list (list A)) : bool :=
  (length m =? r)%nat && forallb (fun row => (length row =? c)%nat) m.

Definition has_shape1 (n : nat) (v : list A) : bool := (length v =? n)%nat.

(** Two matrices have equal shapes. *)
Definition equal_shape2 (m1 m2 : list (list A)) : bool :=
  (length m1 =? length m2)%nat
  && forallb (fun p => (length (fst p) =? length (snd p))%nat) (combine m1 m2).

(** [xs[lo:hi]] for [0 <= lo], [0 <= hi] *)
Definition slice (lo hi : nat) (xs : list A) : list A :=
  firstn (hi - lo) (skipn lo xs).

(** [B[:, lo:hi]] *)
Definition cols (lo hi : nat) (B : list (list A)) : list (list A) :=
  map (slice lo hi) B.

(** [B[:, lo:]] *)
Definition cols_from (lo : nat) (B : list (list A)) : list (list A) :=
  map (skipn lo) B.

(** [jnp.concatenate([X, Y], axis=1)] on matrices: the row counts must agree. *)
Definition concatenate1_2 (X Y : list (list A)) : result (list (list A)) :=
  if (length X =? length Y)%nat
  then Ok (map (fun p => fst p ++ snd p) (combine X Y))
  else Raise ValueError.

(** [jnp.concatenate([X, Y, Z], axis=1)] *)
Definition concatenate1 (X Y Z : list (list A)) : result (list (list A)) :=
  YZ <- concatenate1_2 Y Z ;; concatenate1_2 X YZ.

(** [jnp.ravel]: row-major flattening. *)
Definition ravel (m : list (list A)) : list A := concat m.

(** [jnp.stack(vs, axis=0)] of rank-1 arrays: at least one array, all of
    one length. *)
Definition stack0 (vs : list (list A)) : result (list (list A)) :=
  match vs with
  | [] => Raise ValueError
  | v :: _ =>
      if forallb (fun w => (length w =? length v)%nat) vs
      then Ok vs else Raise ValueError
  end.

(** [jnp.stack(xs)] of rank-0 arrays. *)
Definition stack_scalars (xs : list A) : result (list A) :=
  match xs with
  | [] => Raise ValueError
  | _ => Ok xs
  end.

(** Broadcasting of one axis: equal lengths are zipped, a length of one is
    stretched, anything else is an error. *)
Definition bzip {X Y Z : Type} (f : X -> Y -> result Z)
    (xs : list X) (ys : list Y) : result (list Z) :=
  if (length xs =? length ys)%nat
  then mapM (fun p => f (fst p) (snd p)) (combine xs ys)
  else match xs, ys with
       | [x], _ => mapM (fun y => f x y) ys
       | _, [y] => mapM (fun x => f x y) xs
       | _, _ => Raise ValueError
       end.
End Generic.

(** [jnp.stack(vs, axis=1)] of rank-1 arrays of one length [k]: the result
    has shape [(k, len(vs))]. *)
Definition stack1 (vs : list vec) : result mat :=
  match vs with
  | [] => Raise ValueError
  | v :: _ =>
      if forallb (fun w => (length w =? length v)%nat) vs
      then Ok (map (fun j => map (fun w => nth j w 0) vs) (seq 0 (length v)))
      else Raise ValueError
  end.

(** [jnp.squeeze]: every axis of length one is removed. *)
Definition squeeze (a : ndarray) : ndarray :=
  match a with
  | Arr0 x => Arr0 x
  | Arr1 [x] => Arr0 x
  | Arr1 v => Arr1 v
  | Arr2 [[x]] => Arr0 x
  | Arr2 [row] => Arr1 row
  | Arr2 m =>
      if (ncols m =? 1)%nat then Arr1 (map (fun row => hd 0 row) m) else Arr2 m
  end.

(** Broadcasting puts axes of length one in front of the lower rank. *)
Definition promote2 (a : ndarray) : mat :=
  match a with
  | Arr0 x => [[x]]
  | Arr1 v => [v]
  | Arr2 m => m
  end.

(** [a * m] and [a - m] for a matrix [m], with broadcasting. *)
Definition broadcast2 (f : R -> R -> R) (a : ndarray) (m : mat) : result mat :=
  bzip (bzip (fun x y => Ok (f x y))) (promote2 a) m.

(** [u * v], [u - v] for rank-1 arrays, with broadcasting. *)
Definition broadcast1 (f : R -> R -> R) (u v : vec) : result vec :=
  bzip (fun x y => Ok (f x y)) u v.

(** [jnp.sum(v)] *)
Definition sum (v : vec) : R := fold_right Rplus 0 v.

(** [jnp.sum(m, axis=1)] *)
Definition sum_axis1 (m : mat) : vec := map sum m.

(** The column [j] of a matrix. *)
Definition column (j : nat) (m : mat) : vec := map (fun row => nth j row 0) m.

(** ** Activations *)

(** [jax.nn.sigmoid] *)
Definition sigmoid (x : R) : R := 1 / (1 + exp (- x)).

(** [jax.nn.relu] *)
Definition relu (x : R) : R := Rmax x 0.

(** [jax.nn.softmax(L, axis=0)]: every column is normalised over the rows. *)
Definition softmax0 (L : mat) : mat :=
  let E := map (map exp) L in
  map (fun row => map (fun p => fst p / snd p)
                    (combine row (map (fun j => sum (column j E)) (seq 0 (length row)))))
      E.

(** ** [permute_along_bidders] *)

(** The slices are taken along axis 1, which is the item axis of a profile of
    shape [(bidders, items)]. *)
Definition permute_along_bidders (B : mat) (i : nat) : result mat :=
  let head := cols 0 i B in
  let tail := cols_from (i + 1) B in
  let b_i := cols i (i + 1) B in
  permuted <- concatenate1 b_i head tail ;;
  assert (equal_shape2 B permuted) ;;;
  Ok permuted.

(** [jnp.stack([a])] of a single array of rank 0 or 1.  A rank-2 argument
    would give a rank-3 array, which the model does not represent; the
    program only stacks here what [squeeze] returned for one column. *)
Definition stack_single (a : ndarray) : result ndarray :=
  match a with
  | Arr0 x => Ok (Arr1 [x])
  | Arr1 v => Ok (Arr2 [v])
  | Arr2 _ => Raise ValueError
  end.

(** [assert_shape(a, (n,))], giving the rank-1 array back. *)
Definition expect_shape1 (n : nat) (a : ndarray) : result vec :=
  match a with
  | Arr1 v => assert (has_shape1 n v) ;;; Ok v
  | _ => Raise AssertionError
  end.

(** [v[i]] *)
Definition index (v : vec) (i : nat) : result R :=
  match nth_error v i with
  | Some x => Ok x
  | None => Raise IndexError
  end.

(** ** The networks *)

Section Networks.

(** The parameters of one [haiku.nets.MLP] and its forward pass on a rank-1
    input: [MLP layers p x] is [MLP(layers, activation=jnp.tanh)] with
    parameters [p] applied to [x]. *)
Variable MLPParams : Type.
Variable MLP : list nat -> MLPParams -> vec -> vec.
Variables bidders items net_width net_depth : nat.

Record AuctParams : Type := {
  alloc_prob : MLPParams;
  alloc_which : MLPParams;
  pay_mlp : MLPParams
}.

Record MisrParams : Type := {
  misr_mlp : MLPParams
}.

Definition layers : list nat := [(bidders * items)%nat; net_width; net_depth].
Definition layers_alloc : list nat := layers ++ [items].
Definition layers_pay : list nat := layers ++ [1%nat].
Definition layers_misr : list nat :=
  [(bidders * items)%nat; net_width; net_depth; items].

(** [Auctioneer.__call__] *)
Definition Auctioneer (params : AuctParams) (vals : mat) : result (mat * vec) :=
  let alloc := MLP layers_alloc (alloc_prob params) (ravel vals) in
  let alloc := map sigmoid alloc in
  assert (has_shape1 items alloc) ;;;
  rows <- mapM (fun i =>
                  p <- permute_along_bidders vals i ;;
                  Ok (MLP layers_alloc (alloc_which params) (ravel p)))
               (seq 0 bidders) ;;
  L <- stack0 rows ;;
  let L := softmax0 L in
  assert (has_shape2 bidders items L) ;;;
  alloc <- broadcast2 Rmult (Arr1 alloc) L ;;
  assert (has_shape2 bidders items alloc) ;;;
  fracs <- mapM (fun i =>
                   p <- permute_along_bidders vals i ;;
                   Ok (map sigmoid (MLP layers_pay (pay_mlp params) (ravel p))))
                (seq 0 bidders) ;;
  stacked <- stack1 fracs ;;
  let pay := squeeze (Arr2 stacked) in
  pay <- (if (bidders =? 1)%nat then stack_single pay else Ok pay) ;;
  pay <- expect_shape1 bidders pay ;;
  prod <- broadcast2 Rmult (squeeze (Arr2 vals)) alloc ;;
  pay <- broadcast1 Rmult pay (sum_axis1 prod) ;;
  assert (has_shape1 bidders pay) ;;;
  Ok (alloc, pay).

(** [Misreporter.__call__] *)
Definition Misreporter (params : MisrParams) (vals : mat) : result mat :=
  m_ <- mapM (fun i =>
                p <- permute_along_bidders vals i ;;
                Ok (MLP layers_misr (misr_mlp params) (ravel p)))
             (seq 0 bidders) ;;
  misreports <- stack0 m_ ;;
  assert (has_shape2 bidders items misreports) ;;;
  Ok (map (map sigmoid) misreports).

(** [TPAL.utility] *)
Definition utility (vals alloc : mat) (pay : vec) : result vec :=
  prod <- broadcast2 Rmult (squeeze (Arr2 vals)) alloc ;;
  utilities <- broadcast1 Rminus (sum_axis1 prod) pay ;;
  assert (has_shape1 (length pay) utilities) ;;;
  Ok utilities.

(** [m[i]] *)
Definition row (m : mat) (i : nat) : result vec :=
  match nth_error m i with
  | Some r => Ok r
  | None => Raise IndexError
  end.

(** [TPAL.utility_i], of which the program says: "check of utility[i] ==
    utility_i". *)
Definition utility_i (vals : mat) (i : nat) (alloc : mat) (pay : vec) : result R :=
  alloc_i <- row alloc i ;;
  vals_i <- row vals i ;;
  prod <- broadcast1 Rmult alloc_i vals_i ;;
  pay_i <- index pay i ;;
  Ok (sum prod - pay_i).

(** [TPAL.misr_bidder_i] *)
Definition misr_bidder_i (vals misrs : mat) (i : nat) : result mat :=
  let head := cols 0 i vals in
  let tail := cols_from (i + 1) vals in
  let m_i := cols i (i + 1) misrs in
  V_minus_i <- concatenate1 head m_i tail ;;
  assert (equal_shape2 vals V_minus_i) ;;;
  Ok V_minus_i.

(** [TPAL.misr_utility] *)
Definition misr_utility (misreports val_sample : mat) (auct_params : AuctParams)
  : result vec :=
  misr_utils <- mapM (fun i =>
                        misr_i <- misr_bidder_i val_sample misreports i ;;
                        assert (has_shape2 bidders items misr_i) ;;;
                        '(alloc_m, pay_m) <- Auctioneer auct_params misr_i ;;
                        u_i <- utility val_sample alloc_m pay_m ;;
                        index u_i i)
                     (seq 0 bidders) ;;
  stack_scalars misr_utils.

(** [TPAL.auct_loss].  [jnp.sqrt] is the real square root [sqrt], which is
    0 on a negative argument, where the program gets a NaN: the value of
    the loss is stated on profiles of nonnegative values only, on which the
    revenue is nonnegative, as the total regret always is. *)
Definition auct_loss (auct_params : AuctParams) (misr_params : MisrParams)
    (val_sample : mat) : result R :=
  '(alloc, pay) <- Auctioneer auct_params val_sample ;;
  misreports <- Misreporter misr_params val_sample ;;
  u_misr <- misr_utility misreports val_sample auct_params ;;
  u_truth <- utility val_sample alloc pay ;;
  diff <- broadcast1 Rminus u_misr u_truth ;;
  let regret := map relu diff in
  Ok (- (sqrt (sum pay) - sqrt (sum regret)) + sum regret).

(** [TPAL.misr_loss] *)
Definition misr_loss (misr_params : MisrParams) (auct_params : AuctParams)
    (val_sample : mat) : result R :=
  misreports <- Misreporter misr_params val_sample ;;
  u_misr <- misr_utility misreports val_sample auct_params ;;
  Ok (- sum u_misr).

(** [jnp.mean] *)
Definition mean (v : vec) : R := sum v / INR (length v).

(** [TPAL.v_auct_loss]: the loss of every profile of the batch
    ([jax.vmap]), averaged. *)
Definition v_auct_loss (auct_params : AuctParams) (misr_params : MisrParams)
    (val_batch : list mat) : result R :=
  losses <- mapM (auct_loss auct_params misr_params) val_batch ;;
  Ok (mean losses).

(** [TPAL.v_misr_loss] *)
Definition v_misr_loss (misr_params : MisrParams) (auct_params : AuctParams)
    (val_batch : list mat) : result R :=
  losses <- mapM (misr_loss misr_params auct_params) val_batch ;;
  Ok (mean losses).

End Networks.

Arguments alloc_prob {MLPParams} _.
Arguments alloc_which {MLPParams} _.
Arguments pay_mlp {MLPParams} _.
Arguments misr_mlp {MLPParams} _.

(** ** The networks on an array of rank 3 *)

(** [test] applies the networks and [utility] to what [sampler.sample(1)]
    returns, an array of shape [(1, bidders, items)], without [jax.vmap],
    and so do the initialisations of the networks in [initial_state] and
    [reinit_misr].  An array of rank 3 is the list of its slices along
    axis 0, so that its axis 1 is the axis of the rows of a slice: the axis
    of the bidders.  The definitions that follow are the functions of the
    program on such an argument; their names end in [3]. *)

(** What [jnp.squeeze] returns for an array of rank 3: an array of rank at
    most 2, or the array itself. *)
Inductive ndarray3 : Type :=
| Low (a : ndarray)
| Arr3 (t : list mat).

(** [jnp.sum(m, axis=0)] *)
Definition sum_axis0 (m : mat) : vec :=
  map (fun j => sum (column j m)) (seq 0 (ncols m)).

(** Two arrays of rank 3 have equal shapes. *)
Definition equal_shape3 (t1 t2 : list mat) : bool :=
  (length t1 =? length t2)%nat
  && forallb (fun p => equal_shape2 (fst p) (snd p)) (combine t1 t2).

(** [jnp.squeeze] of an array of rank 3. *)
Definition squeeze3 (t : list mat) : ndarray3 :=
  match t with
  | [m] => Low (squeeze (Arr2 m))
  | _ =>
      if (ncols t =? 1)%nat
      then Low (let m := map (fun s => hd [] s) t in
                if (ncols m =? 1)%nat then Arr1 (map (fun row => hd 0 row) m) else Arr2 m)
      else if (ncols (hd [] t) =? 1)%nat
           then Low (Arr2 (map (map (fun row => hd 0 row)) t))
           else Arr3 t
  end.

(** [permute_along_bidders] on an array of rank 3: the slices [B[:, 0:i]],
    [B[:, i+1:]] and [B[:, i:i+1]] are ranges of rows. *)
Definition permute_along_bidders3 (B : list mat) (i : nat) : result (list mat) :=
  let head := cols 0 i B in
  let tail := cols_from (i + 1) B in
  let b_i := cols i (i + 1) B in
  permuted <- concatenate1 b_i head tail ;;
  assert (equal_shape3 B permuted) ;;;
  Ok permuted.

Section NetworksRank3.

Variable MLPParams : Type.
Variable MLP : list nat -> MLPParams -> vec -> vec.
Variables bidders items net_width net_depth : nat.

(** [Auctioneer.__call__] on an array of rank 3.  Where [jnp.squeeze(vals)]
    keeps the rank 3, the product with the allocation has rank 3, its sum
    over axis 1 has rank 2 and so has the product with [pay], which fails
    the last shape assertion. *)
Definition Auctioneer3 (params : AuctParams MLPParams) (vals : list mat)
  : result (mat * vec) :=
  let alloc :=
    MLP (layers_alloc bidders items net_width net_depth) (alloc_prob params)
      (ravel (ravel vals)) in
  let alloc := map sigmoid alloc in
  assert (has_shape1 items alloc) ;;;
  rows <- mapM (fun i =>
                  p <- permute_along_bidders3 vals i ;;
                  Ok (MLP (layers_alloc bidders items net_width net_depth)
                        (alloc_which params) (ravel (ravel p))))
               (seq 0 bidders) ;;
  L <- stack0 rows ;;
  let L := softmax0 L in
  assert (has_shape2 bidders items L) ;;;
  alloc <- broadcast2 Rmult (Arr1 alloc) L ;;
  assert (has_shape2 bidders items alloc) ;;;
  fracs <- mapM (fun i =>
                   p <- permute_along_bidders3 vals i ;;
                   Ok (map sigmoid
                         (MLP (layers_pay bidders items net_width net_depth)
                            (pay_mlp params) (ravel (ravel p)))))
                (seq 0 bidders) ;;
  stacked <- stack1 fracs ;;
  let pay := squeeze (Arr2 stacked) in
  pay <- (if (bidders =? 1)%nat then stack_single pay else Ok pay) ;;
  pay <- expect_shape1 bidders pay ;;
  match squeeze3 vals with
  | Low a =>
      prod <- broadcast2 Rmult a alloc ;;
      pay <- broadcast1 Rmult pay (sum_axis1 prod) ;;
      assert (has_shape1 bidders pay) ;;;
      Ok (alloc, pay)
  | Arr3 t =>
      prod <- mapM (fun m => broadcast2 Rmult (Arr2 m) alloc) t ;;
      broadcast2 Rmult (Arr1 pay) (map sum_axis0 prod) ;;;
      Raise AssertionError
  end.

(** [Misreporter.__call__] on an array of rank 3. *)
Definition Misreporter3 (params : MisrParams MLPParams) (vals : list mat) : result mat :=
  m_ <- mapM (fun i =>
                p <- permute_along_bidders3 vals i ;;
                Ok (MLP (layers_misr bidders items net_width net_depth)
                      (misr_mlp params) (ravel (ravel p))))
             (seq 0 bidders) ;;
  misreports <- stack0 m_ ;;
  assert (has_shape2 bidders items misreports) ;;;
  Ok (map (map sigmoid) misreports).

(** [TPAL.utility] on values of rank 3.  Where [jnp.squeeze(vals)] keeps
    the rank 3, the utilities have rank 2 and not the shape of [pay]. *)
Definition utility3 (vals : list mat) (alloc : mat) (pay : vec) : result vec :=
  match squeeze3 vals with
  | Low a =>
      prod <- broadcast2 Rmult a alloc ;;
      utilities <- broadcast1 Rminus (sum_axis1 prod) pay ;;
      assert (has_shape1 (length pay) utilities) ;;;
      Ok utilities
  | Arr3 t =>
      prod <- mapM (fun m => broadcast2 Rmult (Arr2 m) alloc) t ;;
      broadcast2 (fun p s => s - p) (Arr1 pay) (map sum_axis0 prod) ;;;
      Raise AssertionError
  end.

(** [TPAL.misr_utility] on the values that [test] passes,
    [jnp.squeeze(val_sample)].  On an array of rank 0 or 1 the slice
    [vals[:, 0:i]] of [misr_bidder_i] has too many indices; an array of
    rank 3 cannot be concatenated with the misreports, of rank 2. *)
Definition misr_utility3 (misreports : mat) (val_sample : ndarray3)
    (auct_params : AuctParams MLPParams) : result vec :=
  match val_sample with
  | Low (Arr2 vals) =>
      misr_utility MLPParams MLP bidders items net_width net_depth misreports vals
        auct_params
  | Low _ =>
      misr_utils <- mapM (fun _ : nat => @Raise R IndexError) (seq 0 bidders) ;;
      stack_scalars misr_utils
  | Arr3 _ =>
      misr_utils <- mapM (fun _ : nat => @Raise R ValueError) (seq 0 bidders) ;;
      stack_scalars misr_utils
  end.

End NetworksRank3.

(** ** [BidSampler] *)

(** [jnp.stack(ms, axis=0)] of matrices: at least one, all of one shape. *)
Definition stack0_mat (ms : list mat) : result (list mat) :=
  match ms with
  | [] => Raise ValueError
  | m :: _ =>
      if forallb (equal_shape2 m) ms then Ok ms else Raise ValueError
  end.

(** [range(0, n)] *)
Definition range (n : Z) : list Z := map Z.of_nat (seq 0 (Z.to_nat n)).

Module BidSampler.
Section Sampler.

(** PRNG keys: [split k n i] is [jax.random.split(k, n)[i]], and
    [uniform k r c] is [jax.random.uniform(k, (r, c))]. *)
Variable Key : Type.
Variable split : Key -> nat -> nat -> Key.
Variable uniform : Key -> nat -> nat -> mat.

(** The attribute [subkey] exists after the first call of [sample]. *)
Record t : Type := {
  bidders : nat;
  items : nat;
  key : Key;
  subkey : option Key
}.

(** [BidSampler.__init__] *)
Definition init (rng : Key) (bidders items : nat) : t :=
  {| bidders := bidders; items := items; key := rng; subkey := None |}.

(** [BidSampler.sample]: the sampler after the call, and what the call
    returns. *)
Definition sample (self : t) (num_samples : Z) : t * result (list mat) :=
  let key' := split (key self) 2 0 in
  let subkey' := split (key self) 2 1 in
  ({| bidders := bidders self; items := items self;
      key := key'; subkey := Some subkey' |},
   stack0_mat (map (fun _ => uniform subkey' (bidders self) (items self))
                   (range num_samples))).

End Sampler.

Arguments bidders {Key} _.
Arguments items {Key} _.
Arguments key {Key} _.
Arguments subkey {Key} _.

End BidSampler.

(** ** The learner's state and its updates *)

Record TPALTuple (A M : Type) : Type := {
  auct : A;
  misr : M
}.

Arguments auct {A M} _.
Arguments misr {A M} _.

(** What the training loop does that can be seen from outside: the calls to
    the sampler and to the learner, in order, and the lines it prints. *)
Inductive output : Type :=
| DeviceInfo
| ParamShapes
| StepLosses (step : Z) (auct_loss misr_loss : R).

Inductive event : Type :=
| Sampled (num_samples : Z) (batch : list mat)
| Reinit (vals : list mat)
| UpdateMisr (batch : list mat)
| UpdateAuct (batch : list mat)
| Printed (line : output).

(** A computation emits events and returns or raises. *)
Definition io (A : Type) : Type := (list event * result A)%type.

Definition ret {A : Type} (a : A) : io A := ([], Ok a).

Definition emit (e : event) : io unit := ([e], Ok tt).

Definition lift {A : Type} (r : result A) : io A := ([], r).

Definition bind_io {A B : Type} (m : io A) (k : A -> io B) : io B :=
  match m with
  | (evs, Ok a) => let '(evs', r) := k a in (evs ++ evs', r)
  | (evs, Raise e) => (evs, Raise e)
  end.

Notation "x <~ m ;; k" := (bind_io m (fun x => k))
  (at level 61, m at next level, right associativity).
Notation "' ( x , y ) <~ m ;; k" := (bind_io m (fun xy => let '(x, y) := xy in k))
  (at level 61, x name, y name, m at next level, right associativity).
Notation "m ;;~ k" := (bind_io m (fun _ => k))
  (at level 61, right associativity).

(** [a % b] on Python integers. *)
Definition py_mod (a b : Z) : result Z :=
  if (b =? 0)%Z then Raise ZeroDivisionError else Ok (a mod b)%Z.

(** A [for] loop over [xs] that threads the loop's variables. *)
Fixpoint for_each {X S : Type} (xs : list X) (body : X -> S -> io S) (s : S) : io S :=
  match xs with
  | [] => ret s
  | x :: xs' => s' <~ body x s ;; for_each xs' body s'
  end.

Section Learner.

Variable MLPParams : Type.
Variable MLP : list nat -> MLPParams -> vec -> vec.

(** PRNG keys, as for [BidSampler]. *)
Variable Key : Type.
Variable PRNGKey : Z -> Key.
Variable split : Key -> nat -> nat -> Key.
Variable uniform : Key -> nat -> nat -> mat.

(** The framework: the parameters that [hk.transform(...).init] creates for
    the two networks, on a batch of one profile; [jax.grad] of a loss in
    its first argument;
    [optax.adamw(4e-4, b1=0.9, b2=0.999)] with its [init] and [update], and
    [optax.apply_updates].  Gradients and updates have the type of the
    parameters. *)
Variable auct_transform_init : nat -> nat -> nat -> nat -> Key -> list mat -> AuctParams MLPParams.
Variable misr_transform_init : nat -> nat -> nat -> nat -> Key -> list mat -> MisrParams MLPParams.
Variable grad : forall P Q : Type, (P -> Q -> list mat -> result R) -> P -> Q -> list mat -> P.
Variable OptState : Type -> Type.
Variable adamw_init : forall P : Type, P -> OptState P.
Variable adamw_update : forall P : Type, P -> OptState P -> P -> P * OptState P.
Variable apply_updates : forall P : Type, P -> P -> P.

(** [jax.value_and_grad(f)(p, q, batch)] *)
Definition value_and_grad {P Q : Type} (f : P -> Q -> list mat -> result R)
    (p : P) (q : Q) (batch : list mat) : result (R * P) :=
  v <- f p q batch ;; Ok (v, grad P Q f p q batch).

Record TPALState : Type := {
  params : TPALTuple (AuctParams MLPParams) (MisrParams MLPParams);
  opt_state : TPALTuple (OptState (AuctParams MLPParams)) (OptState (MisrParams MLPParams))
}.

(** The learner object: [TPAL.__init__] stores the four sizes. *)
Record TPAL : Type := {
  bidders : nat;
  items : nat;
  net_width : nat;
  net_depth : nat
}.

(** [self.auct_transform.init(rng, vals)] and
    [self.misr_transform.init(rng, vals)]: the parameters are created and the
    network is run with them on [vals], an array of rank 3, so that an
    exception of the forward pass is an exception of the initialisation. *)
Definition init_auct (self : TPAL) (rng : Key) (vals : list mat)
  : result (AuctParams MLPParams) :=
  let p := auct_transform_init (bidders self) (items self) (net_width self)
             (net_depth self) rng vals in
  Auctioneer3 MLPParams MLP (bidders self) (items self) (net_width self)
    (net_depth self) p vals ;;;
  Ok p.

Definition init_misr (self : TPAL) (rng : Key) (vals : list mat)
  : result (MisrParams MLPParams) :=
  let p := misr_transform_init (bidders self) (items self) (net_width self)
             (net_depth self) rng vals in
  Misreporter3 MLPParams MLP (bidders self) (items self) (net_width self)
    (net_depth self) p vals ;;;
  Ok p.

(** [TPAL.initial_state] *)
Definition initial_state (self : TPAL) (rng : Key) (vals : list mat) : io TPALState :=
  let rng_auct := split rng 3 1 in
  let rng_misr := split rng 3 2 in
  auct_params <~ lift (init_auct self rng_auct vals) ;;
  misr_params <~ lift (init_misr self rng_misr vals) ;;
  let params := {| auct := auct_params; misr := misr_params |} in
  emit (Printed ParamShapes) ;;~
  emit (Printed ParamShapes) ;;~
  let opt_state :=
    {| auct := adamw_init _ (auct params); misr := adamw_init _ (misr params) |} in
  ret {| params := params; opt_state := opt_state |}.

(** [TPAL.reinit_misr] *)
Definition reinit_misr (self : TPAL) (rng : Key) (tpal_state : TPALState) (vals : list mat)
  : result TPALState :=
  let rng_misr := split rng 2 1 in
  misr_params <- init_misr self rng_misr vals ;;
  let params' :=
    {| auct := auct (params tpal_state);
       misr := misr_params |} in
  let opt_state' :=
    {| auct := auct (opt_state tpal_state);
       misr := adamw_init _ (misr params') |} in
  Ok {| params := params'; opt_state := opt_state' |}.

(** [TPAL.update_auct]: the new state and the logged loss. *)
Definition update_auct (self : TPAL) (tpal_state : TPALState) (batch : list mat)
  : result (TPALState * R) :=
  '(auct_loss, auct_grads) <-
    value_and_grad
      (v_auct_loss MLPParams MLP (bidders self) (items self) (net_width self)
         (net_depth self))
      (auct (params tpal_state)) (misr (params tpal_state)) batch ;;
  let '(auct_update, auct_opt_state) :=
    adamw_update _ auct_grads (auct (opt_state tpal_state))
      (auct (params tpal_state)) in
  let auct_params := apply_updates _ (auct (params tpal_state)) auct_update in
  let params' := {| auct := auct_params; misr := misr (params tpal_state) |} in
  let opt_state' :=
    {| auct := auct_opt_state; misr := misr (opt_state tpal_state) |} in
  Ok ({| params := params'; opt_state := opt_state' |}, auct_loss).

(** [TPAL.update_misr] *)
Definition update_misr (self : TPAL) (tpal_state : TPALState) (batch : list mat)
  : result (TPALState * R) :=
  '(misr_loss, misr_grads) <-
    value_and_grad
      (v_misr_loss MLPParams MLP (bidders self) (items self) (net_width self)
         (net_depth self))
      (misr (params tpal_state)) (auct (params tpal_state)) batch ;;
  let '(misr_update, misr_opt_state) :=
    adamw_update _ misr_grads (misr (opt_state tpal_state))
      (misr (params tpal_state)) in
  let misr_params := apply_updates _ (misr (params tpal_state)) misr_update in
  let params' := {| misr := misr_params; auct := auct (params tpal_state) |} in
  let opt_state' :=
    {| misr := misr_opt_state; auct := auct (opt_state tpal_state) |} in
  Ok ({| params := params'; opt_state := opt_state' |}, misr_loss).

(** ** [training] *)

(** The variables of the loop. [misr_log] and [auct_log] are bound by the
    first update. *)
Record locals : Type := {
  sampler : BidSampler.t Key;
  tpal_state : TPALState;
  misr_log : option R;
  auct_log : option R;
  steps : list Z;
  auct_losses : list R;
  misr_losses : list R
}.

(** [sampler.sample(n)], recorded. *)
Definition call_sample (sampler : BidSampler.t Key) (n : Z)
  : io (BidSampler.t Key * list mat) :=
  let '(sampler', r) := BidSampler.sample Key split uniform sampler n in
  batch <~ lift r ;;
  emit (Sampled n batch) ;;~
  ret (sampler', batch).

(** Reading a local variable that no assignment has bound. *)
Definition read_local {A : Type} (x : option A) : result A :=
  match x with
  | Some a => Ok a
  | None => Raise UnboundLocalError
  end.

(** The body of [for step in range(num_steps)]. *)
Definition training_step (tpal : TPAL) (rng_misr_reinit : Key)
    (misr_updates misr_reinit_iv misr_reinit_lim batch_size log_every : Z)
    (step : Z) (l : locals) : io locals :=
  '(sampler1, val_sample) <~ call_sample (sampler l) batch_size ;;
  r <~ lift (py_mod step misr_reinit_iv) ;;
  '(sampler2, tpal_state1) <~
    (if (r =? 0)%Z && (step <=? misr_reinit_lim)%Z
     then
       '(sampler2, vals) <~ call_sample sampler1 1 ;;
       emit (Reinit vals) ;;~
       tpal_state1 <~ lift (reinit_misr tpal rng_misr_reinit (tpal_state l) vals) ;;
       ret (sampler2, tpal_state1)
     else ret (sampler1, tpal_state l)) ;;
  '(tpal_state2, misr_log2) <~
    for_each (range misr_updates)
      (fun _ cur =>
         emit (UpdateMisr val_sample) ;;~
         '(st, loss) <~ lift (update_misr tpal (fst cur) val_sample) ;;
         ret (st, Some loss))
      (tpal_state1, misr_log l) ;;
  emit (UpdateAuct val_sample) ;;~
  '(tpal_state3, auct_loss) <~ lift (update_auct tpal tpal_state2 val_sample) ;;
  r' <~ lift (py_mod step log_every) ;;
  if (r' =? 0)%Z
  then
    misr_loss <~ lift (read_local misr_log2) ;;
    emit (Printed (StepLosses step auct_loss misr_loss)) ;;~
    ret {| sampler := sampler2; tpal_state := tpal_state3;
           misr_log := misr_log2; auct_log := Some auct_loss;
           steps := steps l ++ [step];
           auct_losses := auct_losses l ++ [auct_loss];
           misr_losses := misr_losses l ++ [misr_loss] |}
  else
    ret {| sampler := sampler2; tpal_state := tpal_state3;
           misr_log := misr_log2; auct_log := Some auct_loss;
           steps := steps l;
           auct_losses := auct_losses l;
           misr_losses := misr_losses l |}.

(** [training] *)
Definition training
    (num_steps misr_updates misr_reinit_iv misr_reinit_lim batch_size : Z)
    (bidders items net_width net_depth : nat) : io (TPAL * TPALState) :=
  let log_every := (num_steps / 100)%Z in
  emit (Printed DeviceInfo) ;;~
  let tpal := {| bidders := bidders; items := items;
                 net_width := net_width; net_depth := net_depth |} in
  let rng := PRNGKey 1729 in
  let rng_sampler := split rng 4 1 in
  let rng_state_init := split rng 4 2 in
  let rng_misr_reinit := split rng 4 3 in
  let sampler0 := BidSampler.init Key rng_sampler bidders items in
  '(sampler1, vals) <~ call_sample sampler0 1 ;;
  tpal_state0 <~ initial_state tpal rng_state_init vals ;;
  l <~ for_each (range num_steps)
         (training_step tpal rng_misr_reinit misr_updates misr_reinit_iv
            misr_reinit_lim batch_size log_every)
         {| sampler := sampler1; tpal_state := tpal_state0;
            misr_log := None; auct_log := None;
            steps := []; auct_losses := []; misr_losses := [] |} ;;
  ret (tpal, tpal_state l).

End Learner.

Arguments params {MLPParams OptState} _.
Arguments opt_state {MLPParams OptState} _.
Arguments sampler {MLPParams Key OptState} _.
Arguments tpal_state {MLPParams Key OptState} _.
Arguments misr_log {MLPParams Key OptState} _.
Arguments auct_log {MLPParams Key OptState} _.
Arguments steps {MLPParams Key OptState} _.
Arguments auct_losses {MLPParams Key OptState} _.
Arguments misr_losses {MLPParams Key OptState} _.

(** The calls of one step of the loop: the batch is sampled; the misreporter is reinitialised, on a fresh
    sample of one profile, exactly when the step is a multiple of the
    interval and not beyond the limit; then come [misr_updates] updates of
    the misreporter and one update of the auctioneer, all on the batch. *)
Definition step_calls (misr_updates misr_reinit_iv misr_reinit_lim batch_size : Z)
    (step : Z) (evs : list event) : Prop :=
  exists val_sample reinit_evs,
    evs = Sampled batch_size val_sample
          :: reinit_evs
          ++ repeat (UpdateMisr val_sample) (Z.to_nat misr_updates)
          ++ [UpdateAuct val_sample]
    /\ (if ((step mod misr_reinit_iv =? 0) && (step <=? misr_reinit_lim))%Z
        then exists vals, reinit_evs = [Sampled 1 vals; Reinit vals]
        else reinit_evs = []).

(** The events of one step: its calls, and the line printed when the step
    is logged. *)
Definition step_trace (misr_updates misr_reinit_iv misr_reinit_lim batch_size : Z)
    (step : Z) (evs : list event) : Prop :=
  exists calls logged,
    evs = calls ++ logged
    /\ step_calls misr_updates misr_reinit_iv misr_reinit_lim batch_size step calls
    /\ (logged = []
        \/ exists auct_loss misr_loss, logged = [Printed (StepLosses step auct_loss misr_loss)]).

(** The sampler after a call of [sample], and the batch the call returns
    for [num_samples >= 1]. *)
Definition next_sampler {Key : Type} (split : Key -> nat -> nat -> Key)
    (self : BidSampler.t Key) : BidSampler.t Key :=
  {| BidSampler.bidders := BidSampler.bidders self;
     BidSampler.items := BidSampler.items self;
     BidSampler.key := split (BidSampler.key self) 2%nat 0%nat;
     BidSampler.subkey := Some (split (BidSampler.key self) 2%nat 1%nat) |}.

Definition drawn {Key : Type} (split : Key -> nat -> nat -> Key)
    (uniform : Key -> nat -> nat -> mat) (self : BidSampler.t Key) (num_samples : Z)
  : list mat :=
  repeat (uniform (split (BidSampler.key self) 2%nat 1%nat)
            (BidSampler.bidders self) (BidSampler.items self))
         (Z.to_nat num_samples).

(** The key of a sampler after [n] calls of [sample]: every call keeps the
    first half of the split of the key. *)
Fixpoint advance {Key : Type} (split : Key -> nat -> nat -> Key) (n : nat) (k : Key) : Key :=
  match n with
  | O => k
  | S n' => advance split n' (split k 2%nat 0%nat)
  end.

(** The sampler after the calls [sample(n)], for the [n] of a list in
    order, whatever the calls return. *)
Definition after_calls {Key : Type} (split : Key -> nat -> nat -> Key)
    (uniform : Key -> nat -> nat -> mat) (self : BidSampler.t Key) (ns : list Z)
  : BidSampler.t Key :=
  fold_left (fun s n => fst (BidSampler.sample Key split uniform s n)) ns self.

(** The steps whose losses were printed, in the order of the lines. *)
Definition logged_steps (evs : list event) : list Z :=
  flat_map (fun e => match e with
                     | Printed (StepLosses step _ _) => [step]
                     | _ => []
                     end) evs.

(** ** [test] *)

(** What is printed after the training: the heading that the script
    prints, and the four lines that an iteration of [test] prints, with
    the numbers they show. *)
Inductive metric : Type :=
| MetricsHeading
| UtilityTruthful (x : R)
| UtilityMisrep (x : R)
| Regret (x : R)
| Pay (x : R).

Section Test.

Variable MLPParams : Type.
Variable MLP : list nat -> MLPParams -> vec -> vec.
Variable Key : Type.
Variable PRNGKey : Z -> Key.
Variable split : Key -> nat -> nat -> Key.
Variable uniform : Key -> nat -> nat -> mat.
Variable OptState : Type -> Type.

(** The body of the loop of [test]: the sampler after the iteration, and
    the lines that the iteration prints, all of them after its last
    computation. *)
Definition test_iteration (tpal : TPAL) (tpal_state : TPALState MLPParams OptState)
    (sampler : BidSampler.t Key) : BidSampler.t Key * result (list metric) :=
  let '(sampler', r) := BidSampler.sample Key split uniform sampler 1 in
  (sampler',
   val_sample <- r ;;
   '(alloc, pay) <-
     Auctioneer3 MLPParams MLP (bidders tpal) (items tpal) (net_width tpal)
       (net_depth tpal) (auct (params tpal_state)) val_sample ;;
   misreports <-
     Misreporter3 MLPParams MLP (bidders tpal) (items tpal) (net_width tpal)
       (net_depth tpal) (misr (params tpal_state)) val_sample ;;
   misr_util <-
     misr_utility3 MLPParams MLP (bidders tpal) (items tpal) (net_width tpal)
       (net_depth tpal) misreports (squeeze3 val_sample) (auct (params tpal_state)) ;;
   truth_util <- utility3 val_sample alloc pay ;;
   regret <- broadcast1 Rminus misr_util truth_util ;;
   Ok [UtilityTruthful (sum truth_util); UtilityMisrep (sum misr_util);
       Regret (sum regret); Pay (sum pay)]).

(** [for _ in range(0, 10)]: the lines printed, and whether the loop ends
    or raises. *)
Fixpoint test_loop {X : Type} (xs : list X) (tpal : TPAL)
    (tpal_state : TPALState MLPParams OptState) (sampler : BidSampler.t Key)
  : list metric * result unit :=
  match xs with
  | [] => ([], Ok tt)
  | _ :: xs' =>
      match test_iteration tpal tpal_state sampler with
      | (sampler', Ok lines) =>
          let '(rest, r) := test_loop xs' tpal tpal_state sampler' in
          (lines ++ rest, r)
      | (_, Raise e) => ([], Raise e)
      end
  end.

(** [test] *)
Definition test (tpal : TPAL) (tpal_state : TPALState MLPParams OptState)
  : list metric * result unit :=
  let rng := PRNGKey 1337 in
  let sampler := BidSampler.init Key rng (bidders tpal) (items tpal) in
  test_loop (range 10) tpal tpal_state sampler.

End Test.

(** ** The script *)

Section Script.

Variable MLPParams : Type.
Variable MLP : list nat -> MLPParams -> vec -> vec.
Variable Key : Type.
Variable PRNGKey : Z -> Key.
Variable split : Key -> nat -> nat -> Key.
Variable uniform : Key -> nat -> nat -> mat.
Variable auct_transform_init : nat -> nat -> nat -> nat -> Key -> list mat -> AuctParams MLPParams.
Variable misr_transform_init : nat -> nat -> nat -> nat -> Key -> list mat -> MisrParams MLPParams.
Variable grad : forall P Q : Type, (P -> Q -> list mat -> result R) -> P -> Q -> list mat -> P.
Variable OptState : Type -> Type.
Variable adamw_init : forall P : Type, P -> OptState P.
Variable adamw_update : forall P : Type, P -> OptState P -> P -> P * OptState P.
Variable apply_updates : forall P : Type, P -> P -> P.

(** The statements of the module: the short training, the heading, and
    [test] on what the training returned.  The events are those of the
    training; an exception of the training ends the script. *)
Definition main : list event * (list metric * result unit) :=
  let '(evs, r) :=
    training MLPParams MLP Key PRNGKey split uniform auct_transform_init
      misr_transform_init grad OptState adamw_init adamw_update apply_updates
      1000 50 500 1000 100 10 5 200 7 in
  match r with
  | Ok (tpal, state) =>
      let '(lines, r') :=
        test MLPParams MLP Key PRNGKey split uniform OptState tpal state in
      (evs, (MetricsHeading :: lines, r'))
  | Raise e => (evs, ([], Raise e))
  end.

End Script.

(** The lines of one iteration of [test]. *)
Definition iteration_lines (lines : list metric) : Prop :=
  exists ut um p,
    lines = [UtilityTruthful ut; UtilityMisrep um; Regret (um - ut); Pay p].

(** The lines of an iteration of [test] on the profile [m]: the sum of the
    truthful utilities, the sum of the utilities under the misreports,
    their difference, and the sum of the payments, where the auction and
    the misreports are those of the networks on the batch [[m]] and the
    utilities those of [misr_utility] and [utility] on [m]. *)
Definition iteration_metrics (MLPParams : Type) (MLP : list nat -> MLPParams -> vec -> vec)
    (bidders items net_width net_depth : nat)
    (ap : AuctParams MLPParams) (mp : MisrParams MLPParams) (m : mat)
    (lines : list metric) : Prop :=
  exists alloc pay misreports u_misr u_truth,
    Auctioneer3 MLPParams MLP bidders items net_width net_depth ap [m] = Ok (alloc, pay)
    /\ Misreporter3 MLPParams MLP bidders items net_width net_depth mp [m] = Ok misreports
    /\ misr_utility MLPParams MLP bidders items net_width net_depth misreports m ap
       = Ok u_misr
    /\ utility m alloc pay = Ok u_truth
    /\ lines = [UtilityTruthful (sum u_truth); UtilityMisrep (sum u_misr);
                Regret (sum u_misr - sum u_truth); Pay (sum pay)].

(** The calls among the events, by kind. *)
Definition is_sampled (e : event) : bool :=
  match e with Sampled _ _ => true | _ => false end.

Definition is_reinit (e : event) : bool :=
  match e with Reinit _ => true | _ => false end.

Definition is_update_misr (e : event) : bool :=
  match e with UpdateMisr _ => true | _ => false end.

Definition is_update_auct (e : event) : bool :=
  match e with UpdateAuct _ => true | _ => false end.

Definition count_events (p : event -> bool) (evs : list event) : nat :=
  length (filter p evs).

(** The steps at which the misreporter is reinitialised. *)
Definition reinit_due (misr_reinit_iv misr_reinit_lim : Z) (step : Z) : bool :=
  ((step mod misr_reinit_iv =? 0) && (step <=? misr_reinit_lim))%Z.

(** ** Terms of the statements *)

(** A row with the entry at [i] moved to the front. *)
Definition permute_row {A : Type} (i : nat) (r : list A) : list A :=
  slice i (i + 1) r ++ slice 0 i r ++ skipn (i + 1) r.

(** A row of [v] with the entry at [i] taken from [m]. *)
Definition replace_entry {A : Type} (i : nat) (v m : list A) : list A :=
  slice 0 i v ++ slice i (i + 1) m ++ skipn (i + 1) v.

(** Entry-wise combination of two lists of one length. *)
Definition zipWith {X Y Z : Type} (f : X -> Y -> Z) (xs : list X) (ys : list Y)
  : list Z :=
  map (fun p => f (fst p) (snd p)) (combine xs ys).

(** The loss as a function of the revenue and of the total regret. *)
Definition loss_of (revenue total_regret : R) : R :=
  - (sqrt revenue - sqrt total_regret) + total_regret.

Section NetworkTerms.

Variable MLPParams : Type.
Variable MLP : list nat -> MLPParams -> vec -> vec.
Variables bidders items net_width net_depth : nat.

(** The output of the misreporter's MLP for the view [i] of the profile. *)
Definition misr_logits (params : MisrParams MLPParams) (vals : mat) (i : nat) : vec :=
  MLP (layers_misr bidders items net_width net_depth) (misr_mlp params)
    (ravel (map (permute_row i) vals)).

(** The per-item probability of allocating at all. *)
Definition alloc_gate (params : AuctParams MLPParams) (vals : mat) : vec :=
  map sigmoid
    (MLP (layers_alloc bidders items net_width net_depth) (alloc_prob params) (ravel vals)).

(** The matrix [L] before the softmax: one row per bidder. *)
Definition alloc_logits (params : AuctParams MLPParams) (vals : mat) : mat :=
  map (fun i => MLP (layers_alloc bidders items net_width net_depth) (alloc_which params)
                  (ravel (map (permute_row i) vals)))
      (seq 0 bidders).

(** The allocation: the softmax over the bidders, scaled item by item. *)
Definition allocation (params : AuctParams MLPParams) (vals : mat) : mat :=
  map (zipWith Rmult (alloc_gate params vals)) (softmax0 (alloc_logits params vals)).

(** The fraction that bidder [i] pays. *)
Definition pay_fraction (params : AuctParams MLPParams) (vals : mat) (i : nat) : R :=
  sigmoid (nth 0 (MLP (layers_pay bidders items net_width net_depth) (pay_mlp params)
                    (ravel (map (permute_row i) vals))) 0).

Definition pay_fractions (params : AuctParams MLPParams) (vals : mat) : vec :=
  map (pay_fraction params vals) (seq 0 bidders).

(** What [jnp.sum(jnp.squeeze(vals) * alloc, axis=1)] is meant to be: for
    every bidder, the value of what the bidder is allocated. *)
Definition allocated_values (vals alloc : mat) : vec :=
  sum_axis1 (zipWith (zipWith Rmult) vals alloc).

(** The payments of the auction run on the profile [reported]. *)
Definition payments (params : AuctParams MLPParams) (reported : mat) : vec :=
  zipWith Rmult (pay_fractions params reported)
    (allocated_values reported (allocation params reported)).

(** The utilities of the bidders whose values are [vals] when the auction
    is run on the profile [reported]. *)
Definition utilities_at (params : AuctParams MLPParams) (vals reported : mat) : vec :=
  zipWith Rminus (allocated_values vals (allocation params reported))
    (payments params reported).

(** The profile on which the auction is run for the bidder [i]: the
    profile that [misr_bidder_i] builds. *)
Definition misr_profile (vals misrs : mat) (i : nat) : mat :=
  zipWith (replace_entry i) vals misrs.

(** The misreports of the misreporter. *)
Definition misreports_of (params : MisrParams MLPParams) (vals : mat) : mat :=
  map (fun i => map sigmoid (misr_logits params vals i)) (seq 0 bidders).

(** The utility of every bidder under the misreport profile that the
    program builds for the bidder. *)
Definition u_misr (ap : AuctParams MLPParams) (mp : MisrParams MLPParams) (vals : mat)
  : vec :=
  map (fun i => nth i (utilities_at ap vals
                         (misr_profile vals (misreports_of mp vals) i)) 0)
      (seq 0 bidders).

(** The regret of every bidder. *)
Definition regret (ap : AuctParams MLPParams) (mp : MisrParams MLPParams) (vals : mat)
  : vec :=
  map relu (zipWith Rminus (u_misr ap mp vals) (utilities_at ap vals vals)).

End NetworkTerms.

(** Every profile of the batch has the shape of the auction. *)
Definition shaped (n_bidders n_items : nat) (batch : list mat) : Prop :=
  forall m, In m batch -> has_shape2 n_bidders n_items m = true.

(** The sampler of the loop draws profiles of the auction's shape. *)
Definition sampler_ok {MLPParams Key : Type} {OptState : Type -> Type}
    (n_bidders n_items : nat) (l : locals MLPParams Key OptState) : Prop :=
  BidSampler.bidders (sampler l) = n_bidders
  /\ BidSampler.items (sampler l) = n_items.

(** ** Concrete networks, profiles and framework *)

(** An MLP all of whose weights and biases are zero: every layer outputs
    zeros ([tanh 0 = 0]), whatever the input. *)
Definition zero_MLP (layers : list nat) (p : unit) (x : vec) : vec :=
  repeat 0 (last layers 0%nat).

Definition zero_auct : AuctParams unit :=
  {| alloc_prob := tt; alloc_which := tt; pay_mlp := tt |}.

Definition zero_misr : MisrParams unit := {| misr_mlp := tt |}.

(** What the comments of [misr_bidder_i] describe ("take misreports of
    bidder i while keeping the rest fixed"): the row of the bidder [i] is
    taken from the misreports, the other rows stay. *)
Definition replace_row (vals misrs : mat) (i : nat) : mat :=
  firstn i vals ++ firstn 1 (skipn i misrs) ++ skipn (i + 1) vals.

(** The utilities of the misreporting bidders under that profile. *)
Definition u_misr_unilateral (MLPParams : Type) (MLP : list nat -> MLPParams -> vec -> vec)
    (bidders items net_width net_depth : nat)
    (ap : AuctParams MLPParams) (mp : MisrParams MLPParams) (vals : mat) : vec :=
  map (fun i =>
         nth i (utilities_at MLPParams MLP bidders items net_width net_depth ap vals
                  (replace_row vals
                     (misreports_of MLPParams MLP bidders items net_width net_depth mp vals)
                     i)) 0)
      (seq 0 bidders).

(** Two bidders, two items. *)
Definition vals_2x2 : mat := [[1 / 2; 3 / 4]; [3 / 4; 1 / 2]].

(** Three bidders, two items. *)
Definition vals_3x2 : mat := [[1 / 8; 1 / 4]; [3 / 8; 1 / 2]; [5 / 8; 3 / 4]].

(** The view of the bidder [i] that the comment of [permute_along_bidders]
    describes, "move b_i to the front of B",
    "B = [b_i, b_0, ..., b_i-1, b_i+1, ..., b_n]": the profile with the
    row of the bidder [i] moved to the front. *)
Definition bidder_view (vals : mat) (i : nat) : mat := permute_row i vals.

(** Two bidders, one item. *)
Definition vals_2x1 : mat := [[0]; [1]].

Definition vals_2x1' : mat := [[1 / 4]; [3 / 4]].

(** A framework for the concrete runs: keys are numbers, [uniform] draws
    1/2 everywhere, the networks are initialised with zero weights, the
    gradient and the optimiser leave the parameters as they are. *)
Definition example_split (k : nat) (n i : nat) : nat := (k * n + i)%nat.

Definition uniform_half (k : nat) (r c : nat) : mat := repeat (repeat (1 / 2) c) r.

Definition zero_auct_init (_ _ _ _ : nat) (_ : nat) (_ : list mat) : AuctParams unit :=
  zero_auct.

Definition zero_misr_init (_ _ _ _ : nat) (_ : nat) (_ : list mat) : MisrParams unit :=
  zero_misr.

Definition no_grad (P Q : Type) (f : P -> Q -> list mat -> result R)
    (p : P) (q : Q) (batch : list mat) : P := p.

Definition NoOptState (P : Type) : Type := unit.

Definition no_opt_init (P : Type) (p : P) : NoOptState P := tt.

Definition no_opt_update (P : Type) (g : P) (o : NoOptState P) (p : P)
  : P * NoOptState P := (g, o).

Definition keep_params (P : Type) (p u : P) : P := p.

(** A state of the learner whose networks have zero weights. *)
Definition zero_state : TPALState unit NoOptState :=
  {| params := {| auct := zero_auct; misr := zero_misr |};
     opt_state := {| auct := tt; misr := tt |} |}.

(** * Properties *)

(** ** The error monad and the array operations *)

Lemma mapM_ok_map {A B : Type} (f : A -> result B) (g : A -> B) (l : list A) :
  (forall a, In a l -> f a = Ok (g a)) -> mapM f l = Ok (map g l).
Proof.
  induction l as [|a l IH]; intros H; simpl; [reflexivity|].
  rewrite (H a (or_introl eq_refl)). simpl.
  rewrite IH by (intros; apply H; now right). reflexivity.
Qed.

Lemma mapM_pure {A B : Type} (g : A -> B) (l : list A) :
  mapM (fun a => Ok (g a)) l = Ok (map g l).
Proof. apply mapM_ok_map; reflexivity. Qed.

Lemma slice_length {A : Type} (lo hi : nat) (xs : list A) :
  length (slice lo hi xs) = Nat.min (hi - lo) (length xs - lo).
Proof. unfold slice. now rewrite length_firstn, length_skipn. Qed.

Lemma permute_row_length {A : Type} (i : nat) (r : list A) :
  length (permute_row i r) = length r.
Proof.
  unfold permute_row. rewrite !length_app, !slice_length, length_skipn. lia.
Qed.

Lemma replace_entry_length {A : Type} (i : nat) (v m : list A) :
  length m = length v -> length (replace_entry i v m) = length v.
Proof.
  intros H. unfold replace_entry.
  rewrite !length_app, !slice_length, length_skipn. lia.
Qed.

Lemma replace_entry_out_of_range {A : Type} (i : nat) (v m : list A) :
  (length v <= i)%nat -> (length m <= i)%nat -> replace_entry i v m = v.
Proof.
  intros Hv Hm. unfold replace_entry, slice.
  rewrite (skipn_all2 (n := i + 1) v) by lia.
  rewrite (skipn_all2 (n := i) m) by lia.
  rewrite firstn_nil. simpl. rewrite app_nil_r.
  apply firstn_all2. lia.
Qed.

Lemma combine_map_same {A B C : Type} (f : A -> B) (g : A -> C) (l : list A) :
  combine (map f l) (map g l) = map (fun a => (f a, g a)) l.
Proof. induction l; simpl; congruence. Qed.

Lemma combine_map_r {A B : Type} (f : A -> B) (l : list A) :
  combine l (map f l) = map (fun a => (a, f a)) l.
Proof. induction l; simpl; congruence. Qed.

Lemma permute_along_bidders_ok (B : mat) (i : nat) :
  permute_along_bidders B i = Ok (map (permute_row i) B).
Proof.
  unfold permute_along_bidders, concatenate1, concatenate1_2, cols, cols_from.
  rewrite !length_map, Nat.eqb_refl. simpl.
  rewrite !length_map, length_combine, !length_map, Nat.min_id, Nat.eqb_refl. simpl.
  rewrite combine_map_same, map_map. simpl.
  rewrite combine_map_same, map_map. simpl.
  assert (E : equal_shape2 B (map (permute_row i) B) = true).
  { unfold equal_shape2. rewrite length_map, Nat.eqb_refl. simpl.
    apply forallb_forall. intros [r r'] Hin.
    rewrite combine_map_r in Hin. apply in_map_iff in Hin as (a & Ha & _).
    inversion Ha; subst. simpl. rewrite permute_row_length. apply Nat.eqb_refl. }
  unfold permute_row in *. rewrite E. reflexivity.
Qed.

(** ** The logistic function *)

Lemma sigmoid_range (x : R) : 0 < sigmoid x < 1.
Proof.
  unfold sigmoid. pose proof (exp_pos (- x)) as He.
  split.
  - apply Rdiv_lt_0_compat; lra.
  - apply (Rmult_lt_reg_r (1 + exp (- x))); [lra|].
    unfold Rdiv. rewrite Rmult_assoc, Rinv_l by lra. lra.
Qed.

Lemma sigmoid_0 : sigmoid 0 = 1 / 2.
Proof. unfold sigmoid. rewrite Ropp_0, exp_0. lra. Qed.

Lemma in_map_sigmoid_range (v : vec) (x : R) :
  In x (map sigmoid v) -> 0 < x < 1.
Proof. intros H. apply in_map_iff in H as (y & <- & _). apply sigmoid_range. Qed.

Lemma stack0_ok {A : Type} (vs : list (list A)) (n : nat) :
  vs <> [] -> (forall v, In v vs -> length v = n) -> stack0 vs = Ok vs.
Proof.
  intros Hne Hlen. destruct vs as [|v vs']; [congruence|]. unfold stack0.
  replace (forallb _ (v :: vs')) with true; [reflexivity|].
  symmetry. apply forallb_forall. intros w Hw.
  rewrite (Hlen w Hw), (Hlen v (or_introl eq_refl)). apply Nat.eqb_refl.
Qed.

Lemma has_shape2_intro {A : Type} (r c : nat) (m : list (list A)) :
  length m = r -> (forall row, In row m -> length row = c) ->
  has_shape2 r c m = true.
Proof.
  intros Hr Hc. unfold has_shape2. rewrite Hr, Nat.eqb_refl. simpl.
  apply forallb_forall. intros row Hrow. rewrite (Hc row Hrow). apply Nat.eqb_refl.
Qed.

Lemma has_shape2_elim {A : Type} (r c : nat) (m : list (list A)) :
  has_shape2 r c m = true ->
  length m = r /\ (forall row, In row m -> length row = c).
Proof.
  unfold has_shape2. intros H. apply andb_true_iff in H as [H1 H2].
  apply Nat.eqb_eq in H1. split; [exact H1|].
  intros row Hrow. rewrite forallb_forall in H2. now apply Nat.eqb_eq, H2.
Qed.

Lemma seq_nonempty (n : nat) : (1 <= n)%nat -> seq 0 n <> [].
Proof. destruct n; [lia|]. discriminate. Qed.

(** ** Broadcasting *)

Lemma zipWith_length {X Y Z : Type} (f : X -> Y -> Z) xs ys :
  length (zipWith f xs ys) = Nat.min (length xs) (length ys).
Proof. unfold zipWith. now rewrite length_map, length_combine. Qed.

Lemma nth_zipWith {X Y Z : Type} (f : X -> Y -> Z) xs ys j dx dy dz :
  (j < length xs)%nat -> (j < length ys)%nat ->
  nth j (zipWith f xs ys) dz = f (nth j xs dx) (nth j ys dy).
Proof.
  revert ys j. induction xs as [|x xs IH]; intros [|y ys] [|j]; simpl; try lia;
    intros H1 H2; [reflexivity|].
  apply IH; lia.
Qed.

Lemma bzip_same_length {X Y Z : Type} (f : X -> Y -> Z) (xs : list X) (ys : list Y) :
  length xs = length ys ->
  bzip (fun x y => Ok (f x y)) xs ys = Ok (zipWith f xs ys).
Proof.
  intros H. unfold bzip. rewrite H, Nat.eqb_refl.
  apply (mapM_pure (fun p => f (fst p) (snd p))).
Qed.

Lemma bzip_left_single {X Y Z : Type} (f : X -> Y -> result Z) (x : X) (ys : list Y) :
  bzip f [x] ys = mapM (f x) ys.
Proof.
  unfold bzip. destruct (Nat.eqb_spec (length [x]) (length ys)) as [E|E].
  - destruct ys as [|y [|y' ys]]; simpl in E; try discriminate. reflexivity.
  - reflexivity.
Qed.

Lemma bzip_right_single {X Y Z : Type} (f : X -> Y -> result Z) (xs : list X) (y : Y) :
  bzip f xs [y] = mapM (fun x => f x y) xs.
Proof.
  unfold bzip. destruct (Nat.eqb_spec (length xs) (length [y])) as [E|E].
  - destruct xs as [|x [|x' xs]]; simpl in E; try discriminate. reflexivity.
  - destruct xs as [|x [|x' xs]]; simpl in E; first [reflexivity | congruence].
Qed.

(** A rank-1 array against a matrix of as many columns: every row is
    combined with the array. *)
Lemma broadcast2_rows (f : R -> R -> R) (a : vec) (L : mat) :
  (forall row, In row L -> length row = length a) ->
  broadcast2 f (Arr1 a) L = Ok (map (zipWith f a) L).
Proof.
  intros H. unfold broadcast2. simpl promote2. rewrite bzip_left_single.
  apply mapM_ok_map. intros row Hrow. apply bzip_same_length.
  symmetry. now apply H.
Qed.

(** Two matrices of one shape are combined entry by entry. *)
Lemma broadcast2_same_shape (f : R -> R -> R) (m1 m2 : mat) (r c : nat) :
  has_shape2 r c m1 = true -> has_shape2 r c m2 = true ->
  bzip (bzip (fun x y => Ok (f x y))) m1 m2
  = Ok (zipWith (zipWith f) m1 m2).
Proof.
  intros H1 H2. apply has_shape2_elim in H1 as [L1 R1], H2 as [L2 R2].
  unfold bzip at 1. rewrite L1, L2, Nat.eqb_refl.
  unfold zipWith at 1. apply mapM_ok_map. intros [u v] Huv. simpl.
  apply bzip_same_length.
  rewrite (R1 u (in_combine_l _ _ _ _ Huv)), (R2 v (in_combine_r _ _ _ _ Huv)).
  reflexivity.
Qed.

(** ** Sums and the softmax *)

Lemma sum_map_scale (k : R) (v : vec) :
  sum (map (fun x => k * x) v) = k * sum v.
Proof. induction v as [|x v IH]; simpl; [lra|]. rewrite IH. lra. Qed.

Lemma sum_map_div (s : R) (v : vec) :
  sum (map (fun x => x / s) v) = sum v / s.
Proof. induction v as [|x v IH]; simpl; [lra|]. rewrite IH. lra. Qed.

Lemma sum_pos (v : vec) :
  v <> [] -> (forall x, In x v -> 0 < x) -> 0 < sum v.
Proof.
  intros Hne Hpos. destruct v as [|x v]; [congruence|]. clear Hne. simpl.
  assert (0 <= sum v).
  { assert (Hv : forall y, In y v -> 0 < y) by (intros; apply Hpos; now right).
    clear Hpos. induction v as [|y v IH]; simpl; [lra|].
    pose proof (Hv y (or_introl eq_refl)).
    assert (0 <= sum v) by (apply IH; intros; apply Hv; now right). lra. }
  pose proof (Hpos x (or_introl eq_refl)). lra.
Qed.

Lemma sum_nonneg (v : vec) :
  (forall x, In x v -> 0 <= x) -> 0 <= sum v.
Proof.
  induction v as [|x v IH]; intros H; simpl; [lra|].
  pose proof (H x (or_introl eq_refl)).
  assert (0 <= sum v) by (apply IH; intros; apply H; now right). lra.
Qed.

Lemma sum_ge_member (v : vec) (x : R) :
  (forall y, In y v -> 0 <= y) -> In x v -> x <= sum v.
Proof.
  induction v as [|y v IH]; intros Hv Hx; [contradiction|]. simpl.
  pose proof (Hv y (or_introl eq_refl)).
  assert (0 <= sum v) by (apply sum_nonneg; intros; apply Hv; now right).
  destruct Hx as [->|Hx]; [lra|].
  assert (x <= sum v) by (apply IH; [intros; apply Hv; now right|exact Hx]). lra.
Qed.

Lemma softmax0_length (L : mat) : length (softmax0 L) = length L.
Proof. unfold softmax0. now rewrite !length_map. Qed.

Lemma softmax0_row_length (L : mat) (row : vec) :
  In row (softmax0 L) -> exists row0, In row0 L /\ length row = length row0.
Proof.
  unfold softmax0. intros H. apply in_map_iff in H as (e & <- & He).
  apply in_map_iff in He as (row0 & <- & Hrow0). exists row0. split; [exact Hrow0|].
  rewrite length_map, length_combine, !length_map, length_seq. lia.
Qed.

Lemma nth_map_in {A B : Type} (f : A -> B) (l : list A) (j : nat) (d : B) (d' : A) :
  (j < length l)%nat -> nth j (map f l) d = f (nth j l d').
Proof.
  intros H. rewrite (nth_indep _ d (f d')) by now rewrite length_map.
  apply map_nth.
Qed.

Lemma stack1_singletons (vs : list vec) :
  vs <> [] -> (forall v, In v vs -> length v = 1%nat) ->
  stack1 vs = Ok [map (fun w => nth 0 w 0) vs].
Proof.
  intros Hne Hlen. destruct vs as [|v vs']; [congruence|]. unfold stack1.
  replace (forallb _ (v :: vs')) with true.
  - now rewrite (Hlen v (or_introl eq_refl)).
  - symmetry. apply forallb_forall. intros w Hw.
    rewrite (Hlen w Hw), (Hlen v (or_introl eq_refl)). reflexivity.
Qed.

(** The stacked fractions have shape [(1, n)]: squeezed, and stacked again
    when [n = 1], they are a rank-1 array of length [n]. *)
Lemma squeeze_fractions (row : vec) (n : nat) :
  length row = n -> (1 <= n)%nat ->
  exists pay,
    (if (n =? 1)%nat then stack_single (squeeze (Arr2 [row]))
     else Ok (squeeze (Arr2 [row]))) = Ok pay
    /\ expect_shape1 n pay = Ok row.
Proof.
  intros Hlen Hn. destruct row as [|a [|b rest]]; simpl in Hlen; subst n.
  - lia.
  - exists (Arr1 [a]). split; reflexivity.
  - exists (Arr1 (a :: b :: rest)). split; [reflexivity|].
    simpl. unfold has_shape1. simpl. now rewrite Nat.eqb_refl.
Qed.

Arguments squeeze : simpl never.

Lemma last_snoc (l : list nat) (x d : nat) : last (l ++ [x]) d = x.
Proof. apply last_last. Qed.

(** The column [j] of the softmax is the column of the exponentials divided
    by its sum. *)
Lemma softmax0_column (L : mat) (c j : nat) :
  (forall row, In row L -> length row = c) -> (j < c)%nat ->
  column j (softmax0 L)
  = map (fun x => x / sum (column j (map (map exp) L))) (column j (map (map exp) L)).
Proof.
  intros Hc Hj. set (S := sum (column j (map (map exp) L))).
  unfold softmax0, column. rewrite !map_map.
  apply map_ext_in. intros row Hrow.
  change (map (fun p : R * R => fst p / snd p) (combine ?u ?v)) with (zipWith Rdiv u v).
  rewrite length_map, (Hc row Hrow).
  rewrite (nth_zipWith Rdiv _ _ j 0 0 0).
  - rewrite (nth_map_in _ (seq 0 c) j 0 0%nat) by (rewrite length_seq; lia).
    now rewrite seq_nth.
  - rewrite length_map, (Hc row Hrow). lia.
  - now rewrite length_map, length_seq.
Qed.

Lemma exp_column_pos (L : mat) (c j : nat) (x : R) :
  (forall row, In row L -> length row = c) -> (j < c)%nat ->
  In x (column j (map (map exp) L)) -> 0 < x.
Proof.
  intros Hc Hj Hx. unfold column in Hx. rewrite map_map in Hx.
  apply in_map_iff in Hx as (row & <- & Hrow).
  rewrite (nth_map_in exp row j 0 0) by (rewrite (Hc row Hrow); lia).
  apply exp_pos.
Qed.

Lemma exp_column_sum_pos (L : mat) (c j : nat) :
  L <> [] -> (forall row, In row L -> length row = c) -> (j < c)%nat ->
  0 < sum (column j (map (map exp) L)).
Proof.
  intros Hne Hc Hj. apply sum_pos.
  - unfold column. intros E. apply map_eq_nil in E. apply map_eq_nil in E. congruence.
  - intros x Hx. now apply (exp_column_pos L c j).
Qed.

(** Every column of the softmax sums to one. *)
Lemma softmax0_column_sum (L : mat) (c j : nat) :
  L <> [] -> (forall row, In row L -> length row = c) -> (j < c)%nat ->
  sum (column j (softmax0 L)) = 1.
Proof.
  intros Hne Hc Hj. rewrite (softmax0_column L c j Hc Hj), sum_map_div.
  pose proof (exp_column_sum_pos L c j Hne Hc Hj). field. lra.
Qed.

(** Every entry of the softmax lies in (0, 1]. *)
Lemma softmax0_column_range (L : mat) (c j : nat) (x : R) :
  (forall row, In row L -> length row = c) -> (j < c)%nat ->
  In x (column j (softmax0 L)) -> 0 < x <= 1.
Proof.
  intros Hc Hj Hx. rewrite (softmax0_column L c j Hc Hj) in Hx.
  apply in_map_iff in Hx as (e & <- & He).
  assert (Hne : L <> []).
  { intros ->. simpl in He. contradiction. }
  pose proof (exp_column_sum_pos L c j Hne Hc Hj) as HS.
  pose proof (exp_column_pos L c j e Hc Hj He) as Hepos.
  assert (e <= sum (column j (map (map exp) L))).
  { apply sum_ge_member; [|exact He].
    intros y Hy. left. now apply (exp_column_pos L c j). }
  split.
  - now apply Rdiv_lt_0_compat.
  - apply (Rmult_le_reg_r (sum (column j (map (map exp) L)))); [exact HS|].
    unfold Rdiv. rewrite Rmult_assoc, Rinv_l by lra. lra.
Qed.

(** ** [squeeze] on a valuation profile *)

Lemma squeeze_one_row (row : vec) :
  squeeze (Arr2 [row]) = match row with [x] => Arr0 x | _ => Arr1 row end.
Proof. destruct row as [|a [|b rest]]; reflexivity. Qed.

Lemma squeeze_many_rows (m : mat) :
  (2 <= length m)%nat ->
  squeeze (Arr2 m)
  = if (ncols m =? 1)%nat then Arr1 (map (fun row => hd 0 row) m) else Arr2 m.
Proof.
  intros H. destruct m as [|r1 [|r2 rest]]; simpl in H; try lia.
  destruct r1 as [|a [|b r1]]; reflexivity.
Qed.

(** With at least two items, or with a single bidder, [squeeze] leaves the
    rows of the profile aligned with the rows of the allocation: the
    product is taken entry by entry. *)
Lemma squeezed_product (f : R -> R -> R) (vals alloc : mat) (r c : nat) :
  (1 <= r)%nat -> (c <> 1%nat \/ r = 1%nat) ->
  has_shape2 r c vals = true -> has_shape2 r c alloc = true ->
  broadcast2 f (squeeze (Arr2 vals)) alloc = Ok (zipWith (zipWith f) vals alloc).
Proof.
  intros Hr Hc Hv Ha.
  destruct (Nat.eq_dec r 1) as [->|Hr1].
  - pose proof (has_shape2_elim _ _ _ Hv) as [Lv Rv].
    pose proof (has_shape2_elim _ _ _ Ha) as [La Ra].
    destruct vals as [|row [|? ?]]; simpl in Lv; try discriminate.
    destruct alloc as [|arow [|? ?]]; simpl in La; try discriminate.
    pose proof (Rv row (or_introl eq_refl)) as Hrow.
    pose proof (Ra arow (or_introl eq_refl)) as Harow.
    rewrite squeeze_one_row. unfold broadcast2.
    destruct row as [|x [|y row]].
    + simpl promote2. now apply (broadcast2_same_shape f _ _ 1%nat c).
    + simpl in Hrow. subst c. destruct arow as [|z [|? ?]]; simpl in Harow; try discriminate.
      reflexivity.
    + simpl promote2. now apply (broadcast2_same_shape f _ _ 1%nat c).
  - destruct Hc as [Hc|Hc]; [|congruence].
    pose proof (has_shape2_elim _ _ _ Hv) as [Lv Rv].
    rewrite squeeze_many_rows by lia.
    assert (E : ncols vals = c).
    { unfold ncols. destruct vals as [|row rest]; [simpl in Lv; lia|].
      apply Rv. now left. }
    rewrite E. destruct (Nat.eqb_spec c 1) as [|_]; [congruence|].
    unfold broadcast2. simpl promote2. now apply (broadcast2_same_shape f _ _ r c).
Qed.

(** With a single item and at least two bidders, [squeeze] turns the profile
    into a rank-1 array of length [bidders], which broadcasts against the
    [(bidders, 1)] allocation to a [(bidders, bidders)] matrix: the row of a
    bidder holds the values of all the bidders. *)
Lemma squeezed_product_single_item (f : R -> R -> R) (vals alloc : mat) (r : nat) :
  (2 <= r)%nat ->
  has_shape2 r 1 vals = true -> has_shape2 r 1 alloc = true ->
  broadcast2 f (squeeze (Arr2 vals)) alloc
  = Ok (map (fun arow => map (fun v => f v (hd 0 arow)) (map (fun row => hd 0 row) vals))
           alloc).
Proof.
  intros Hr Hv Ha.
  pose proof (has_shape2_elim _ _ _ Hv) as [Lv Rv].
  pose proof (has_shape2_elim _ _ _ Ha) as [La Ra].
  rewrite squeeze_many_rows by lia.
  assert (E : ncols vals = 1%nat).
  { unfold ncols. destruct vals as [|row rest]; [simpl in Lv; lia|].
    apply Rv. now left. }
  rewrite E. simpl (1 =? 1)%nat. cbv iota. unfold broadcast2. simpl promote2.
  rewrite bzip_left_single. apply mapM_ok_map. intros arow Harow.
  pose proof (Ra arow Harow) as Hlen.
  destruct arow as [|y [|? ?]]; simpl in Hlen; try discriminate.
  rewrite bzip_right_single. simpl hd. apply (mapM_pure (fun v => f v y)).
Qed.

(** ** Misreport profiles *)

(** [misr_bidder_i] replaces, in every row of the profile, the entry of the
    item [i] by the entry of the misreports: the column [i] is replaced. *)
Lemma misr_bidder_i_ok (vals misrs : mat) (r c i : nat) :
  has_shape2 r c vals = true -> has_shape2 r c misrs = true ->
  misr_bidder_i vals misrs i = Ok (zipWith (replace_entry i) vals misrs)
  /\ has_shape2 r c (zipWith (replace_entry i) vals misrs) = true.
Proof.
  intros Hv Hm.
  pose proof (has_shape2_elim _ _ _ Hv) as [Lv Rv].
  pose proof (has_shape2_elim _ _ _ Hm) as [Lm Rm].
  assert (Hshape : forall p, In p (combine vals misrs) ->
            length (replace_entry i (fst p) (snd p)) = length (fst p)).
  { intros [v m] Hp. simpl. apply replace_entry_length.
    rewrite (Rv v (in_combine_l _ _ _ _ Hp)), (Rm m (in_combine_r _ _ _ _ Hp)).
    reflexivity. }
  assert (Hres : has_shape2 r c (zipWith (replace_entry i) vals misrs) = true).
  { apply has_shape2_intro.
    - rewrite zipWith_length, Lv, Lm. apply Nat.min_id.
    - intros row Hrow. unfold zipWith in Hrow.
      apply in_map_iff in Hrow as ([v m] & <- & Hp).
      rewrite (Hshape _ Hp). simpl. apply Rv. now apply (in_combine_l _ _ _ _ Hp). }
  split; [|exact Hres].
  unfold misr_bidder_i, concatenate1, concatenate1_2, cols, cols_from.
  rewrite !length_map, Lv, Lm, Nat.eqb_refl. simpl.
  rewrite length_map, length_combine, !length_map, Lv, Lm, Nat.min_id, Nat.eqb_refl.
  simpl.
  assert (E : map (fun p : list R * list R => fst p ++ snd p)
                (combine (map (slice 0 i) vals)
                   (map (fun p : list R * list R => fst p ++ snd p)
                      (combine (map (slice i (i + 1)) misrs) (map (skipn (i + 1)) vals))))
              = zipWith (replace_entry i) vals misrs).
  { clear -Lv Lm. revert misrs r Lv Lm.
    induction vals as [|v vals IH]; intros [|m misrs] r Lv Lm; simpl in *; try reflexivity;
      try (subst r; discriminate).
    unfold zipWith. simpl. f_equal.
    destruct r; [discriminate|]. apply (IH misrs r); congruence. }
  rewrite E.
  replace (equal_shape2 vals (zipWith (replace_entry i) vals misrs)) with true; [reflexivity|].
  symmetry. unfold equal_shape2.
  rewrite zipWith_length, Lv, Lm, Nat.min_id, Nat.eqb_refl. simpl.
  apply forallb_forall. intros [v w] Hp. simpl. apply Nat.eqb_eq.
  pose proof (has_shape2_elim _ _ _ Hres) as [_ Rres].
  rewrite (Rv v (in_combine_l _ _ _ _ Hp)), (Rres w (in_combine_r _ _ _ _ Hp)).
  reflexivity.
Qed.

Lemma index_ok (v : vec) (i : nat) :
  (i < length v)%nat -> index v i = Ok (nth i v 0).
Proof.
  intros H. unfold index. now rewrite (nth_error_nth' v 0 H).
Qed.

Lemma sum_products_nonneg (u v : vec) :
  (forall x, In x u -> 0 <= x) -> (forall y, In y v -> 0 <= y) ->
  0 <= sum (zipWith Rmult u v).
Proof.
  intros Hu Hv. apply sum_nonneg. intros z Hz. unfold zipWith in Hz.
  apply in_map_iff in Hz as ([x y] & <- & Hp). simpl.
  apply Rmult_le_pos; [apply Hu|apply Hv].
  - now apply (in_combine_l _ _ _ _ Hp).
  - now apply (in_combine_r _ _ _ _ Hp).
Qed.

Lemma nth_allocated (vals alloc : mat) (i : nat) :
  (i < length vals)%nat -> (i < length alloc)%nat ->
  nth i (sum_axis1 (zipWith (zipWith Rmult) vals alloc)) 0
  = sum (zipWith Rmult (nth i vals []) (nth i alloc [])).
Proof.
  intros Hv Ha. unfold sum_axis1.
  rewrite (nth_map_in sum _ i 0 []) by (rewrite zipWith_length; lia).
  now rewrite (nth_zipWith (zipWith Rmult) _ _ i [] [] []).
Qed.

(** ** The rectifier and the shape of the auctioneer's loss *)

Lemma relu_nonneg (x : R) : 0 <= relu x.
Proof. unfold relu. apply Rmax_r. Qed.

Lemma relu_of_nonneg (x : R) : 0 <= x -> relu x = x.
Proof. intros H. unfold relu. now apply Rmax_left. Qed.

Lemma relu_of_nonpos (x : R) : x <= 0 -> relu x = 0.
Proof. intros H. unfold relu. now apply Rmax_right. Qed.

Lemma loss_of_decreasing_in_revenue (p1 p2 g : R) :
  0 <= p1 < p2 -> loss_of p2 g < loss_of p1 g.
Proof.
  intros H. unfold loss_of. pose proof (sqrt_lt_1_alt p1 p2 H). lra.
Qed.

Lemma loss_of_increasing_in_regret (p g1 g2 : R) :
  0 <= g1 < g2 -> loss_of p g1 < loss_of p g2.
Proof.
  intros H. unfold loss_of. pose proof (sqrt_lt_1_alt g1 g2 H). lra.
Qed.

(** ** Views of a profile *)

Lemma permute_row_split {A : Type} (i : nat) (l1 l2 : list A) (x : A) :
  length l1 = i -> permute_row i (l1 ++ x :: l2) = x :: l1 ++ l2.
Proof.
  intros <-. unfold permute_row, slice.
  replace (length l1 + 1 - length l1)%nat with 1%nat by lia.
  rewrite Nat.sub_0_r. simpl skipn at 2.
  assert (E1 : skipn (length l1) (l1 ++ x :: l2) = x :: l2).
  { rewrite skipn_app, Nat.sub_diag, skipn_all. reflexivity. }
  assert (E2 : firstn (length l1) (l1 ++ x :: l2) = l1).
  { rewrite firstn_app, Nat.sub_diag, firstn_all. simpl. apply app_nil_r. }
  assert (E3 : skipn (length l1 + 1) (l1 ++ x :: l2) = l2).
  { rewrite skipn_app, (skipn_all2 (n := length l1 + 1) l1) by lia.
    replace (length l1 + 1 - length l1)%nat with 1%nat by lia. reflexivity. }
  rewrite E1, E2, E3. reflexivity.
Qed.

Lemma permute_row_out_of_range {A : Type} (i : nat) (r : list A) :
  (length r <= i)%nat -> permute_row i r = r.
Proof.
  intros H. unfold permute_row, slice.
  rewrite (skipn_all2 (n := i) r), (skipn_all2 (n := i + 1) r) by lia.
  rewrite firstn_nil, Nat.sub_0_r. simpl. rewrite app_nil_r.
  apply firstn_all2. exact H.
Qed.

Lemma permute_row_perm {A : Type} (i : nat) (r : list A) :
  Permutation r (permute_row i r).
Proof.
  destruct (Nat.lt_ge_cases i (length r)) as [H|H].
  - destruct r as [|d r']; [simpl in H; lia|].
    destruct (nth_split (d :: r') d H) as (l1 & l2 & E & Hl).
    rewrite E at 2. rewrite E at 1. rewrite (permute_row_split i l1 l2 _ Hl).
    symmetry. apply Permutation_middle.
  - now rewrite permute_row_out_of_range.
Qed.

(** The entry at [i] comes first, the entries before [i] move up by one,
    the entries after [i] stay. *)
Lemma permute_row_entries (i : nat) (r : vec) :
  (i < length r)%nat ->
  nth 0 (permute_row i r) 0 = nth i r 0
  /\ (forall j, (j < i)%nat -> nth (S j) (permute_row i r) 0 = nth j r 0)
  /\ (forall j, (i < j)%nat -> nth j (permute_row i r) 0 = nth j r 0).
Proof.
  intros H. destruct (nth_split r 0 H) as (l1 & l2 & E & Hl).
  set (x := nth i r 0) in *. rewrite E. rewrite (permute_row_split i l1 l2 x Hl).
  split; [|split].
  - reflexivity.
  - intros j Hj. simpl. rewrite !app_nth1 by lia. reflexivity.
  - intros j Hj. destruct j as [|j]; [lia|]. simpl.
    rewrite !app_nth2 by lia. replace (S j - length l1)%nat with (S (j - length l1)) by lia.
    reflexivity.
Qed.

(** X7: [permute_along_bidders] never raises: it returns an array of the
    shape of its argument, every row of which is a permutation of the row
    of the argument; for [i] within the columns, the column [i] has become
    the column 0, the columns before [i] have moved one place to the right
    and the columns after [i] have stayed; for [i] beyond the columns the
    argument is returned unchanged. *)
Theorem permute_along_bidders_moves_column (B : mat) (i : nat) :
  exists P,
    permute_along_bidders B i = Ok P
    /\ length P = length B
    /\ (forall k, (k < length B)%nat ->
          length (nth k P []) = length (nth k B [])
          /\ Permutation (nth k B []) (nth k P [])
          /\ ((i < length (nth k B []))%nat ->
                nth 0 (nth k P []) 0 = nth i (nth k B []) 0
                /\ (forall j, (j < i)%nat ->
                      nth (S j) (nth k P []) 0 = nth j (nth k B []) 0)
                /\ (forall j, (i < j)%nat ->
                      nth j (nth k P []) 0 = nth j (nth k B []) 0))
          /\ ((length (nth k B []) <= i)%nat -> nth k P [] = nth k B [])).
Proof.
  exists (map (permute_row i) B). split; [apply permute_along_bidders_ok|].
  split; [apply length_map|]. intros k Hk.
  rewrite (nth_map_in (permute_row i) B k [] []) by exact Hk.
  split; [apply permute_row_length|]. split; [apply permute_row_perm|].
  split; [apply permute_row_entries|apply permute_row_out_of_range].
Qed.

(** ** Sums over rows and columns *)

Lemma replace_entry_same {A : Type} (i : nat) (v : list A) : replace_entry i v v = v.
Proof.
  unfold replace_entry, slice. rewrite Nat.sub_0_r.
  replace (i + 1 - i)%nat with 1%nat by lia.
  replace (i + 1)%nat with (1 + i)%nat by lia.
  rewrite <- (skipn_skipn 1 i v). simpl skipn at 1.
  rewrite (firstn_skipn 1 (skipn i v)). apply firstn_skipn.
Qed.

Lemma zipWith_same {X Y : Type} (f : X -> X -> Y) (l : list X) :
  zipWith f l l = map (fun x => f x x) l.
Proof. unfold zipWith. induction l as [|x l IH]; simpl; congruence. Qed.

Lemma map_nth_seq_all {A : Type} (l : list A) (d : A) :
  map (fun i => nth i l d) (seq 0 (length l)) = l.
Proof.
  induction l as [|a l IH]; [reflexivity|]. simpl. f_equal.
  rewrite <- seq_shift, map_map. exact IH.
Qed.

Lemma sum_zipWith_comm (u v : vec) :
  sum (zipWith Rmult u v) = sum (zipWith Rmult v u).
Proof.
  revert v. induction u as [|x u IH]; intros [|y v]; try reflexivity.
  unfold zipWith in *. simpl. rewrite (IH v). lra.
Qed.

(** Scaling the entries of a nonnegative array by factors in [0, 1] does
    not increase its sum. *)
Lemma sum_scaled_le (u v : vec) :
  (forall x, In x u -> 0 <= x <= 1) -> (forall y, In y v -> 0 <= y) ->
  0 <= sum (zipWith Rmult u v) <= sum v.
Proof.
  revert v. induction u as [|x u IH]; intros v Hu Hv.
  - unfold zipWith. simpl. split; [lra|now apply sum_nonneg].
  - destruct v as [|y v]; [unfold zipWith; simpl; lra|].
    unfold zipWith in *. simpl.
    pose proof (Hu x (or_introl eq_refl)). pose proof (Hv y (or_introl eq_refl)).
    assert (0 <= sum (map (fun p => fst p * snd p) (combine u v)) <= sum v).
    { apply IH; intros; [apply Hu|apply Hv]; now right. }
    nra.
Qed.

Lemma sum_map_plus {A : Type} (f g : A -> R) (l : list A) :
  sum (map (fun a => f a + g a) l) = sum (map f l) + sum (map g l).
Proof. induction l as [|a l IH]; simpl; [lra|]. rewrite IH. lra. Qed.

Lemma sum_map_zero {A : Type} (l : list A) : sum (map (fun _ => 0) l) = 0.
Proof. induction l as [|a l IH]; simpl; [reflexivity|]. rewrite IH. lra. Qed.

(** The sum of the row sums is the sum of the column sums. *)
Lemma sum_rows_columns (m : mat) (c : nat) :
  (forall row, In row m -> length row = c) ->
  sum (sum_axis1 m) = sum (map (fun j => sum (column j m)) (seq 0 c)).
Proof.
  induction m as [|r m IH]; intros H.
  - simpl. now rewrite sum_map_zero.
  - simpl. rewrite (sum_map_plus (fun j => nth j r 0) (fun j => sum (column j m))).
    rewrite <- IH by (intros; apply H; now right).
    rewrite <- (H r (or_introl eq_refl)), map_nth_seq_all. reflexivity.
Qed.

Lemma sum_le_length (v : vec) :
  (forall x, In x v -> x <= 1) -> sum v <= INR (length v).
Proof.
  induction v as [|x v IH]; intros H.
  - simpl. lra.
  - change (length (x :: v)) with (S (length v)). rewrite S_INR. simpl.
    pose proof (H x (or_introl eq_refl)).
    assert (sum v <= INR (length v)) by (apply IH; intros; apply H; now right). lra.
Qed.

(** The value of what the bidders are allocated is at most what is
    allocated, when no value exceeds one. *)
Lemma allocated_values_le (vals alloc : mat) :
  (forall row x, In row vals -> In x row -> 0 <= x <= 1) ->
  (forall row x, In row alloc -> In x row -> 0 <= x) ->
  (forall x, In x (allocated_values vals alloc) -> 0 <= x)
  /\ sum (allocated_values vals alloc) <= sum (sum_axis1 alloc).
Proof.
  revert alloc. induction vals as [|v vals IH]; intros alloc Hv Ha.
  - unfold allocated_values, zipWith. simpl. split; [intros x []|].
    apply sum_nonneg. intros x Hx. unfold sum_axis1 in Hx.
    apply in_map_iff in Hx as (row & <- & Hrow). apply sum_nonneg. intros y Hy.
    now apply (Ha row).
  - destruct alloc as [|a alloc].
    + unfold allocated_values, zipWith. simpl. split; [intros x []|lra].
    + destruct (IH alloc) as [IH1 IH2].
      { intros row x Hrow. apply Hv. now right. }
      { intros row x Hrow. apply Ha. now right. }
      pose proof (sum_scaled_le v a (fun x => Hv v x (or_introl eq_refl))
                    (fun y => Ha a y (or_introl eq_refl))) as Hs.
      unfold allocated_values, zipWith in *. simpl. split.
      * intros x [<-|Hx]; [apply Hs|now apply IH1].
      * lra.
Qed.

Section NetworkProperties.

Variable MLPParams : Type.
Variable MLP : list nat -> MLPParams -> vec -> vec.

(** The contract of [haiku.nets.MLP] that the program relies on: the output
    has the size of the last layer. *)
Hypothesis MLP_shape :
  forall layers p x, length (MLP layers p x) = last layers 0%nat.

Variables bidders items net_width net_depth : nat.

Let Auctioneer' := Auctioneer MLPParams MLP bidders items net_width net_depth.
Let Misreporter' := Misreporter MLPParams MLP bidders items net_width net_depth.
Local Abbreviation layers_alloc' := (layers_alloc bidders items net_width net_depth).
Local Abbreviation layers_pay' := (layers_pay bidders items net_width net_depth).
Local Abbreviation layers_misr' := (layers_misr bidders items net_width net_depth).
Local Abbreviation misr_logits := (misr_logits MLPParams MLP bidders items net_width net_depth).
Local Abbreviation alloc_gate := (alloc_gate MLPParams MLP bidders items net_width net_depth).
Local Abbreviation alloc_logits := (alloc_logits MLPParams MLP bidders items net_width net_depth).
Local Abbreviation allocation := (allocation MLPParams MLP bidders items net_width net_depth).
Local Abbreviation pay_fraction := (pay_fraction MLPParams MLP bidders items net_width net_depth).
Local Abbreviation pay_fractions := (pay_fractions MLPParams MLP bidders items net_width net_depth).
Local Abbreviation payments := (payments MLPParams MLP bidders items net_width net_depth).
Local Abbreviation utilities_at := (utilities_at MLPParams MLP bidders items net_width net_depth).
Local Abbreviation misreports_of := (misreports_of MLPParams MLP bidders items net_width net_depth).
Local Abbreviation u_misr := (u_misr MLPParams MLP bidders items net_width net_depth).
Local Abbreviation regret := (regret MLPParams MLP bidders items net_width net_depth).

Lemma Misreporter_ok (params : MisrParams MLPParams) (vals : mat) :
  (1 <= bidders)%nat ->
  Misreporter' params vals
  = Ok (map (fun i => map sigmoid (misr_logits params vals i)) (seq 0 bidders)).
Proof.
  intros HB. unfold Misreporter', Misreporter.
  rewrite (mapM_ok_map _ (misr_logits params vals)).
  2:{ intros i _. rewrite permute_along_bidders_ok. reflexivity. }
  simpl. rewrite (stack0_ok _ items).
  2:{ intros E. apply map_eq_nil in E. now apply seq_nonempty in E. }
  2:{ intros v Hv. apply in_map_iff in Hv as (i & <- & _).
      unfold misr_logits. now rewrite MLP_shape. }
  simpl. rewrite has_shape2_intro.
  - simpl. now rewrite map_map.
  - now rewrite length_map, length_seq.
  - intros v Hv. apply in_map_iff in Hv as (i & <- & _).
    unfold misr_logits. now rewrite MLP_shape.
Qed.

(** X30: with at least one bidder the misreporter returns, on every
    profile, a matrix of shape [(bidders, items)] whose row [i] is the
    logistic function applied to the MLP's output on the profile with the
    entry at [i] of every row moved to the front of the row, so that every
    entry lies strictly between 0 and 1, over the reals. *)
Theorem Misreporter_shape_and_range (params : MisrParams MLPParams) (vals : mat) :
  (1 <= bidders)%nat ->
  has_shape2 bidders items vals = true ->
  exists misreports,
    Misreporter' params vals = Ok misreports
    /\ has_shape2 bidders items misreports = true
    /\ (forall i, (i < bidders)%nat ->
          nth i misreports [] = map sigmoid (misr_logits params vals i))
    /\ (forall row x, In row misreports -> In x row -> 0 < x < 1).
Proof.
  intros HB _. eexists. split; [now apply Misreporter_ok|]. split; [|split].
  - apply has_shape2_intro.
    + now rewrite length_map, length_seq.
    + intros row Hrow. apply in_map_iff in Hrow as (i & <- & _).
      rewrite length_map. unfold misr_logits. now rewrite MLP_shape.
  - intros i Hi.
    rewrite (nth_indep _ [] (map sigmoid (misr_logits params vals 0)))
      by now rewrite length_map, length_seq.
    rewrite (map_nth (fun i => map sigmoid (misr_logits params vals i))).
    now rewrite seq_nth.
  - intros row x Hrow Hx. apply in_map_iff in Hrow as (i & <- & _).
    now apply in_map_sigmoid_range in Hx.
Qed.

(** *** The auctioneer *)

Lemma alloc_gate_length params vals : length (alloc_gate params vals) = items.
Proof.
  unfold alloc_gate. rewrite length_map, MLP_shape.
  unfold layers_alloc', layers_alloc. apply last_snoc.
Qed.

Lemma alloc_logits_shape params vals :
  length (alloc_logits params vals) = bidders
  /\ forall row, In row (alloc_logits params vals) -> length row = items.
Proof.
  unfold alloc_logits. split.
  - now rewrite length_map, length_seq.
  - intros row H. apply in_map_iff in H as (i & <- & _).
    rewrite MLP_shape. unfold layers_alloc', layers_alloc. apply last_snoc.
Qed.

Lemma softmax_logits_shape params vals :
  length (softmax0 (alloc_logits params vals)) = bidders
  /\ forall row, In row (softmax0 (alloc_logits params vals)) -> length row = items.
Proof.
  destruct (alloc_logits_shape params vals) as [HL HR]. split.
  - now rewrite softmax0_length.
  - intros row H. apply softmax0_row_length in H as (row0 & H0 & ->). now apply HR.
Qed.

Lemma allocation_shape params vals :
  has_shape2 bidders items (allocation params vals) = true.
Proof.
  destruct (softmax_logits_shape params vals) as [HL HR].
  apply has_shape2_intro.
  - unfold allocation. now rewrite length_map.
  - intros row H. unfold allocation in H. apply in_map_iff in H as (r0 & <- & Hr0).
    rewrite zipWith_length, alloc_gate_length, (HR r0 Hr0). apply Nat.min_id.
Qed.

(** The forward pass up to the payments: the allocation does not depend on
    how the payments are computed, and the payments are the fractions
    times [jnp.sum(jnp.squeeze(vals) * alloc, axis=1)]. *)
Lemma Auctioneer_unfold (params : AuctParams MLPParams) (vals : mat) :
  (1 <= bidders)%nat ->
  Auctioneer' params vals
  = (prod <- broadcast2 Rmult (squeeze (Arr2 vals)) (allocation params vals) ;;
     pay <- broadcast1 Rmult (pay_fractions params vals) (sum_axis1 prod) ;;
     assert (has_shape1 bidders pay) ;;;
     Ok (allocation params vals, pay)).
Proof.
  intros HB. unfold Auctioneer', Auctioneer.
  fold layers_alloc' layers_pay'. fold (alloc_gate params vals).
  unfold has_shape1 at 1. rewrite alloc_gate_length, Nat.eqb_refl. simpl.
  rewrite (mapM_ok_map _ (fun i => MLP layers_alloc' (alloc_which params)
                                     (ravel (map (permute_row i) vals)))).
  2:{ intros i _. now rewrite permute_along_bidders_ok. }
  fold (alloc_logits params vals). simpl.
  destruct (alloc_logits_shape params vals) as [HL HR].
  rewrite (stack0_ok _ items); [|intros E; rewrite E in HL; simpl in HL; lia|exact HR].
  simpl.
  destruct (softmax_logits_shape params vals) as [HSL HSR].
  rewrite (has_shape2_intro _ _ _ HSL HSR). simpl.
  rewrite broadcast2_rows
    by (intros row Hrow; now rewrite alloc_gate_length, (HSR row Hrow)).
  fold (allocation params vals). simpl.
  rewrite allocation_shape. simpl.
  rewrite (mapM_ok_map _ (fun i => map sigmoid (MLP layers_pay' (pay_mlp params)
                                                 (ravel (map (permute_row i) vals))))).
  2:{ intros i _. now rewrite permute_along_bidders_ok. }
  simpl. rewrite stack1_singletons.
  2:{ intros E. apply map_eq_nil in E. now apply seq_nonempty in E. }
  2:{ intros v Hv. apply in_map_iff in Hv as (i & <- & _).
      rewrite length_map, MLP_shape. unfold layers_pay', layers_pay. apply last_snoc. }
  simpl. rewrite map_map.
  assert (E : map (fun i => nth 0 (map sigmoid (MLP layers_pay' (pay_mlp params)
                                     (ravel (map (permute_row i) vals)))) 0)
                  (seq 0 bidders) = pay_fractions params vals).
  { unfold pay_fractions. apply map_ext. intros i. unfold pay_fraction.
    apply nth_map_in. rewrite MLP_shape. unfold layers_pay', layers_pay.
    rewrite last_snoc. lia. }
  rewrite E.
  destruct (squeeze_fractions (pay_fractions params vals) bidders)
    as (pay & Hpay & Hexp); [unfold pay_fractions; now rewrite length_map, length_seq|exact HB|].
  rewrite Hpay. simpl. rewrite Hexp. reflexivity.
Qed.

Lemma sum_axis1_length (m : mat) : length (sum_axis1 m) = length m.
Proof. unfold sum_axis1. apply length_map. Qed.

Lemma pay_fractions_length params vals :
  length (pay_fractions params vals) = bidders.
Proof. unfold pay_fractions. now rewrite length_map, length_seq. Qed.

Lemma allocated_values_length (vals alloc : mat) :
  has_shape2 bidders items vals = true -> has_shape2 bidders items alloc = true ->
  length (allocated_values vals alloc) = bidders.
Proof.
  intros Hv Ha. apply has_shape2_elim in Hv as [Lv _], Ha as [La _].
  unfold allocated_values. rewrite sum_axis1_length, zipWith_length, Lv, La.
  apply Nat.min_id.
Qed.

(** With at least two items, or with a single bidder, the payments are the
    fractions times the allocated values. *)
Lemma Auctioneer_ok (params : AuctParams MLPParams) (vals : mat) :
  (1 <= bidders)%nat -> (items <> 1%nat \/ bidders = 1%nat) ->
  has_shape2 bidders items vals = true ->
  Auctioneer' params vals
  = Ok (allocation params vals,
        zipWith Rmult (pay_fractions params vals)
          (allocated_values vals (allocation params vals))).
Proof.
  intros HB HI Hv. rewrite Auctioneer_unfold by exact HB.
  rewrite (squeezed_product Rmult vals _ bidders items HB HI Hv (allocation_shape _ _)).
  simpl. fold (allocated_values vals (allocation params vals)).
  unfold broadcast1.
  rewrite bzip_same_length
    by now rewrite pay_fractions_length, (allocated_values_length _ _ Hv (allocation_shape _ _)).
  simpl. unfold has_shape1.
  rewrite zipWith_length, pay_fractions_length,
    (allocated_values_length _ _ Hv (allocation_shape _ _)), Nat.min_id, Nat.eqb_refl.
  reflexivity.
Qed.

(** With a single item and at least two bidders, every bidder's fraction
    is applied to the allocation times the sum of all the bidders'
    values. *)
Lemma Auctioneer_single_item (params : AuctParams MLPParams) (vals : mat) :
  (2 <= bidders)%nat -> items = 1%nat ->
  has_shape2 bidders items vals = true ->
  Auctioneer' params vals
  = Ok (allocation params vals,
        zipWith Rmult (pay_fractions params vals)
          (map (fun arow =>
                  sum (map (fun v => v * hd 0 arow) (map (fun row => hd 0 row) vals)))
               (allocation params vals))).
Proof.
  intros HB HI Hv. rewrite Auctioneer_unfold by lia.
  pose proof (has_shape2_elim _ _ _ (allocation_shape params vals)) as [La _].
  pose proof (eq_ind items (fun c => has_shape2 bidders c vals = true) Hv 1%nat HI) as Hv1.
  pose proof (eq_ind items
                (fun c => has_shape2 bidders c (allocation params vals) = true)
                (allocation_shape params vals) 1%nat HI) as Ha1.
  cbv beta in Hv1, Ha1.
  rewrite (squeezed_product_single_item Rmult vals _ bidders HB Hv1 Ha1).
  simpl. unfold sum_axis1. rewrite map_map. unfold broadcast1.
  rewrite bzip_same_length by now rewrite pay_fractions_length, length_map.
  simpl. unfold has_shape1.
  rewrite zipWith_length, pay_fractions_length, length_map, La, Nat.min_id, Nat.eqb_refl.
  reflexivity.
Qed.

(** On a profile of shape [(bidders, items)] the forward pass returns: the
    allocation, and one payment per bidder. *)
Lemma Auctioneer_returns (params : AuctParams MLPParams) (vals : mat) :
  (1 <= bidders)%nat -> has_shape2 bidders items vals = true ->
  exists pay,
    Auctioneer' params vals = Ok (allocation params vals, pay)
    /\ length pay = bidders.
Proof.
  intros HB Hv.
  destruct (Nat.eq_dec items 1) as [HI|HI]; [destruct (Nat.eq_dec bidders 1) as [HB1|HB1]|].
  - eexists. split; [apply Auctioneer_ok; auto|].
    rewrite zipWith_length, pay_fractions_length,
      (allocated_values_length _ _ Hv (allocation_shape _ _)). apply Nat.min_id.
  - eexists. split; [apply Auctioneer_single_item; auto; lia|].
    pose proof (has_shape2_elim _ _ _ (allocation_shape params vals)) as [La _].
    rewrite zipWith_length, pay_fractions_length, length_map, La. apply Nat.min_id.
  - eexists. split; [apply Auctioneer_ok; auto|].
    rewrite zipWith_length, pay_fractions_length,
      (allocated_values_length _ _ Hv (allocation_shape _ _)). apply Nat.min_id.
Qed.

Lemma alloc_gate_range params vals j :
  (j < items)%nat -> 0 < nth j (alloc_gate params vals) 0 < 1.
Proof.
  intros Hj. apply (in_map_sigmoid_range (MLP layers_alloc' (alloc_prob params) (ravel vals))).
  apply nth_In. fold (alloc_gate params vals). now rewrite alloc_gate_length.
Qed.

(** The column [j] of the allocation is the column of the softmax scaled
    by the probability of allocating the item [j]. *)
Lemma allocation_column params vals j :
  (j < items)%nat ->
  column j (allocation params vals)
  = map (fun x => nth j (alloc_gate params vals) 0 * x)
        (column j (softmax0 (alloc_logits params vals))).
Proof.
  intros Hj. destruct (softmax_logits_shape params vals) as [_ HSR].
  unfold allocation, column. rewrite !map_map. apply map_ext_in. intros row Hrow.
  apply nth_zipWith; [now rewrite alloc_gate_length|now rewrite (HSR row Hrow)].
Qed.

Lemma allocation_column_sum params vals j :
  (1 <= bidders)%nat -> (j < items)%nat ->
  sum (column j (allocation params vals)) = nth j (alloc_gate params vals) 0.
Proof.
  intros HB Hj. destruct (alloc_logits_shape params vals) as [HL HR].
  assert (Hne : alloc_logits params vals <> []).
  { intros E. rewrite E in HL. simpl in HL. lia. }
  rewrite (allocation_column params vals j Hj), sum_map_scale.
  rewrite (softmax0_column_sum _ items j Hne HR Hj). lra.
Qed.

Lemma allocation_entry_range params vals row x :
  In row (allocation params vals) -> In x row -> 0 < x < 1.
Proof.
  intros Hrow Hx. destruct (alloc_logits_shape params vals) as [HL HR].
  pose proof (has_shape2_elim _ _ _ (allocation_shape params vals)) as [_ Ra].
  apply (In_nth _ _ 0) in Hx as (j & Hj & <-). rewrite (Ra row Hrow) in Hj.
  assert (Hin : In (nth j row 0) (column j (allocation params vals))).
  { unfold column. apply in_map_iff. now exists row. }
  rewrite (allocation_column params vals j Hj) in Hin.
  apply in_map_iff in Hin as (y & <- & Hy).
  pose proof (alloc_gate_range params vals j Hj).
  pose proof (softmax0_column_range _ items j y HR Hj Hy). nra.
Qed.

(** C4: every entry of the allocation lies in [0, 1]; the column of the
    item [j] is a softmax over the bidders, which sums to exactly one,
    scaled by the logistic factor of the item, which lies in (0, 1); so
    that the allocations of one item sum to at most one. *)
Theorem Auctioneer_allocation_feasible (params : AuctParams MLPParams) (vals : mat) :
  (1 <= bidders)%nat -> has_shape2 bidders items vals = true ->
  exists alloc pay,
    Auctioneer' params vals = Ok (alloc, pay)
    /\ has_shape2 bidders items alloc = true
    /\ (forall row x, In row alloc -> In x row -> 0 <= x <= 1)
    /\ (forall j, (j < items)%nat ->
          sum (column j (softmax0 (alloc_logits params vals))) = 1
          /\ 0 < nth j (alloc_gate params vals) 0 < 1
          /\ column j alloc
             = map (fun x => nth j (alloc_gate params vals) 0 * x)
                   (column j (softmax0 (alloc_logits params vals)))
          /\ sum (column j alloc) = nth j (alloc_gate params vals) 0
          /\ sum (column j alloc) <= 1).
Proof.
  intros HB Hv. destruct (Auctioneer_returns params vals HB Hv) as (pay & Hrun & _).
  exists (allocation params vals), pay. split; [exact Hrun|].
  split; [apply allocation_shape|].
  destruct (alloc_logits_shape params vals) as [HL HR].
  assert (Hne : alloc_logits params vals <> []).
  { intros E. rewrite E in HL. simpl in HL. lia. }
  split.
  - intros row x Hrow Hx.
    pose proof (allocation_entry_range params vals row x Hrow Hx). lra.
  - intros j Hj. pose proof (alloc_gate_range params vals j Hj).
    repeat split; try tauto.
    + now apply (softmax0_column_sum _ items).
    + now apply allocation_column.
    + now apply allocation_column_sum.
    + rewrite (allocation_column_sum params vals j HB Hj). lra.
Qed.

(** *** Utilities and losses *)

Lemma utility_ok (vals alloc : mat) (pay : vec) :
  (1 <= bidders)%nat -> (items <> 1%nat \/ bidders = 1%nat) ->
  has_shape2 bidders items vals = true -> has_shape2 bidders items alloc = true ->
  length pay = bidders ->
  utility vals alloc pay = Ok (zipWith Rminus (allocated_values vals alloc) pay).
Proof.
  intros HB HI Hv Ha Hp. unfold utility.
  rewrite (squeezed_product Rmult vals alloc bidders items HB HI Hv Ha).
  simpl. fold (allocated_values vals alloc). unfold broadcast1.
  rewrite bzip_same_length by now rewrite (allocated_values_length _ _ Hv Ha).
  simpl. unfold has_shape1.
  rewrite zipWith_length, (allocated_values_length _ _ Hv Ha), Hp, Nat.min_id, Nat.eqb_refl.
  reflexivity.
Qed.

Lemma payments_length params reported :
  has_shape2 bidders items reported = true ->
  length (payments params reported) = bidders.
Proof.
  intros H. unfold payments.
  rewrite zipWith_length, pay_fractions_length,
    (allocated_values_length _ _ H (allocation_shape _ _)). apply Nat.min_id.
Qed.

Lemma utilities_at_length params vals reported :
  has_shape2 bidders items vals = true -> has_shape2 bidders items reported = true ->
  length (utilities_at params vals reported) = bidders.
Proof.
  intros Hv Hr. unfold utilities_at.
  rewrite zipWith_length, (allocated_values_length _ _ Hv (allocation_shape _ _)),
    (payments_length _ _ Hr). apply Nat.min_id.
Qed.

Lemma misr_utility_ok (misreports vals : mat) (params : AuctParams MLPParams) :
  (1 <= bidders)%nat -> (items <> 1%nat \/ bidders = 1%nat) ->
  has_shape2 bidders items vals = true ->
  has_shape2 bidders items misreports = true ->
  misr_utility MLPParams MLP bidders items net_width net_depth misreports vals params
  = Ok (map (fun i => nth i (utilities_at params vals (misr_profile vals misreports i)) 0)
            (seq 0 bidders)).
Proof.
  intros HB HI Hv Hm. unfold misr_utility.
  rewrite (mapM_ok_map _ (fun i => nth i (utilities_at params vals
                                           (misr_profile vals misreports i)) 0)).
  - simpl. unfold stack_scalars.
    destruct (seq 0 bidders) eqn:E; [now apply seq_nonempty in E|reflexivity].
  - intros i Hi. apply in_seq in Hi.
    destruct (misr_bidder_i_ok vals misreports bidders items i Hv Hm) as [-> Hs].
    simpl. fold (misr_profile vals misreports i) in *. rewrite Hs. simpl.
    fold Auctioneer'. rewrite (Auctioneer_ok params _ HB HI Hs). simpl.
    fold (payments params (misr_profile vals misreports i)).
    rewrite (utility_ok _ _ _ HB HI Hv (allocation_shape _ _) (payments_length _ _ Hs)).
    simpl. fold (utilities_at params vals (misr_profile vals misreports i)).
    apply index_ok. rewrite (utilities_at_length _ _ _ Hv Hs). lia.
Qed.

Lemma Misreporter_shape (params : MisrParams MLPParams) (vals : mat) :
  has_shape2 bidders items
    (map (fun i => map sigmoid (misr_logits params vals i)) (seq 0 bidders)) = true.
Proof.
  apply has_shape2_intro.
  - now rewrite length_map, length_seq.
  - intros row Hrow. apply in_map_iff in Hrow as (i & <- & _).
    rewrite length_map. unfold misr_logits. now rewrite MLP_shape.
Qed.

Lemma misr_loss_ok (mp : MisrParams MLPParams) (ap : AuctParams MLPParams) (vals : mat) :
  (1 <= bidders)%nat -> (items <> 1%nat \/ bidders = 1%nat) ->
  has_shape2 bidders items vals = true ->
  misr_loss MLPParams MLP bidders items net_width net_depth mp ap vals
  = Ok (- sum (u_misr ap mp vals)).
Proof.
  intros HB HI Hv. unfold misr_loss. fold Misreporter'.
  rewrite (Misreporter_ok mp vals HB). simpl.
  rewrite (misr_utility_ok _ _ _ HB HI Hv (Misreporter_shape mp vals)). reflexivity.
Qed.

Lemma auct_loss_ok (ap : AuctParams MLPParams) (mp : MisrParams MLPParams) (vals : mat) :
  (1 <= bidders)%nat -> (items <> 1%nat \/ bidders = 1%nat) ->
  has_shape2 bidders items vals = true ->
  auct_loss MLPParams MLP bidders items net_width net_depth ap mp vals
  = Ok (- (sqrt (sum (payments ap vals)) - sqrt (sum (regret ap mp vals)))
        + sum (regret ap mp vals)).
Proof.
  intros HB HI Hv. unfold auct_loss. fold Auctioneer' Misreporter'.
  rewrite (Auctioneer_ok ap vals HB HI Hv). simpl. fold (payments ap vals).
  rewrite (Misreporter_ok mp vals HB). simpl.
  rewrite (misr_utility_ok _ _ _ HB HI Hv (Misreporter_shape mp vals)). simpl.
  fold (misreports_of mp vals). fold (u_misr ap mp vals).
  rewrite (utility_ok _ _ _ HB HI Hv (allocation_shape _ _) (payments_length _ _ Hv)).
  simpl. fold (utilities_at ap vals vals). unfold broadcast1.
  rewrite bzip_same_length.
  - reflexivity.
  - unfold u_misr. now rewrite length_map, length_seq, (utilities_at_length _ _ _ Hv Hv).
Qed.

Lemma nth_pay_fractions params vals i :
  (i < bidders)%nat -> nth i (pay_fractions params vals) 0 = pay_fraction params vals i.
Proof.
  intros Hi. unfold pay_fractions.
  rewrite (nth_map_in _ _ i 0 0%nat) by now rewrite length_seq.
  now rewrite seq_nth.
Qed.

Lemma nth_payments params vals i :
  (i < bidders)%nat -> has_shape2 bidders items vals = true ->
  nth i (payments params vals) 0
  = pay_fraction params vals i
    * sum (zipWith Rmult (nth i vals []) (nth i (allocation params vals) [])).
Proof.
  intros Hi Hv. unfold payments.
  pose proof (has_shape2_elim _ _ _ Hv) as [Lv _].
  pose proof (has_shape2_elim _ _ _ (allocation_shape params vals)) as [La _].
  rewrite (nth_zipWith Rmult _ _ i 0 0 0).
  - rewrite nth_pay_fractions by exact Hi. unfold allocated_values.
    now rewrite nth_allocated by lia.
  - now rewrite pay_fractions_length.
  - now rewrite (allocated_values_length _ _ Hv (allocation_shape _ _)).
Qed.

(** On a profile of nonnegative values every payment is nonnegative. *)
Lemma payments_nonneg (params : AuctParams MLPParams) (vals : mat) :
  has_shape2 bidders items vals = true ->
  (forall row x, In row vals -> In x row -> 0 <= x) ->
  forall x, In x (payments params vals) -> 0 <= x.
Proof.
  intros Hv Hpos x Hx.
  pose proof (has_shape2_elim _ _ _ Hv) as [Lv _].
  pose proof (has_shape2_elim _ _ _ (allocation_shape params vals)) as [La _].
  destruct (In_nth _ _ 0 Hx) as (i & Hi & <-).
  rewrite (payments_length _ _ Hv) in Hi.
  rewrite (nth_payments params vals i Hi Hv).
  apply Rmult_le_pos.
  - pose proof (sigmoid_range (nth 0 (MLP layers_pay' (pay_mlp params)
                                        (ravel (map (permute_row i) vals))) 0)) as H.
    fold (pay_fraction params vals i) in H. lra.
  - apply sum_products_nonneg.
    + intros y Hy. apply (Hpos (nth i vals [])); [apply nth_In; lia|exact Hy].
    + intros y Hy.
      assert (Hrow : In (nth i (allocation params vals) []) (allocation params vals))
        by (apply nth_In; lia).
      pose proof (allocation_entry_range params vals _ y Hrow Hy). lra.
Qed.

(** X1: the loss of the auctioneer, as the program computes it on a profile
    of nonnegative values with at least two items or a single bidder.  The
    revenue and the total regret are nonnegative there, so that both square
    roots are of nonnegative numbers, and the loss is minus the square root
    of the revenue, plus the square root of the total regret and the total
    regret, where the regret of a bidder is the positive part of what the
    bidder gains under the profile built by [misr_bidder_i]; the loss
    decreases strictly in the revenue and increases strictly in the total
    regret. *)
Theorem auct_loss_value (ap : AuctParams MLPParams) (mp : MisrParams MLPParams)
    (vals : mat) :
  (1 <= bidders)%nat -> (items <> 1%nat \/ bidders = 1%nat) ->
  has_shape2 bidders items vals = true ->
  (forall row x, In row vals -> In x row -> 0 <= x) ->
  auct_loss MLPParams MLP bidders items net_width net_depth ap mp vals
  = Ok (loss_of (sum (payments ap vals)) (sum (regret ap mp vals)))
  /\ 0 <= sum (payments ap vals)
  /\ 0 <= sum (regret ap mp vals)
  /\ (forall i, (i < bidders)%nat ->
        nth i (regret ap mp vals) 0
        = Rmax (nth i (u_misr ap mp vals) 0 - nth i (utilities_at ap vals vals) 0) 0)
  /\ (forall x, In x (regret ap mp vals) -> 0 <= x)
  /\ (forall p1 p2 g, 0 <= p1 < p2 -> loss_of p2 g < loss_of p1 g)
  /\ (forall p g1 g2, 0 <= g1 < g2 -> loss_of p g1 < loss_of p g2).
Proof.
  intros HB HI Hv Hpos.
  assert (Hreg : forall x, In x (regret ap mp vals) -> 0 <= x).
  { intros x Hx. unfold regret in Hx. apply in_map_iff in Hx as (y & <- & _).
    apply relu_nonneg. }
  split; [now apply auct_loss_ok|].
  split; [apply sum_nonneg, (payments_nonneg ap vals Hv Hpos)|].
  split; [apply sum_nonneg, Hreg|]. split; [|split; [exact Hreg|split]].
  - intros i Hi. unfold regret.
    assert (Hu : length (u_misr ap mp vals) = bidders)
      by (unfold u_misr; now rewrite length_map, length_seq).
    pose proof (utilities_at_length ap vals vals Hv Hv) as Ht.
    rewrite (nth_map_in relu _ i 0 0) by (rewrite zipWith_length, Hu, Ht; lia).
    rewrite (nth_zipWith Rminus _ _ i 0 0 0) by lia. reflexivity.
  - apply loss_of_decreasing_in_revenue.
  - apply loss_of_increasing_in_regret.
Qed.

(** X2: the payment rule, on a profile with at least two items or a single
    bidder: the forward pass returns an allocation of shape
    [(bidders, items)] and one payment per bidder, the payment of the
    bidder [i] being a logistic fraction, in (0, 1), of the value of what
    the bidder is allocated. *)
Theorem Auctioneer_payment_rule (params : AuctParams MLPParams) (vals : mat) :
  (1 <= bidders)%nat -> (items <> 1%nat \/ bidders = 1%nat) ->
  has_shape2 bidders items vals = true ->
  exists alloc pay,
    Auctioneer' params vals = Ok (alloc, pay)
    /\ has_shape2 bidders items alloc = true
    /\ length pay = bidders
    /\ (forall i, (i < bidders)%nat ->
          0 < pay_fraction params vals i < 1
          /\ nth i pay 0
             = pay_fraction params vals i
               * sum (zipWith Rmult (nth i vals []) (nth i alloc []))).
Proof.
  intros HB HI Hv. exists (allocation params vals), (payments params vals).
  split; [now apply Auctioneer_ok|]. split; [apply allocation_shape|].
  split; [now apply payments_length|].
  intros i Hi. split; [apply sigmoid_range|now apply nth_payments].
Qed.

(** X4: individual rationality, on a profile of nonnegative values with at
    least two items or a single bidder: every payment lies between zero and
    the value of what the bidder is allocated, and the utilities under
    truthful bidding are nonnegative. *)
Theorem truthful_utility_nonneg (params : AuctParams MLPParams) (vals : mat) :
  (1 <= bidders)%nat -> (items <> 1%nat \/ bidders = 1%nat) ->
  has_shape2 bidders items vals = true ->
  (forall row x, In row vals -> In x row -> 0 <= x) ->
  exists alloc pay utilities,
    Auctioneer' params vals = Ok (alloc, pay)
    /\ utility vals alloc pay = Ok utilities
    /\ length utilities = bidders
    /\ (forall i, (i < bidders)%nat ->
          0 <= nth i pay 0 <= sum (zipWith Rmult (nth i vals []) (nth i alloc []))
          /\ nth i utilities 0
             = sum (zipWith Rmult (nth i vals []) (nth i alloc [])) - nth i pay 0
          /\ 0 <= nth i utilities 0).
Proof.
  intros HB HI Hv Hpos.
  exists (allocation params vals), (payments params vals), (utilities_at params vals vals).
  split; [now apply Auctioneer_ok|].
  split; [apply utility_ok; auto using allocation_shape, payments_length|].
  split; [now apply utilities_at_length|].
  intros i Hi.
  pose proof (has_shape2_elim _ _ _ Hv) as [Lv _].
  pose proof (has_shape2_elim _ _ _ (allocation_shape params vals)) as [La _].
  set (av := sum (zipWith Rmult (nth i vals []) (nth i (allocation params vals) []))).
  assert (Hav : 0 <= av).
  { apply sum_products_nonneg.
    - intros x Hx. apply (Hpos (nth i vals [])); [apply nth_In; lia|exact Hx].
    - intros y Hy.
      assert (In (nth i (allocation params vals) []) (allocation params vals))
        by (apply nth_In; lia).
      pose proof (allocation_entry_range params vals _ y H Hy). lra. }
  pose proof (sigmoid_range (nth 0 (MLP layers_pay' (pay_mlp params)
                                      (ravel (map (permute_row i) vals))) 0)) as Hf.
  fold (pay_fraction params vals i) in Hf.
  assert (Hp : nth i (payments params vals) 0 = pay_fraction params vals i * av)
    by now apply nth_payments.
  assert (Hu : nth i (utilities_at params vals vals) 0
               = av - nth i (payments params vals) 0).
  { unfold utilities_at. rewrite (nth_zipWith Rminus _ _ i 0 0 0).
    - unfold allocated_values. now rewrite nth_allocated by lia.
    - now rewrite (allocated_values_length _ _ Hv (allocation_shape _ _)).
    - now rewrite payments_length. }
  rewrite Hu, Hp. repeat split; nra.
Qed.

(** X3: the loss of the misreporter, on a profile with at least two items or
    a single bidder: minus the sum, over the bidders [i], of the utility
    of [i] when the auction is run on the profile that [misr_bidder_i]
    builds, in which the column of the item [i] is taken from the
    misreports, the rows of the other bidders included; for
    [i >= items] that profile is the truthful one. *)
Theorem misr_loss_value (mp : MisrParams MLPParams) (ap : AuctParams MLPParams)
    (vals : mat) :
  (1 <= bidders)%nat -> (items <> 1%nat \/ bidders = 1%nat) ->
  has_shape2 bidders items vals = true ->
  misr_loss MLPParams MLP bidders items net_width net_depth mp ap vals
  = Ok (- sum (u_misr ap mp vals))
  /\ (forall i, (i < bidders)%nat ->
        nth i (u_misr ap mp vals) 0
        = nth i (utilities_at ap vals
                   (misr_profile vals (misreports_of mp vals) i)) 0)
  /\ (forall i k, (k < bidders)%nat ->
        nth k (misr_profile vals (misreports_of mp vals) i) []
        = replace_entry i (nth k vals []) (nth k (misreports_of mp vals) []))
  /\ (forall i, (items <= i)%nat ->
        misr_profile vals (misreports_of mp vals) i = vals).
Proof.
  intros HB HI Hv. split; [now apply misr_loss_ok|].
  pose proof (has_shape2_elim _ _ _ Hv) as [Lv Rv].
  pose proof (has_shape2_elim _ _ _ (Misreporter_shape mp vals)) as [Lm Rm].
  fold (misreports_of mp vals) in Lm, Rm.
  split; [|split].
  - intros i Hi. unfold u_misr.
    rewrite (nth_map_in _ _ i 0 0%nat) by now rewrite length_seq.
    now rewrite seq_nth.
  - intros i k Hk. unfold misr_profile.
    apply nth_zipWith; lia.
  - intros i Hi. unfold misr_profile.
    apply (nth_ext _ _ [] []).
    + rewrite zipWith_length, Lv, Lm. now rewrite Nat.min_id.
    + intros k Hk. rewrite zipWith_length, Lv, Lm, Nat.min_id in Hk.
      rewrite (nth_zipWith (replace_entry i) _ _ k [] [] []) by lia.
      assert (Hkv : length (nth k vals []) = items) by (apply Rv, nth_In; lia).
      assert (Hkm : length (nth k (misreports_of mp vals) []) = items)
        by (apply Rm, nth_In; lia).
      apply replace_entry_out_of_range; lia.
Qed.

(** *** Further properties of the forward passes *)

Lemma misr_profile_truthful (vals : mat) (i : nat) : misr_profile vals vals i = vals.
Proof.
  unfold misr_profile. rewrite zipWith_same.
  rewrite (map_ext _ (fun v => v)) by (intros; apply replace_entry_same).
  apply map_id.
Qed.

(** X8: a misreport that equals the values changes nothing: [misr_bidder_i]
    returns the profile itself, and [misr_utility] returns the utilities of
    the truthful auction. *)
Theorem misr_utility_truthful (ap : AuctParams MLPParams) (vals : mat) :
  (1 <= bidders)%nat -> (items <> 1%nat \/ bidders = 1%nat) ->
  has_shape2 bidders items vals = true ->
  (forall i, misr_bidder_i vals vals i = Ok vals)
  /\ exists alloc pay utilities,
       Auctioneer' ap vals = Ok (alloc, pay)
       /\ utility vals alloc pay = Ok utilities
       /\ misr_utility MLPParams MLP bidders items net_width net_depth vals vals ap
          = Ok utilities.
Proof.
  intros HB HI Hv. split.
  - intros i. destruct (misr_bidder_i_ok vals vals bidders items i Hv Hv) as [-> _].
    fold (misr_profile vals vals i). now rewrite misr_profile_truthful.
  - exists (allocation ap vals), (payments ap vals), (utilities_at ap vals vals).
    split; [now apply Auctioneer_ok|].
    split; [apply utility_ok; auto using allocation_shape, payments_length|].
    rewrite (misr_utility_ok _ _ _ HB HI Hv Hv). f_equal.
    rewrite (map_ext _ (fun i => nth i (utilities_at ap vals vals) 0))
      by (intros i; now rewrite misr_profile_truthful).
    rewrite <- (utilities_at_length ap vals vals Hv Hv) at 1.
    apply map_nth_seq_all.
Qed.

(** X9: what the program notes as a check, [utility[i] == utility_i]: on
    arrays of the auction's shape, with at least two items or a single
    bidder, [utility_i] returns the entry [i] of what [utility] returns. *)
Theorem utility_agrees_with_utility_i (vals alloc : mat) (pay : vec) :
  (1 <= bidders)%nat -> (items <> 1%nat \/ bidders = 1%nat) ->
  has_shape2 bidders items vals = true -> has_shape2 bidders items alloc = true ->
  length pay = bidders ->
  exists utilities,
    utility vals alloc pay = Ok utilities
    /\ length utilities = bidders
    /\ (forall i, (i < bidders)%nat ->
          utility_i vals i alloc pay = Ok (nth i utilities 0)).
Proof.
  intros HB HI Hv Ha Hp. exists (zipWith Rminus (allocated_values vals alloc) pay).
  split; [now apply utility_ok|].
  pose proof (allocated_values_length _ _ Hv Ha) as Lav.
  split; [rewrite zipWith_length, Lav, Hp; apply Nat.min_id|].
  intros i Hi.
  pose proof (has_shape2_elim _ _ _ Hv) as [Lv Rv].
  pose proof (has_shape2_elim _ _ _ Ha) as [La Ra].
  unfold utility_i, row.
  rewrite (nth_error_nth' alloc [] (n := i)) by lia.
  rewrite (nth_error_nth' vals [] (n := i)) by lia. simpl.
  unfold broadcast1. rewrite bzip_same_length.
  2:{ rewrite (Ra (nth i alloc [])), (Rv (nth i vals [])); auto; apply nth_In; lia. }
  simpl. rewrite index_ok by lia. simpl. f_equal.
  rewrite (nth_zipWith Rminus _ _ i 0 0 0) by lia.
  unfold allocated_values. rewrite nth_allocated by lia.
  now rewrite sum_zipWith_comm.
Qed.

(** X10: with a single bidder the softmax over the bidders is one
    everywhere: the allocation is the row of the per-item probabilities,
    and the payment is the bidder's fraction of the value of that row. *)
Theorem Auctioneer_single_bidder (params : AuctParams MLPParams) (vals : mat) :
  bidders = 1%nat -> has_shape2 bidders items vals = true ->
  Auctioneer' params vals
  = Ok ([alloc_gate params vals],
        [pay_fraction params vals 0
         * sum (zipWith Rmult (nth 0 vals []) (alloc_gate params vals))]).
Proof.
  intros HB Hv.
  assert (HB1 : (1 <= bidders)%nat) by lia.
  rewrite (Auctioneer_ok params vals HB1 (or_intror HB) Hv).
  pose proof (has_shape2_elim _ _ _ (allocation_shape params vals)) as [La Ra].
  pose proof (has_shape2_elim _ _ _ Hv) as [Lv _].
  assert (E : allocation params vals = [alloc_gate params vals]).
  { destruct (allocation params vals) as [|arow [|? ?]] eqn:Ealloc;
      simpl in La; try lia. f_equal.
    apply (nth_ext _ _ 0 0).
    - rewrite alloc_gate_length. apply Ra. now left.
    - intros j Hj. rewrite (Ra arow (or_introl eq_refl)) in Hj.
      pose proof (allocation_column_sum params vals j HB1 Hj) as Hs.
      rewrite Ealloc in Hs. simpl in Hs. lra. }
  fold (payments params vals). f_equal. apply f_equal2; [exact E|].
  apply (nth_ext _ _ 0 0).
  - rewrite (payments_length _ _ Hv). simpl. lia.
  - intros i Hi. rewrite (payments_length _ _ Hv), HB in Hi.
    assert (i = 0%nat) by lia. subst i.
    rewrite nth_payments by (auto; lia). now rewrite E.
Qed.

(** The payments are nonnegative and sum to at most the value of what is
    allocated, which is at most the sum of the per-item probabilities. *)
Lemma revenue_bounds (params : AuctParams MLPParams) (vals : mat) :
  (1 <= bidders)%nat -> has_shape2 bidders items vals = true ->
  (forall row x, In row vals -> In x row -> 0 <= x <= 1) ->
  0 <= sum (payments params vals)
  /\ sum (payments params vals) <= sum (allocated_values vals (allocation params vals))
  /\ sum (allocated_values vals (allocation params vals)) <= sum (alloc_gate params vals)
  /\ sum (alloc_gate params vals) <= INR items.
Proof.
  intros HB Hv Hrange.
  pose proof (has_shape2_elim _ _ _ (allocation_shape params vals)) as [La Ra].
  destruct (allocated_values_le vals (allocation params vals) Hrange) as [Hav Hle].
  { intros row x Hrow Hx. pose proof (allocation_entry_range params vals row x Hrow Hx). lra. }
  assert (Hf : forall x, In x (pay_fractions params vals) -> 0 <= x <= 1).
  { intros x Hx. unfold pay_fractions in Hx. apply in_map_iff in Hx as (i & <- & _).
    pose proof (sigmoid_range (nth 0 (MLP layers_pay' (pay_mlp params)
                                        (ravel (map (permute_row i) vals))) 0)) as H.
    fold (pay_fraction params vals i) in H. lra. }
  pose proof (sum_scaled_le _ _ Hf Hav) as Hpay. fold (payments params vals) in Hpay.
  split; [apply Hpay|]. split; [apply Hpay|]. split.
  - assert (E : map (fun j => sum (column j (allocation params vals))) (seq 0 items)
                = alloc_gate params vals).
    { rewrite (map_ext_in _ (fun j => nth j (alloc_gate params vals) 0)).
      - transitivity (map (fun j => nth j (alloc_gate params vals) 0)
                        (seq 0 (length (alloc_gate params vals))));
          [now rewrite alloc_gate_length|apply map_nth_seq_all].
      - intros j Hj. apply in_seq in Hj. apply allocation_column_sum; lia. }
    now rewrite (sum_rows_columns _ items Ra), E in Hle.
  - pose proof (sum_le_length (alloc_gate params vals)) as H.
    rewrite alloc_gate_length in H. apply H.
    intros x Hx. apply in_map_sigmoid_range in Hx. lra.
Qed.

(** X11: on a profile of values in [0, 1], as the sampler draws them, the
    revenue is nonnegative and at most the value of what is allocated,
    which is at most the sum over the items of the probability of
    allocating the item, and so at most the number of items. *)
Theorem Auctioneer_revenue_bounded (params : AuctParams MLPParams) (vals : mat) :
  (1 <= bidders)%nat -> (items <> 1%nat \/ bidders = 1%nat) ->
  has_shape2 bidders items vals = true ->
  (forall row x, In row vals -> In x row -> 0 <= x <= 1) ->
  exists alloc pay,
    Auctioneer' params vals = Ok (alloc, pay)
    /\ 0 <= sum pay
    /\ sum pay <= sum (allocated_values vals alloc)
    /\ sum (allocated_values vals alloc) <= sum (alloc_gate params vals)
    /\ sum (alloc_gate params vals) <= INR items.
Proof.
  intros HB HI Hv Hrange. exists (allocation params vals), (payments params vals).
  split; [now apply Auctioneer_ok|]. now apply revenue_bounds.
Qed.

(** X12: on a profile of values in [0, 1] the loss of the auctioneer is
    bounded below by minus the square root of the number of items. *)
Theorem auct_loss_bounded_below (ap : AuctParams MLPParams) (mp : MisrParams MLPParams)
    (vals : mat) :
  (1 <= bidders)%nat -> (items <> 1%nat \/ bidders = 1%nat) ->
  has_shape2 bidders items vals = true ->
  (forall row x, In row vals -> In x row -> 0 <= x <= 1) ->
  exists loss,
    auct_loss MLPParams MLP bidders items net_width net_depth ap mp vals = Ok loss
    /\ - sqrt (INR items) <= loss.
Proof.
  intros HB HI Hv Hrange. eexists. split; [now apply auct_loss_ok|].
  destruct (revenue_bounds ap vals HB Hv Hrange) as (H0 & H1 & H2 & H3).
  assert (Hreg : 0 <= sum (regret ap mp vals)).
  { apply sum_nonneg. intros x Hx. unfold regret in Hx.
    apply in_map_iff in Hx as (y & <- & _). apply relu_nonneg. }
  pose proof (sqrt_pos (sum (regret ap mp vals))).
  assert (sqrt (sum (payments ap vals)) <= sqrt (INR items))
    by (apply sqrt_le_1_alt; lra).
  lra.
Qed.

(** X13: without bidders every list that the networks and [misr_utility]
    stack is empty, and [jnp.stack] raises a [ValueError]: in the
    auctioneer after the per-item probabilities have passed their shape
    check, in the misreporter and in [misr_utility] at once, and so in
    both losses. *)
Theorem no_bidders_raise (ap : AuctParams MLPParams) (mp : MisrParams MLPParams)
    (vals misreports : mat) :
  bidders = 0%nat ->
  Auctioneer' ap vals = Raise ValueError
  /\ Misreporter' mp vals = Raise ValueError
  /\ misr_utility MLPParams MLP bidders items net_width net_depth misreports vals ap
     = Raise ValueError
  /\ auct_loss MLPParams MLP bidders items net_width net_depth ap mp vals
     = Raise ValueError
  /\ misr_loss MLPParams MLP bidders items net_width net_depth mp ap vals
     = Raise ValueError.
Proof.
  intros HB.
  assert (HA : Auctioneer' ap vals = Raise ValueError).
  { unfold Auctioneer', Auctioneer. fold layers_alloc'. fold (alloc_gate ap vals).
    unfold has_shape1 at 1. rewrite alloc_gate_length, Nat.eqb_refl, HB. reflexivity. }
  assert (HM : Misreporter' mp vals = Raise ValueError).
  { unfold Misreporter', Misreporter. rewrite HB. reflexivity. }
  split; [exact HA|]. split; [exact HM|]. split; [|split].
  - unfold misr_utility. rewrite HB. reflexivity.
  - unfold auct_loss. fold Auctioneer'. now rewrite HA.
  - unfold misr_loss. fold Misreporter'. now rewrite HM.
Qed.

Lemma hd_nth_0 (row : vec) : hd 0 row = nth 0 row 0.
Proof. now destruct row. Qed.

Lemma single_item_row_sum (vals : mat) (arow : vec) :
  sum (map (fun v => v * hd 0 arow) (map (fun row => hd 0 row) vals))
  = nth 0 arow 0 * sum (column 0 vals).
Proof.
  rewrite (map_ext _ (fun v => nth 0 arow 0 * v))
    by (intros v; rewrite hd_nth_0; apply Rmult_comm).
  rewrite sum_map_scale. unfold column.
  now rewrite (map_ext _ (fun row => nth 0 row 0)) by (intros; apply hd_nth_0).
Qed.

(** X29: with a single item and at least two bidders, what the program
    computes: the squeezed profile has the length of the bidders and is
    multiplied along the rows of the allocation, so that the payment of a
    bidder is the bidder's fraction of the bidder's allocation times the
    sum of the values of all the bidders, and [utility] returns that
    product less the payment. *)
Theorem Auctioneer_single_item_rule (params : AuctParams MLPParams) (vals : mat) :
  (2 <= bidders)%nat -> items = 1%nat ->
  has_shape2 bidders items vals = true ->
  exists alloc pay utilities,
    Auctioneer' params vals = Ok (alloc, pay)
    /\ has_shape2 bidders items alloc = true
    /\ length pay = bidders
    /\ utility vals alloc pay = Ok utilities
    /\ length utilities = bidders
    /\ (forall i, (i < bidders)%nat ->
          nth i pay 0
          = pay_fraction params vals i
            * (nth 0 (nth i alloc []) 0 * sum (column 0 vals))
          /\ nth i utilities 0
             = nth 0 (nth i alloc []) 0 * sum (column 0 vals) - nth i pay 0).
Proof.
  intros HB HI Hv.
  pose proof (has_shape2_elim _ _ _ (allocation_shape params vals)) as [La _].
  pose proof (eq_ind items (fun c => has_shape2 bidders c vals = true) Hv 1%nat HI) as Hv1.
  pose proof (eq_ind items
                (fun c => has_shape2 bidders c (allocation params vals) = true)
                (allocation_shape params vals) 1%nat HI) as Ha1.
  cbv beta in Hv1, Ha1.
  set (scaled := map (fun arow => nth 0 arow 0 * sum (column 0 vals))
                     (allocation params vals)).
  assert (Ls : length scaled = bidders) by (unfold scaled; now rewrite length_map).
  assert (Es : map (fun arow =>
                      sum (map (fun v => v * hd 0 arow) (map (fun row => hd 0 row) vals)))
                   (allocation params vals) = scaled).
  { unfold scaled. apply map_ext. intros arow. apply single_item_row_sum. }
  set (pay := zipWith Rmult (pay_fractions params vals) scaled).
  assert (Lp : length pay = bidders).
  { unfold pay. rewrite zipWith_length, pay_fractions_length, Ls. apply Nat.min_id. }
  exists (allocation params vals), pay, (zipWith Rminus scaled pay).
  split; [|split; [apply allocation_shape|split; [exact Lp|split; [|split]]]].
  - rewrite (Auctioneer_single_item params vals HB HI Hv). now rewrite Es.
  - unfold utility.
    rewrite (squeezed_product_single_item Rmult vals _ bidders HB Hv1 Ha1).
    simpl. unfold sum_axis1. rewrite map_map, Es. unfold broadcast1.
    rewrite bzip_same_length by now rewrite Ls, Lp.
    simpl. unfold has_shape1.
    now rewrite zipWith_length, Ls, Lp, Nat.min_id, Nat.eqb_refl.
  - rewrite zipWith_length, Ls, Lp. apply Nat.min_id.
  - intros i Hi.
    assert (Hsc : nth i scaled 0
                  = nth 0 (nth i (allocation params vals) []) 0 * sum (column 0 vals)).
    { unfold scaled.
      now rewrite (nth_map_in _ (allocation params vals) i 0 []) by lia. }
    split.
    + unfold pay. rewrite (nth_zipWith Rmult _ _ i 0 0 0)
        by (rewrite ?pay_fractions_length, ?Ls; lia).
      now rewrite nth_pay_fractions, Hsc by exact Hi.
    + rewrite (nth_zipWith Rminus _ _ i 0 0 0) by lia. now rewrite Hsc.
Qed.

End NetworkProperties.

(** ** The program on concrete profiles *)

Lemma zero_MLP_shape (layers : list nat) (p : unit) (x : vec) :
  length (zero_MLP layers p x) = last layers 0%nat.
Proof. apply repeat_length. Qed.

Ltac eval_networks :=
  unfold u_misr_unilateral, regret, u_misr, utilities_at, misr_profile, misreports_of,
    misr_logits, payments, allocated_values, allocation, alloc_gate, alloc_logits,
    pay_fractions, pay_fraction, softmax0, zipWith, sum_axis1, column, replace_row,
    layers_alloc, layers_pay, layers_misr, layers, zero_MLP;
  simpl; rewrite ?sigmoid_0, ?exp_0.

Ltac eq_entries := repeat (apply f_equal2; [field|]); reflexivity.

Lemma u_misr_2x2 :
  u_misr unit zero_MLP 2 2 200 7 zero_auct zero_misr vals_2x2 = [5 / 32; 5 / 32].
Proof. unfold vals_2x2. eval_networks. eq_entries. Qed.

Lemma u_misr_unilateral_2x2 :
  u_misr_unilateral unit zero_MLP 2 2 200 7 zero_auct zero_misr vals_2x2 = [3 / 16; 3 / 16].
Proof. unfold vals_2x2. eval_networks. eq_entries. Qed.

Lemma u_truth_2x2 :
  utilities_at unit zero_MLP 2 2 200 7 zero_auct vals_2x2 vals_2x2 = [5 / 32; 5 / 32].
Proof. unfold vals_2x2. eval_networks. eq_entries. Qed.

Lemma payments_2x2 :
  payments unit zero_MLP 2 2 200 7 zero_auct vals_2x2 = [5 / 32; 5 / 32].
Proof. unfold vals_2x2. eval_networks. eq_entries. Qed.

Lemma misreports_2x2 :
  misreports_of unit zero_MLP 2 2 200 7 zero_misr vals_2x2 = [[1 / 2; 1 / 2]; [1 / 2; 1 / 2]].
Proof. unfold vals_2x2. eval_networks. reflexivity. Qed.

(** C7, on the profile [[1/8, 1/4], [3/8, 1/2], [5/8, 3/4]] of three
    bidders and two items, for every MLP and all parameters: the
    misreporter returns three rows, each the logistic function of the
    MLP's output, but not on the bidders' views of the profile.  The row of
    the bidder 1 is computed from the profile with the entry of the item 1
    moved to the front of every row, where the view of the bidder 1 has the
    row of the bidder 1 moved to the front; the row of the bidder 2, an
    index that is no item, is computed from the profile as it is, as the
    row of the bidder 0, where the view of the bidder 2 has the row of the
    bidder 2 moved to the front. *)
Theorem Misreporter_views_permute_items (MLPParams : Type)
    (MLP : list nat -> MLPParams -> vec -> vec) (net_width net_depth : nat)
    (params : MisrParams MLPParams) :
  (forall layers p x, length (MLP layers p x) = last layers 0%nat) ->
  Misreporter MLPParams MLP 3 2 net_width net_depth params vals_3x2
  = Ok [map sigmoid
          (MLP (layers_misr 3 2 net_width net_depth) (misr_mlp params)
             [1 / 8; 1 / 4; 3 / 8; 1 / 2; 5 / 8; 3 / 4]);
        map sigmoid
          (MLP (layers_misr 3 2 net_width net_depth) (misr_mlp params)
             [1 / 4; 1 / 8; 1 / 2; 3 / 8; 3 / 4; 5 / 8]);
        map sigmoid
          (MLP (layers_misr 3 2 net_width net_depth) (misr_mlp params)
             [1 / 8; 1 / 4; 3 / 8; 1 / 2; 5 / 8; 3 / 4])]
  /\ ravel (bidder_view vals_3x2 0) = [1 / 8; 1 / 4; 3 / 8; 1 / 2; 5 / 8; 3 / 4]
  /\ ravel (bidder_view vals_3x2 1) = [3 / 8; 1 / 2; 1 / 8; 1 / 4; 5 / 8; 3 / 4]
  /\ ravel (bidder_view vals_3x2 2) = [5 / 8; 3 / 4; 1 / 8; 1 / 4; 3 / 8; 1 / 2]
  /\ ravel (bidder_view vals_3x2 1) <> [1 / 4; 1 / 8; 1 / 2; 3 / 8; 3 / 4; 5 / 8]
  /\ ravel (bidder_view vals_3x2 2) <> [1 / 8; 1 / 4; 3 / 8; 1 / 2; 5 / 8; 3 / 4].
Proof.
  intros MLP_shape. split; [|split; [|split; [|split; [|split]]]].
  - rewrite (Misreporter_ok MLPParams MLP MLP_shape 3 2 net_width net_depth params
               vals_3x2 ltac:(lia)).
    reflexivity.
  - reflexivity.
  - reflexivity.
  - reflexivity.
  - intros H. apply (f_equal (fun v => nth 0 v 0)) in H. simpl in H. lra.
  - intros H. apply (f_equal (fun v => nth 0 v 0)) in H. simpl in H. lra.
Qed.

(** C3, on the profile [[1/2, 3/4], [3/4, 1/2]] with networks whose weights
    are zero (every misreport is 1/2): for the bidder 0 the program runs
    the auction on [[1/2, 3/4], [1/2, 1/2]], where the column of the item 0
    is replaced, the entry of the bidder 1 included, and not on
    [[1/2, 1/2], [3/4, 1/2]], where the row of the bidder 0 is; the loss is
    -5/16, and not the -3/8 of the unilateral misreports. *)
Theorem misr_loss_replaces_item_column :
  Misreporter unit zero_MLP 2 2 200 7 zero_misr vals_2x2
  = Ok [[1 / 2; 1 / 2]; [1 / 2; 1 / 2]]
  /\ misr_bidder_i vals_2x2 [[1 / 2; 1 / 2]; [1 / 2; 1 / 2]] 0
  = Ok [[1 / 2; 3 / 4]; [1 / 2; 1 / 2]]
  /\ replace_row vals_2x2 [[1 / 2; 1 / 2]; [1 / 2; 1 / 2]] 0
     = [[1 / 2; 1 / 2]; [3 / 4; 1 / 2]]
  /\ misr_loss unit zero_MLP 2 2 200 7 zero_misr zero_auct vals_2x2 = Ok (- (5 / 16))
  /\ - sum (u_misr_unilateral unit zero_MLP 2 2 200 7 zero_auct zero_misr vals_2x2)
     = - (3 / 8).
Proof.
  split.
  { rewrite (Misreporter_ok unit zero_MLP zero_MLP_shape 2 2 200 7 zero_misr vals_2x2)
      by lia.
    fold (misreports_of unit zero_MLP 2 2 200 7 zero_misr vals_2x2).
    now rewrite misreports_2x2. }
  split; [reflexivity|]. split; [reflexivity|]. split.
  - rewrite (misr_loss_ok unit zero_MLP zero_MLP_shape 2 2 200 7 zero_misr zero_auct vals_2x2)
      by (try reflexivity; try lia; left; discriminate).
    rewrite u_misr_2x2. simpl. f_equal. lra.
  - rewrite u_misr_unilateral_2x2. simpl. lra.
Qed.

Lemma regret_2x2 :
  regret unit zero_MLP 2 2 200 7 zero_auct zero_misr vals_2x2 = [0; 0].
Proof.
  unfold regret. rewrite u_misr_2x2, u_truth_2x2. unfold zipWith. simpl.
  rewrite !relu_of_nonpos by lra. reflexivity.
Qed.

(** C1, on the same profile: the bidder 0 reports its own row unchanged in
    the profile the program builds, so that the program finds no regret and
    the loss is minus the square root of the revenue 5/16; with the row of
    every bidder replaced by the bidder's misreport, as the claim has it,
    every bidder gains 3/16 - 5/32 = 1/32. *)
Theorem auct_loss_regret_of_item_column :
  auct_loss unit zero_MLP 2 2 200 7 zero_auct zero_misr vals_2x2
  = Ok (loss_of (5 / 16) 0)
  /\ regret unit zero_MLP 2 2 200 7 zero_auct zero_misr vals_2x2 = [0; 0]
  /\ map relu
       (zipWith Rminus
          (u_misr_unilateral unit zero_MLP 2 2 200 7 zero_auct zero_misr vals_2x2)
          (utilities_at unit zero_MLP 2 2 200 7 zero_auct vals_2x2 vals_2x2))
     = [1 / 32; 1 / 32]
  /\ loss_of (5 / 16) 0 < loss_of (5 / 16) (1 / 32 + 1 / 32).
Proof.
  split; [|split; [exact regret_2x2|split]].
  - rewrite (auct_loss_ok unit zero_MLP zero_MLP_shape 2 2 200 7 zero_auct zero_misr vals_2x2)
      by (try reflexivity; try lia; left; discriminate).
    rewrite regret_2x2, payments_2x2. simpl.
    replace (5 / 32 + (5 / 32 + 0)) with (5 / 16) by lra.
    replace (0 + (0 + 0)) with 0 by lra. reflexivity.
  - rewrite u_misr_unilateral_2x2, u_truth_2x2. unfold zipWith. simpl.
    rewrite !relu_of_nonneg by lra. eq_entries.
  - apply loss_of_increasing_in_regret. lra.
Qed.

(** C2, with two bidders and one item, on the profile [[0], [1]] with
    networks whose weights are zero: [jnp.squeeze(vals)] has shape [(2,)] and
    broadcasts against the [(2, 1)] allocation to a [(2, 2)] matrix, so that
    both bidders pay 1/2 * 1/4 * (0 + 1) = 1/8; the bidder 0, whose
    allocated value is 0 * 1/4 = 0, pays no fraction of it. *)
Theorem Auctioneer_single_item_payment :
  Auctioneer unit zero_MLP 2 1 200 7 zero_auct vals_2x1
  = Ok ([[1 / 4]; [1 / 4]], [1 / 8; 1 / 8])
  /\ broadcast2 Rmult (squeeze (Arr2 vals_2x1)) [[1 / 4]; [1 / 4]]
     = Ok [[0 * (1 / 4); 1 * (1 / 4)]; [0 * (1 / 4); 1 * (1 / 4)]]
  /\ allocated_values vals_2x1 [[1 / 4]; [1 / 4]] = [0; 1 / 4]
  /\ (forall f : R, 1 / 8 <> f * 0).
Proof.
  split; [|split; [reflexivity|split]].
  - rewrite (Auctioneer_single_item unit zero_MLP zero_MLP_shape 2 1 200 7 zero_auct vals_2x1)
      by (try reflexivity; lia).
    unfold vals_2x1. eval_networks. f_equal. f_equal.
    + apply f_equal2; [apply f_equal2; [field|reflexivity]|].
      apply f_equal2; [apply f_equal2; [field|reflexivity]|reflexivity].
    + eq_entries.
  - unfold allocated_values, sum_axis1, zipWith, vals_2x1. simpl. eq_entries.
  - intros f. lra.
Qed.

(** C5, with two bidders and one item, on the profile [[1/4], [3/4]] of
    nonnegative values: both bidders pay 1/2 * 1/4 * (1/4 + 3/4) = 1/8,
    which for the bidder 0 is more than the allocated value
    1/4 * 1/4 = 1/16, so that its utility 1/16 - 1/8 is negative, as
    [utility_i] computes it; [utility] itself, squeezing the profile in the
    same way, returns 1/8 for both. *)
Theorem single_item_payment_exceeds_value :
  Auctioneer unit zero_MLP 2 1 200 7 zero_auct vals_2x1'
  = Ok ([[1 / 4]; [1 / 4]], [1 / 8; 1 / 8])
  /\ allocated_values vals_2x1' [[1 / 4]; [1 / 4]] = [1 / 16; 3 / 16]
  /\ nth 0 (allocated_values vals_2x1' [[1 / 4]; [1 / 4]]) 0 < nth 0 [1 / 8; 1 / 8] 0
  /\ nth 0 (allocated_values vals_2x1' [[1 / 4]; [1 / 4]]) 0 - nth 0 [1 / 8; 1 / 8] 0 < 0
  /\ utility vals_2x1' [[1 / 4]; [1 / 4]] [1 / 8; 1 / 8] = Ok [1 / 8; 1 / 8]
  /\ utility_i vals_2x1' 0 [[1 / 4]; [1 / 4]] [1 / 8; 1 / 8] = Ok (- (1 / 16)).
Proof.
  assert (E : allocated_values vals_2x1' [[1 / 4]; [1 / 4]] = [1 / 16; 3 / 16]).
  { unfold allocated_values, sum_axis1, zipWith, vals_2x1'. simpl. eq_entries. }
  split; [|split; [exact E|split; [|split; [|split]]]].
  - rewrite (Auctioneer_single_item unit zero_MLP zero_MLP_shape 2 1 200 7 zero_auct vals_2x1')
      by (try reflexivity; lia).
    unfold vals_2x1'. eval_networks. f_equal. f_equal.
    + apply f_equal2; [apply f_equal2; [field|reflexivity]|].
      apply f_equal2; [apply f_equal2; [field|reflexivity]|reflexivity].
    + eq_entries.
  - rewrite E. simpl. lra.
  - rewrite E. simpl. lra.
  - transitivity (Ok [(1 / 4 * (1 / 4) + (3 / 4 * (1 / 4) + 0)) - 1 / 8;
                      (1 / 4 * (1 / 4) + (3 / 4 * (1 / 4) + 0)) - 1 / 8]);
      [reflexivity|]. f_equal. eq_entries.
  - transitivity (Ok (1 / 4 * (1 / 4) + 0 - 1 / 8)); [reflexivity|]. f_equal. field.
Qed.

(** ** [BidSampler] *)

Lemma equal_shape2_refl {A : Type} (m : list (list A)) : equal_shape2 m m = true.
Proof.
  unfold equal_shape2. rewrite Nat.eqb_refl. simpl.
  apply forallb_forall. intros [u v] H. simpl.
  assert (u = v).
  { clear -H. induction m as [|r m IH]; simpl in H; [contradiction|].
    destruct H as [H|H]; [now inversion H|now apply IH]. }
  subst. apply Nat.eqb_refl.
Qed.

Lemma map_const_repeat {A B : Type} (c : B) (l : list A) :
  map (fun _ => c) l = repeat c (length l).
Proof. induction l; simpl; congruence. Qed.

Lemma range_length (n : Z) : length (range n) = Z.to_nat n.
Proof. unfold range. now rewrite length_map, length_seq. Qed.

Lemma stack0_mat_repeat (m : mat) (n : nat) :
  (1 <= n)%nat -> stack0_mat (repeat m n) = Ok (repeat m n).
Proof.
  intros H. destruct n as [|n]; [lia|]. simpl. rewrite equal_shape2_refl. simpl.
  replace (forallb (equal_shape2 m) (repeat m n)) with true; [reflexivity|].
  symmetry. apply forallb_forall. intros x Hx. apply repeat_spec in Hx. subst.
  apply equal_shape2_refl.
Qed.

Lemma sample_ok (Key : Type) (split : Key -> nat -> nat -> Key)
    (uniform : Key -> nat -> nat -> mat) (self : BidSampler.t Key) (num_samples : Z) :
  (1 <= num_samples)%Z ->
  BidSampler.sample Key split uniform self num_samples
  = (next_sampler split self, Ok (drawn split uniform self num_samples)).
Proof.
  intros Hn. unfold BidSampler.sample, next_sampler, drawn. f_equal.
  rewrite map_const_repeat, range_length. apply stack0_mat_repeat. lia.
Qed.

Section SamplerProperties.

Variable Key : Type.
Variable split : Key -> nat -> nat -> Key.
Variable uniform : Key -> nat -> nat -> mat.

(** The contract of [jax.random.uniform(key, shape)]: an array of that
    shape, of numbers in [0, 1). *)
Hypothesis uniform_shape : forall k r c, has_shape2 r c (uniform k r c) = true.
Hypothesis uniform_range :
  forall k r c row x, In row (uniform k r c) -> In x row -> 0 <= x < 1.

Let sample := BidSampler.sample Key split uniform.

(** C8: for [num_samples >= 1], [sample] returns [num_samples] slices of
    shape [(bidders, items)] with entries in [0, 1), every one of them the
    array drawn with the one subkey of the call, so that all the slices
    are identical; the subkey and the sampler's next key are the two
    halves of the split of the sampler's key, so that the next call draws
    with a subkey split from the next key. *)
Theorem sample_slices_identical (self : BidSampler.t Key) (num_samples : Z) :
  (1 <= num_samples)%Z ->
  exists batch,
    sample self num_samples
    = ({| BidSampler.bidders := BidSampler.bidders self;
          BidSampler.items := BidSampler.items self;
          BidSampler.key := split (BidSampler.key self) 2 0;
          BidSampler.subkey := Some (split (BidSampler.key self) 2 1) |},
       Ok batch)
    /\ length batch = Z.to_nat num_samples
    /\ (forall m, In m batch ->
          m = uniform (split (BidSampler.key self) 2 1)
                (BidSampler.bidders self) (BidSampler.items self)
          /\ has_shape2 (BidSampler.bidders self) (BidSampler.items self) m = true
          /\ (forall row x, In row m -> In x row -> 0 <= x < 1))
    /\ (forall m1 m2, In m1 batch -> In m2 batch -> m1 = m2)
    /\ (forall n', BidSampler.subkey (fst (sample (fst (sample self num_samples)) n'))
                   = Some (split (split (BidSampler.key self) 2 0) 2 1)).
Proof.
  intros Hn.
  set (slice0 := uniform (split (BidSampler.key self) 2 1)
                   (BidSampler.bidders self) (BidSampler.items self)).
  exists (repeat slice0 (Z.to_nat num_samples)).
  split.
  - unfold sample. now rewrite sample_ok.
  - split; [apply repeat_length|]. split; [|split].
    + intros m Hm. apply repeat_spec in Hm. subst m. split; [reflexivity|].
      split; [apply uniform_shape|]. intros row x. apply uniform_range.
    + intros m1 m2 H1 H2. apply repeat_spec in H1, H2. congruence.
    + intros n'. reflexivity.
Qed.

End SamplerProperties.

(** ** Batches of one profile repeated *)

Lemma mapM_repeat {A B : Type} (f : A -> result B) (a : A) (n : nat) :
  mapM f (repeat a (S n))
  = match f a with
    | Ok b => Ok (repeat b (S n))
    | Raise e => Raise e
    end.
Proof.
  induction n as [|n IH].
  - simpl. destruct (f a); reflexivity.
  - change (repeat a (S (S n))) with (a :: repeat a (S n)).
    change (mapM f (a :: repeat a (S n)))
      with (b <- f a ;; bs <- mapM f (repeat a (S n)) ;; Ok (b :: bs)).
    rewrite IH. destruct (f a); reflexivity.
Qed.

Lemma sum_repeat (x : R) (n : nat) : sum (repeat x n) = INR n * x.
Proof.
  induction n as [|n IH]; [simpl; lra|].
  rewrite S_INR. simpl. rewrite IH. lra.
Qed.

Lemma mean_repeat (x : R) (n : nat) : mean (repeat x (S n)) = x.
Proof.
  unfold mean. rewrite sum_repeat, repeat_length.
  pose proof (pos_INR n). rewrite S_INR. field. lra.
Qed.

(** X14: [sample] with [num_samples <= 0] has nothing to stack and raises
    a [ValueError]; the key of the sampler has been advanced all the same. *)
Theorem sample_nonpositive_raises (Key : Type) (split : Key -> nat -> nat -> Key)
    (uniform : Key -> nat -> nat -> mat) (self : BidSampler.t Key) (num_samples : Z) :
  (num_samples <= 0)%Z ->
  BidSampler.sample Key split uniform self num_samples
  = ({| BidSampler.bidders := BidSampler.bidders self;
        BidSampler.items := BidSampler.items self;
        BidSampler.key := split (BidSampler.key self) 2%nat 0%nat;
        BidSampler.subkey := Some (split (BidSampler.key self) 2%nat 1%nat) |},
     Raise ValueError).
Proof.
  intros H. unfold BidSampler.sample, range.
  replace (Z.to_nat num_samples) with 0%nat by lia. reflexivity.
Qed.

(** X15: the state of the sampler after a sequence of calls depends on the
    number of the calls only, not on the sizes asked for: the sizes of the
    auction stay, the key has been advanced once per call, and the subkey
    is the second half of the split made by the last call. *)
Theorem sampler_state_after_calls (Key : Type) (split : Key -> nat -> nat -> Key)
    (uniform : Key -> nat -> nat -> mat) (self : BidSampler.t Key) (ns : list Z) :
  let self' := after_calls split uniform self ns in
  BidSampler.bidders self' = BidSampler.bidders self
  /\ BidSampler.items self' = BidSampler.items self
  /\ BidSampler.key self' = advance split (length ns) (BidSampler.key self)
  /\ BidSampler.subkey self'
     = match ns with
       | [] => BidSampler.subkey self
       | _ :: ns' =>
           Some (split (advance split (length ns') (BidSampler.key self)) 2%nat 1%nat)
       end.
Proof.
  cbv zeta. revert self. induction ns as [|n ns IH]; intros self.
  - repeat split.
  - change (after_calls split uniform self (n :: ns))
      with (after_calls split uniform (next_sampler split self) ns).
    destruct (IH (next_sampler split self)) as (HB & HI & HK & HS).
    rewrite HB, HI, HK, HS. simpl. repeat split.
    destruct ns as [|n' ns']; reflexivity.
Qed.

(** X16: the batch that [sample] returns holds one profile repeated, so
    that the mean of the losses over the batch is the loss of that
    profile, and an exception of the loss is the exception of the batch
    loss: the size of the batch has no effect on the value. *)
Theorem batch_loss_of_sample (MLPParams : Type) (MLP : list nat -> MLPParams -> vec -> vec)
    (bidders items net_width net_depth : nat)
    (Key : Type) (split : Key -> nat -> nat -> Key) (uniform : Key -> nat -> nat -> mat)
    (ap : AuctParams MLPParams) (mp : MisrParams MLPParams)
    (self : BidSampler.t Key) (num_samples : Z) :
  (1 <= num_samples)%Z ->
  exists batch,
    snd (BidSampler.sample Key split uniform self num_samples) = Ok batch
    /\ length batch = Z.to_nat num_samples
    /\ v_auct_loss MLPParams MLP bidders items net_width net_depth ap mp batch
       = auct_loss MLPParams MLP bidders items net_width net_depth ap mp
           (uniform (split (BidSampler.key self) 2%nat 1%nat)
              (BidSampler.bidders self) (BidSampler.items self))
    /\ v_misr_loss MLPParams MLP bidders items net_width net_depth mp ap batch
       = misr_loss MLPParams MLP bidders items net_width net_depth mp ap
           (uniform (split (BidSampler.key self) 2%nat 1%nat)
              (BidSampler.bidders self) (BidSampler.items self)).
Proof.
  intros Hn. rewrite sample_ok by exact Hn. unfold drawn.
  destruct (Z.to_nat num_samples) as [|n] eqn:E; [lia|].
  eexists. split; [reflexivity|]. split; [apply repeat_length|].
  unfold v_auct_loss, v_misr_loss. rewrite !mapM_repeat. split.
  - destruct (auct_loss _ _ _ _ _ _ _ _ _); [|reflexivity]. unfold bind.
    now rewrite mean_repeat.
  - destruct (misr_loss _ _ _ _ _ _ _ _ _); [|reflexivity]. unfold bind.
    now rewrite mean_repeat.
Qed.

(** ** The training loop *)

Lemma py_mod_ok (a b : Z) : b <> 0%Z -> py_mod a b = Ok (a mod b)%Z.
Proof. intros H. unfold py_mod. now destruct (Z.eqb_spec b 0). Qed.

Lemma range_nil (n : Z) : (n <= 0)%Z -> range n = [].
Proof. intros H. unfold range. now replace (Z.to_nat n) with 0%nat by lia. Qed.

Lemma range_cons (n : Z) :
  (1 <= n)%Z -> exists rest, range n = 0%Z :: rest.
Proof.
  intros H. unfold range. destruct (Z.to_nat n) eqn:E; [lia|].
  simpl. eexists. reflexivity.
Qed.

Lemma call_sample_ok (Key : Type) (split : Key -> nat -> nat -> Key)
    (uniform : Key -> nat -> nat -> mat) (sampler : BidSampler.t Key) (n : Z) :
  (1 <= n)%Z ->
  call_sample Key split uniform sampler n
  = ([Sampled n (drawn split uniform sampler n)],
     Ok (next_sampler split sampler, drawn split uniform sampler n)).
Proof.
  intros H. unfold call_sample. rewrite sample_ok by exact H. reflexivity.
Qed.

Lemma call_sample_raises (Key : Type) (split : Key -> nat -> nat -> Key)
    (uniform : Key -> nat -> nat -> mat) (sampler : BidSampler.t Key) (n : Z) :
  (n <= 0)%Z -> call_sample Key split uniform sampler n = ([], Raise ValueError).
Proof.
  intros H. unfold call_sample, BidSampler.sample.
  rewrite (range_nil n H). reflexivity.
Qed.

(** A loop all of whose iterations return. *)
Lemma for_each_ok {X S : Type} (Inv : S -> Prop) (P : X -> list event -> Prop)
    (body : X -> S -> io S) (xs : list X) (s : S) :
  Inv s ->
  (forall x s0, In x xs -> Inv s0 ->
     exists evs s1, body x s0 = (evs, Ok s1) /\ Inv s1 /\ P x evs) ->
  exists evss s', for_each xs body s = (concat evss, Ok s')
                  /\ Inv s' /\ Forall2 P xs evss.
Proof.
  revert s. induction xs as [|x xs IH]; intros s Hs Hbody.
  - exists [], s. repeat split; [exact Hs|constructor].
  - destruct (Hbody x s (or_introl eq_refl) Hs) as (evs & s1 & E & Hs1 & HP).
    destruct (IH s1 Hs1) as (evss & s' & E' & Hs' & HF).
    { intros y s0 Hy. apply Hbody. now right. }
    exists (evs :: evss), s'. simpl. rewrite E. simpl. rewrite E'.
    repeat split; [exact Hs'|now constructor].
Qed.

(** A loop whose first iteration raises. *)
Lemma for_each_raises {X S : Type} (body : X -> S -> io S) (x : X) (xs : list X)
    (s : S) (evs : list event) (e : exn) :
  body x s = (evs, Raise e) -> for_each (x :: xs) body s = (evs, Raise e).
Proof. intros E. simpl. rewrite E. reflexivity. Qed.

Lemma bind_io_ok {A B : Type} (m : io A) (k : A -> io B) evs a evs' r :
  m = (evs, Ok a) -> k a = (evs', r) -> bind_io m k = (evs ++ evs', r).
Proof. intros -> E. simpl. now rewrite E. Qed.

Lemma bind_io_raise {A B : Type} (m : io A) (k : A -> io B) evs e :
  m = (evs, Raise e) -> bind_io m k = (evs, Raise e).
Proof. now intros ->. Qed.

(** ** The networks on an array of rank 3, and [test] *)

Lemma ravel_single {A : Type} (m : list A) : ravel [m] = m.
Proof. unfold ravel. simpl. apply app_nil_r. Qed.

Lemma in_permute_row {A : Type} (i : nat) (r : list A) (x : A) :
  In x (permute_row i r) -> In x r.
Proof. intros H. apply (Permutation_in x (Permutation_sym (permute_row_perm i r)) H). Qed.

Lemma equal_shape2_same_shape {A : Type} (m1 m2 : list (list A)) (r c : nat) :
  has_shape2 r c m1 = true -> has_shape2 r c m2 = true -> equal_shape2 m1 m2 = true.
Proof.
  intros H1 H2. apply has_shape2_elim in H1 as [L1 R1], H2 as [L2 R2].
  unfold equal_shape2. rewrite L1, L2, Nat.eqb_refl. simpl.
  apply forallb_forall. intros [u v] Hp. simpl. apply Nat.eqb_eq.
  rewrite (R1 u (in_combine_l _ _ _ _ Hp)), (R2 v (in_combine_r _ _ _ _ Hp)).
  reflexivity.
Qed.

(** Moving a row of a matrix to the front keeps the shape. *)
Lemma permute_rows_shape (m : mat) (r c i : nat) :
  has_shape2 r c m = true -> has_shape2 r c (permute_row i m) = true.
Proof.
  intros H. apply has_shape2_elim in H as [L R0]. apply has_shape2_intro.
  - now rewrite permute_row_length.
  - intros row Hrow. apply R0. now apply in_permute_row in Hrow.
Qed.

Lemma permute_along_bidders3_ok (t : list mat) (r c i : nat) :
  (forall m, In m t -> has_shape2 r c m = true) ->
  permute_along_bidders3 t i = Ok (map (permute_row i) t).
Proof.
  intros Ht.
  unfold permute_along_bidders3, concatenate1, concatenate1_2, cols, cols_from.
  rewrite !length_map, Nat.eqb_refl. simpl.
  rewrite !length_map, length_combine, !length_map, Nat.min_id, Nat.eqb_refl. simpl.
  rewrite combine_map_same, map_map. simpl.
  rewrite combine_map_same, map_map. simpl.
  assert (E : equal_shape3 t (map (permute_row i) t) = true).
  { unfold equal_shape3. rewrite length_map, Nat.eqb_refl. simpl.
    apply forallb_forall. intros [m m'] Hin.
    rewrite combine_map_r in Hin. apply in_map_iff in Hin as (a & Ha & Hat).
    inversion Ha; subst. simpl.
    apply (equal_shape2_same_shape _ _ r c); [now apply Ht|].
    apply permute_rows_shape. now apply Ht. }
  unfold permute_row in *. rewrite E. reflexivity.
Qed.

(** X23: on an array of rank 3 whose slices have one shape, as [test]
    passes it, [permute_along_bidders] returns an array of that shape in
    every slice of which the row of the bidder [i] has been moved to the
    front, the rows before it one place down, the rows after it staying:
    the rows of a slice are permuted, where on a profile of rank 2 the
    entries of every row are. *)
Theorem permute_along_bidders3_moves_row (t : list mat) (r c i : nat) :
  (forall m, In m t -> has_shape2 r c m = true) ->
  exists P,
    permute_along_bidders3 t i = Ok P
    /\ length P = length t
    /\ (forall k, (k < length t)%nat ->
          has_shape2 r c (nth k P []) = true
          /\ Permutation (nth k t []) (nth k P [])
          /\ ((i < r)%nat ->
                nth 0 (nth k P []) [] = nth i (nth k t []) []
                /\ (forall j, (j < i)%nat ->
                      nth (S j) (nth k P []) [] = nth j (nth k t []) [])
                /\ (forall j, (i < j)%nat ->
                      nth j (nth k P []) [] = nth j (nth k t []) []))
          /\ ((r <= i)%nat -> nth k P [] = nth k t [])).
Proof.
  intros Ht. exists (map (permute_row i) t).
  split; [now apply (permute_along_bidders3_ok t r c)|].
  split; [apply length_map|]. intros k Hk.
  rewrite (nth_map_in (permute_row i) t k [] []) by exact Hk.
  assert (Hm : has_shape2 r c (nth k t []) = true) by (apply Ht, nth_In; exact Hk).
  pose proof (has_shape2_elim _ _ _ Hm) as [Lm _].
  split; [now apply permute_rows_shape|]. split; [apply permute_row_perm|]. split.
  - intros Hi. rewrite <- Lm in Hi.
    destruct (nth_split (nth k t []) [] Hi) as (l1 & l2 & E & Hl).
    set (x := nth i (nth k t []) []) in *. rewrite E.
    rewrite (permute_row_split i l1 l2 x Hl).
    split; [reflexivity|]. split.
    + intros j Hj. simpl. rewrite !app_nth1 by lia. reflexivity.
    + intros j Hj. destruct j as [|j]; [lia|]. simpl.
      rewrite !app_nth2 by lia.
      replace (S j - length l1)%nat with (S (j - length l1)) by lia. reflexivity.
  - intros Hi. apply permute_row_out_of_range. lia.
Qed.

Lemma softmax0_shape (L : mat) (r c : nat) :
  has_shape2 r c L = true -> has_shape2 r c (softmax0 L) = true.
Proof.
  intros H. apply has_shape2_elim in H as [HL HR]. apply has_shape2_intro.
  - now rewrite softmax0_length.
  - intros row Hrow. apply softmax0_row_length in Hrow as (row0 & H0 & ->). now apply HR.
Qed.

Lemma sum_zipWith_minus (u v : vec) :
  length u = length v -> sum (zipWith Rminus u v) = sum u - sum v.
Proof.
  revert v. induction u as [|x u IH]; intros [|y v] H; simpl in H; try discriminate.
  - unfold zipWith. simpl. lra.
  - unfold zipWith in *. simpl. rewrite IH by congruence. lra.
Qed.

Section TestProperties.

Variable MLPParams : Type.
Variable MLP : list nat -> MLPParams -> vec -> vec.
Hypothesis MLP_shape :
  forall layers p x, length (MLP layers p x) = last layers 0%nat.

Variable Key : Type.
Variable PRNGKey : Z -> Key.
Variable split : Key -> nat -> nat -> Key.
Variable uniform : Key -> nat -> nat -> mat.
Hypothesis uniform_shape : forall k r c, has_shape2 r c (uniform k r c) = true.
Variable OptState : Type -> Type.

Variables n_bidders n_items width depth : nat.
Hypothesis bidders_pos : (1 <= n_bidders)%nat.

Local Abbreviation tpal :=
  {| bidders := n_bidders; items := n_items; net_width := width; net_depth := depth |}.

(** The product of the squeezed profile with an allocation returns, with
    one row for every bidder. *)
Lemma squeezed_product_returns (f : R -> R -> R) (vals alloc : mat) :
  has_shape2 n_bidders n_items vals = true ->
  has_shape2 n_bidders n_items alloc = true ->
  exists prod,
    broadcast2 f (squeeze (Arr2 vals)) alloc = Ok prod /\ length prod = n_bidders.
Proof.
  intros Hv Ha.
  pose proof (has_shape2_elim _ _ _ Ha) as [La _].
  pose proof (has_shape2_elim _ _ _ Hv) as [Lv _].
  destruct (Nat.eq_dec n_items 1) as [HI|HI];
    [destruct (Nat.eq_dec n_bidders 1) as [HB1|HB1]|].
  - eexists. split; [apply (squeezed_product f vals alloc n_bidders n_items); auto|].
    rewrite zipWith_length, La, Lv. apply Nat.min_id.
  - pose proof (eq_ind n_items (fun c => has_shape2 n_bidders c vals = true) Hv 1%nat HI)
      as Hv1.
    pose proof (eq_ind n_items (fun c => has_shape2 n_bidders c alloc = true) Ha 1%nat HI)
      as Ha1.
    cbv beta in Hv1, Ha1.
    eexists. split;
      [apply (squeezed_product_single_item f vals alloc n_bidders); auto; lia|].
    now rewrite length_map.
  - eexists. split; [apply (squeezed_product f vals alloc n_bidders n_items); auto|].
    rewrite zipWith_length, La, Lv. apply Nat.min_id.
Qed.

(** The payments, once the fractions are known: one for every bidder. *)
Lemma payments_return (fracs : vec) (vals alloc : mat) :
  has_shape2 n_bidders n_items vals = true ->
  has_shape2 n_bidders n_items alloc = true ->
  length fracs = n_bidders ->
  exists pay,
    (prod <- broadcast2 Rmult (squeeze (Arr2 vals)) alloc ;;
     pay <- broadcast1 Rmult fracs (sum_axis1 prod) ;;
     assert (has_shape1 n_bidders pay) ;;;
     Ok (alloc, pay)) = Ok (alloc, pay)
    /\ length pay = n_bidders.
Proof.
  intros Hv Ha Hf.
  destruct (squeezed_product_returns Rmult vals alloc Hv Ha) as (prod & -> & Lp).
  simpl. unfold broadcast1.
  rewrite bzip_same_length by now rewrite sum_axis1_length, Lp.
  simpl. unfold has_shape1.
  rewrite zipWith_length, sum_axis1_length, Lp, Hf, Nat.min_id, Nat.eqb_refl. simpl.
  eexists. split; [reflexivity|].
  now rewrite zipWith_length, sum_axis1_length, Lp, Hf, Nat.min_id.
Qed.

Lemma utility_returns (vals alloc : mat) (pay : vec) :
  has_shape2 n_bidders n_items vals = true ->
  has_shape2 n_bidders n_items alloc = true ->
  length pay = n_bidders ->
  exists utilities,
    utility vals alloc pay = Ok utilities /\ length utilities = n_bidders.
Proof.
  intros Hv Ha Hp. unfold utility.
  destruct (squeezed_product_returns Rmult vals alloc Hv Ha) as (prod & -> & Lp).
  simpl. unfold broadcast1.
  rewrite bzip_same_length by now rewrite sum_axis1_length, Lp.
  simpl. unfold has_shape1.
  rewrite zipWith_length, sum_axis1_length, Lp, Hp, Nat.min_id, Nat.eqb_refl. simpl.
  eexists. split; [reflexivity|].
  now rewrite zipWith_length, sum_axis1_length, Lp, Hp, Nat.min_id.
Qed.

Lemma Misreporter3_returns (mp : MisrParams MLPParams) (m : mat) :
  has_shape2 n_bidders n_items m = true ->
  exists misreports,
    Misreporter3 MLPParams MLP n_bidders n_items width depth mp [m] = Ok misreports
    /\ has_shape2 n_bidders n_items misreports = true.
Proof.
  intros Hm. unfold Misreporter3.
  rewrite (mapM_ok_map _ (fun i => MLP (layers_misr n_bidders n_items width depth)
                                     (misr_mlp mp) (ravel (permute_row i m)))).
  2:{ intros i _.
      rewrite (permute_along_bidders3_ok [m] n_bidders n_items i)
        by (intros m' [<-|[]]; exact Hm).
      cbn [bind map]. now rewrite ravel_single. }
  simpl.
  assert (Hs : has_shape2 n_bidders n_items
                 (map (fun i => MLP (layers_misr n_bidders n_items width depth)
                                  (misr_mlp mp) (ravel (permute_row i m)))
                    (seq 0 n_bidders)) = true).
  { apply has_shape2_intro.
    - now rewrite length_map, length_seq.
    - intros v Hv. apply in_map_iff in Hv as (i & <- & _). now rewrite MLP_shape. }
  pose proof (has_shape2_elim _ _ _ Hs) as [_ Rs].
  rewrite (stack0_ok _ n_items);
    [|intros E; apply map_eq_nil in E; now apply seq_nonempty in E|exact Rs].
  simpl. rewrite Hs. simpl. eexists. split; [reflexivity|].
  apply has_shape2_intro.
  - now rewrite !length_map, length_seq.
  - intros row Hrow. apply in_map_iff in Hrow as (v & <- & Hv).
    rewrite length_map. now apply Rs.
Qed.

Lemma Auctioneer3_returns (ap : AuctParams MLPParams) (m : mat) :
  has_shape2 n_bidders n_items m = true ->
  exists alloc pay,
    Auctioneer3 MLPParams MLP n_bidders n_items width depth ap [m] = Ok (alloc, pay)
    /\ has_shape2 n_bidders n_items alloc = true
    /\ length pay = n_bidders.
Proof.
  intros Hm. unfold Auctioneer3.
  set (gate := map sigmoid (MLP (layers_alloc n_bidders n_items width depth)
                              (alloc_prob ap) (ravel (ravel [m])))).
  assert (Lg : length gate = n_items).
  { unfold gate. rewrite length_map, MLP_shape. unfold layers_alloc. apply last_snoc. }
  unfold has_shape1 at 1. rewrite Lg, Nat.eqb_refl. simpl.
  assert (Hperm : forall i, permute_along_bidders3 [m] i = Ok [permute_row i m]).
  { intros i. rewrite (permute_along_bidders3_ok [m] n_bidders n_items i)
      by (intros m' [<-|[]]; exact Hm). reflexivity. }
  rewrite (mapM_ok_map _ (fun i => MLP (layers_alloc n_bidders n_items width depth)
                                     (alloc_which ap) (ravel (permute_row i m)))).
  2:{ intros i _. rewrite Hperm. cbn [bind]. now rewrite ravel_single. }
  simpl.
  set (L := map (fun i => MLP (layers_alloc n_bidders n_items width depth)
                            (alloc_which ap) (ravel (permute_row i m)))
                (seq 0 n_bidders)).
  assert (HL : has_shape2 n_bidders n_items L = true).
  { apply has_shape2_intro.
    - unfold L. now rewrite length_map, length_seq.
    - intros v Hv. apply in_map_iff in Hv as (i & <- & _).
      rewrite MLP_shape. unfold layers_alloc. apply last_snoc. }
  pose proof (has_shape2_elim _ _ _ HL) as [LL RL].
  rewrite (stack0_ok _ n_items);
    [|intros E; rewrite E in LL; simpl in LL; lia|exact RL].
  simpl. pose proof (softmax0_shape L _ _ HL) as HS.
  pose proof (has_shape2_elim _ _ _ HS) as [LS RS].
  rewrite HS. simpl.
  rewrite broadcast2_rows by (intros row Hrow; now rewrite Lg, (RS row Hrow)).
  simpl.
  set (alloc := map (zipWith Rmult gate) (softmax0 L)).
  assert (Ha : has_shape2 n_bidders n_items alloc = true).
  { apply has_shape2_intro.
    - unfold alloc. now rewrite length_map.
    - intros row Hrow. unfold alloc in Hrow. apply in_map_iff in Hrow as (r0 & <- & Hr0).
      rewrite zipWith_length, Lg, (RS r0 Hr0). apply Nat.min_id. }
  rewrite Ha. simpl.
  rewrite (mapM_ok_map _ (fun i => map sigmoid
                                     (MLP (layers_pay n_bidders n_items width depth)
                                        (pay_mlp ap) (ravel (permute_row i m))))).
  2:{ intros i _. rewrite Hperm. cbn [bind]. now rewrite ravel_single. }
  simpl. rewrite stack1_singletons.
  2:{ intros E. apply map_eq_nil in E. now apply seq_nonempty in E. }
  2:{ intros v Hv. apply in_map_iff in Hv as (i & <- & _).
      rewrite length_map, MLP_shape. unfold layers_pay. apply last_snoc. }
  simpl. rewrite map_map.
  set (fracs := map (fun i => nth 0 (map sigmoid
                                       (MLP (layers_pay n_bidders n_items width depth)
                                          (pay_mlp ap) (ravel (permute_row i m)))) 0)
                    (seq 0 n_bidders)).
  assert (Lf : length fracs = n_bidders)
    by (unfold fracs; now rewrite length_map, length_seq).
  destruct (squeeze_fractions fracs n_bidders Lf bidders_pos) as (pay0 & Hpay0 & Hexp).
  rewrite Hpay0. simpl. rewrite Hexp. simpl.
  destruct (payments_return fracs m alloc Hm Ha Lf) as (pay & Hpay & Lp).
  exists alloc, pay. split; [exact Hpay|]. split; [exact Ha|exact Lp].
Qed.

(** The profile of an iteration: what [sampler.sample(1)] holds. *)
Lemma sample_one (sampler : BidSampler.t Key) :
  BidSampler.sample Key split uniform sampler 1
  = (next_sampler split sampler,
     Ok [uniform (split (BidSampler.key sampler) 2 1)
           (BidSampler.bidders sampler) (BidSampler.items sampler)]).
Proof. rewrite sample_ok by lia. reflexivity. Qed.

Lemma squeeze_small (m : mat) :
  has_shape2 n_bidders n_items m = true ->
  n_bidders = 1%nat \/ n_items = 1%nat ->
  (exists x, squeeze (Arr2 m) = Arr0 x) \/ (exists v, squeeze (Arr2 m) = Arr1 v).
Proof.
  intros Hm Hsmall. pose proof (has_shape2_elim _ _ _ Hm) as [Lm Rm].
  destruct (Nat.eq_dec n_bidders 1) as [HB|HB].
  - rewrite HB in Lm. destruct m as [|row [|? ?]]; simpl in Lm; try discriminate.
    rewrite squeeze_one_row. destruct row as [|x [|y row]]; eauto.
  - destruct Hsmall as [?|HI]; [congruence|].
    rewrite squeeze_many_rows by lia.
    assert (E : ncols m = 1%nat).
    { unfold ncols. destruct m as [|row rest]; [simpl in Lm; lia|].
      rewrite <- HI. apply Rm. now left. }
    rewrite E. simpl. eauto.
Qed.

Lemma squeeze_large (m : mat) :
  has_shape2 n_bidders n_items m = true ->
  (2 <= n_bidders)%nat -> n_items <> 1%nat -> squeeze (Arr2 m) = Arr2 m.
Proof.
  intros Hm HB HI. pose proof (has_shape2_elim _ _ _ Hm) as [Lm Rm].
  rewrite squeeze_many_rows by lia.
  assert (E : ncols m = n_items).
  { unfold ncols. destruct m as [|row rest]; [simpl in Lm; lia|]. apply Rm. now left. }
  rewrite E. now destruct (Nat.eqb_spec n_items 1).
Qed.

Lemma raising_loop (e : exn) :
  (misr_utils <- mapM (fun _ : nat => @Raise R e) (seq 0 n_bidders) ;;
   stack_scalars misr_utils) = Raise e.
Proof.
  destruct (seq 0 n_bidders) eqn:E; [now apply seq_nonempty in E|reflexivity].
Qed.

(** With a single bidder or a single item an iteration of [test] raises:
    the squeezed profile has rank 0 or 1, and [misr_bidder_i] slices it
    with two indices. *)
Lemma test_iteration_raises (st : TPALState MLPParams OptState)
    (sampler : BidSampler.t Key) :
  BidSampler.bidders sampler = n_bidders -> BidSampler.items sampler = n_items ->
  n_bidders = 1%nat \/ n_items = 1%nat ->
  snd (test_iteration MLPParams MLP Key split uniform OptState tpal st sampler)
  = Raise IndexError.
Proof.
  intros HB HI Hsmall. unfold test_iteration. rewrite sample_one, HB, HI.
  cbn [snd bidders items net_width net_depth bind].
  set (m := uniform (split (BidSampler.key sampler) 2 1) n_bidders n_items).
  assert (Hm : has_shape2 n_bidders n_items m = true) by apply uniform_shape.
  destruct (Auctioneer3_returns (auct (params st)) m Hm) as (alloc & pay & -> & Ha & Lp).
  cbn [bind].
  destruct (Misreporter3_returns (misr (params st)) m Hm) as (misreports & -> & Hmis).
  cbn [bind]. unfold squeeze3, misr_utility3.
  destruct (squeeze_small m Hm Hsmall) as [[x ->]|[v ->]];
    now rewrite raising_loop.
Qed.

(** With at least two bidders and an item count other than one an iteration
    of [test] prints its four lines, the regret being the difference of
    the two utilities. *)
Lemma test_iteration_ok (st : TPALState MLPParams OptState)
    (sampler : BidSampler.t Key) :
  BidSampler.bidders sampler = n_bidders -> BidSampler.items sampler = n_items ->
  (2 <= n_bidders)%nat -> n_items <> 1%nat ->
  exists ut um p,
    test_iteration MLPParams MLP Key split uniform OptState tpal st sampler
    = (next_sampler split sampler,
       Ok [UtilityTruthful ut; UtilityMisrep um; Regret (um - ut); Pay p]).
Proof.
  intros HB HI HB2 HI1. unfold test_iteration. rewrite sample_one, HB, HI.
  cbn [bidders items net_width net_depth bind].
  set (m := uniform (split (BidSampler.key sampler) 2 1) n_bidders n_items).
  assert (Hm : has_shape2 n_bidders n_items m = true) by apply uniform_shape.
  destruct (Auctioneer3_returns (auct (params st)) m Hm) as (alloc & pay & -> & Ha & Lp).
  cbn [bind].
  destruct (Misreporter3_returns (misr (params st)) m Hm) as (misreports & -> & Hmis).
  cbn [bind]. unfold squeeze3 at 1, misr_utility3.
  rewrite (squeeze_large m Hm HB2 HI1).
  rewrite (misr_utility_ok MLPParams MLP MLP_shape n_bidders n_items width depth
             misreports m (auct (params st)) bidders_pos (or_introl HI1) Hm Hmis).
  cbn [bind]. unfold utility3, squeeze3.
  destruct (utility_returns m alloc pay Hm Ha Lp) as (u & Hu & Lu).
  unfold utility in Hu. rewrite Hu. cbn [bind]. unfold broadcast1.
  rewrite bzip_same_length by now rewrite length_map, length_seq, Lu.
  cbn [bind]. rewrite sum_zipWith_minus by now rewrite length_map, length_seq, Lu.
  eexists. eexists. eexists. reflexivity.
Qed.

Lemma test_loop_ok {X : Type} (xs : list X) (st : TPALState MLPParams OptState)
    (sampler : BidSampler.t Key) :
  BidSampler.bidders sampler = n_bidders -> BidSampler.items sampler = n_items ->
  (2 <= n_bidders)%nat -> n_items <> 1%nat ->
  exists blocks,
    test_loop MLPParams MLP Key split uniform OptState xs tpal st sampler
    = (concat blocks, Ok tt)
    /\ length blocks = length xs
    /\ Forall iteration_lines blocks.
Proof.
  intros HB HI HB2 HI1. revert sampler HB HI.
  induction xs as [|x xs IH]; intros sampler HB HI.
  - exists []. repeat split. constructor.
  - destruct (test_iteration_ok st sampler HB HI HB2 HI1) as (ut & um & p & E).
    destruct (IH (next_sampler split sampler) HB HI) as (blocks & E' & Lb & Fb).
    exists ([UtilityTruthful ut; UtilityMisrep um; Regret (um - ut); Pay p] :: blocks).
    split; [|split].
    + cbn [test_loop]. rewrite E, E'. reflexivity.
    + simpl. now rewrite Lb.
    + constructor; [|exact Fb]. exists ut, um, p. reflexivity.
Qed.

(** X24: for an auction with a single bidder or a single item [test]
    raises an [IndexError] in its first iteration, before it prints
    anything: [jnp.squeeze(val_sample)] has rank 0 or 1, and
    [misr_bidder_i] slices it with two indices. *)
Theorem test_raises_on_single (st : TPALState MLPParams OptState) :
  n_bidders = 1%nat \/ n_items = 1%nat ->
  test MLPParams MLP Key PRNGKey split uniform OptState tpal st
  = ([], Raise IndexError).
Proof.
  intros Hsmall. unfold test.
  destruct (range_cons 10) as [rest ->]; [lia|]. cbn [test_loop].
  pose proof (test_iteration_raises st
                (BidSampler.init Key (PRNGKey 1337) (bidders tpal) (items tpal))
                eq_refl eq_refl Hsmall) as H.
  destruct (test_iteration _ _ _ _ _ _ _ _ _) as [s' r]. simpl in H. subst r.
  reflexivity.
Qed.

(** An iteration of [test] on an auction with at least two bidders and an
    item count other than one: the numbers of its four lines. *)
Lemma test_iteration_value (st : TPALState MLPParams OptState)
    (sampler : BidSampler.t Key) :
  BidSampler.bidders sampler = n_bidders -> BidSampler.items sampler = n_items ->
  (2 <= n_bidders)%nat -> n_items <> 1%nat ->
  exists lines,
    test_iteration MLPParams MLP Key split uniform OptState tpal st sampler
    = (next_sampler split sampler, Ok lines)
    /\ iteration_metrics MLPParams MLP n_bidders n_items width depth
         (auct (params st)) (misr (params st))
         (uniform (split (BidSampler.key sampler) 2 1) n_bidders n_items) lines.
Proof.
  intros HB HI HB2 HI1. unfold test_iteration. rewrite sample_one, HB, HI.
  cbn [bidders items net_width net_depth bind].
  set (m := uniform (split (BidSampler.key sampler) 2 1) n_bidders n_items).
  assert (Hm : has_shape2 n_bidders n_items m = true) by apply uniform_shape.
  destruct (Auctioneer3_returns (auct (params st)) m Hm) as (alloc & pay & HA & Ha & Lp).
  destruct (Misreporter3_returns (misr (params st)) m Hm) as (misreports & HM & Hmis).
  pose proof (misr_utility_ok MLPParams MLP MLP_shape n_bidders n_items width depth
                misreports m (auct (params st)) bidders_pos (or_introl HI1) Hm Hmis) as HU.
  destruct (utility_returns m alloc pay Hm Ha Lp) as (u & Hu & Lu).
  rewrite HA. cbn [bind]. rewrite HM. cbn [bind].
  unfold squeeze3 at 1, misr_utility3. rewrite (squeeze_large m Hm HB2 HI1).
  rewrite HU. cbn [bind]. unfold utility3, squeeze3.
  pose proof Hu as Hu'. unfold utility in Hu'. rewrite Hu'. cbn [bind]. unfold broadcast1.
  rewrite bzip_same_length by now rewrite length_map, length_seq, Lu.
  cbn [bind]. rewrite sum_zipWith_minus by now rewrite length_map, length_seq, Lu.
  eexists. split; [reflexivity|].
  exists alloc, pay, misreports. eexists. exists u.
  split; [exact HA|]. split; [exact HM|]. split; [exact HU|]. split; [exact Hu|].
  reflexivity.
Qed.

Lemma test_loop_value {X : Type} (xs : list X) (st : TPALState MLPParams OptState)
    (sampler : BidSampler.t Key) :
  BidSampler.bidders sampler = n_bidders -> BidSampler.items sampler = n_items ->
  (2 <= n_bidders)%nat -> n_items <> 1%nat ->
  exists blocks,
    test_loop MLPParams MLP Key split uniform OptState xs tpal st sampler
    = (concat blocks, Ok tt)
    /\ length blocks = length xs
    /\ (forall k, (k < length xs)%nat ->
          iteration_metrics MLPParams MLP n_bidders n_items width depth
            (auct (params st)) (misr (params st))
            (uniform (split (advance split k (BidSampler.key sampler)) 2 1)
               n_bidders n_items)
            (nth k blocks [])).
Proof.
  intros HB HI HB2 HI1. revert sampler HB HI.
  induction xs as [|x xs IH]; intros sampler HB HI.
  - exists []. repeat split. intros k Hk. simpl in Hk. lia.
  - destruct (test_iteration_value st sampler HB HI HB2 HI1) as (lines & E & Hlines).
    destruct (IH (next_sampler split sampler) HB HI) as (blocks & E' & Lb & Fb).
    exists (lines :: blocks). split; [|split].
    + cbn [test_loop]. rewrite E, E'. reflexivity.
    + simpl. now rewrite Lb.
    + intros k Hk. destruct k as [|k]; [exact Hlines|].
      simpl in Hk. apply (Fb k). lia.
Qed.

(** X25: for an auction with at least two bidders and an item count other
    than one [test] ends after ten iterations.  The iteration [k] draws
    its profile with the subkey of the [k]-th split of [PRNGKey(1337)] and
    prints four lines: the sum of [utility] of the profile under the
    auction that the auctioneer returns for the batch, the sum of
    [misr_utility] of the profile for the misreports that the misreporter
    returns for the batch, the second sum minus the first, which is not cut
    off at zero, and the sum of the payments of that auction. *)
Theorem test_prints_metrics (st : TPALState MLPParams OptState) :
  (2 <= n_bidders)%nat -> n_items <> 1%nat ->
  exists blocks,
    test MLPParams MLP Key PRNGKey split uniform OptState tpal st
    = (concat blocks, Ok tt)
    /\ length blocks = 10%nat
    /\ (forall k, (k < 10)%nat ->
          iteration_metrics MLPParams MLP n_bidders n_items width depth
            (auct (params st)) (misr (params st))
            (uniform (split (advance split k (PRNGKey 1337)) 2 1) n_bidders n_items)
            (nth k blocks [])).
Proof.
  intros HB2 HI1. unfold test.
  destruct (test_loop_value (range 10) st
              (BidSampler.init Key (PRNGKey 1337) (bidders tpal) (items tpal))
              eq_refl eq_refl HB2 HI1) as (blocks & E & Lb & Fb).
  exists blocks. split; [exact E|]. split; [now rewrite Lb, range_length|].
  intros k Hk. apply Fb. now rewrite range_length.
Qed.

End TestProperties.

(** ** Entries of a misreport profile *)

Lemma replace_entry_cons {A : Type} (i : nat) (x y : A) (v m : list A) :
  replace_entry (S i) (x :: v) (y :: m) = x :: replace_entry i v m.
Proof.
  unfold replace_entry, slice. rewrite !Nat.sub_0_r.
  replace (S i + 1 - S i)%nat with 1%nat by lia.
  replace (i + 1 - i)%nat with 1%nat by lia.
  reflexivity.
Qed.

Lemma nth_replace_entry (i j : nat) (v m : vec) :
  length m = length v -> (j < length v)%nat ->
  nth j (replace_entry i v m) 0 = if (j =? i)%nat then nth j m 0 else nth j v 0.
Proof.
  revert j v m. induction i as [|i IH]; intros j v m Hl Hj.
  - destruct v as [|x v]; [simpl in Hj; lia|].
    destruct m as [|y m]; [discriminate|].
    destruct j as [|j]; reflexivity.
  - destruct v as [|x v]; [simpl in Hj; lia|].
    destruct m as [|y m]; [discriminate|].
    rewrite replace_entry_cons. destruct j as [|j]; [reflexivity|].
    simpl in Hl, Hj |- *. apply IH; lia.
Qed.

(** X27: on values and misreports of one shape [misr_bidder_i] returns an
    array of that shape whose entries are those of the values, except in
    the column [i], where they are those of the misreports, in every row;
    for [i] beyond the columns it is the array of the values. *)
Theorem misr_bidder_i_replaces_column (vals misrs : mat) (r c i : nat) :
  has_shape2 r c vals = true -> has_shape2 r c misrs = true ->
  exists V,
    misr_bidder_i vals misrs i = Ok V
    /\ has_shape2 r c V = true
    /\ (forall k j, (k < r)%nat -> (j < c)%nat ->
          nth j (nth k V []) 0
          = if (j =? i)%nat then nth j (nth k misrs []) 0 else nth j (nth k vals []) 0).
Proof.
  intros Hv Hm. destruct (misr_bidder_i_ok vals misrs r c i Hv Hm) as [E Hs].
  exists (zipWith (replace_entry i) vals misrs). split; [exact E|]. split; [exact Hs|].
  intros k j Hk Hj.
  pose proof (has_shape2_elim _ _ _ Hv) as [Lv Rv].
  pose proof (has_shape2_elim _ _ _ Hm) as [Lm Rm].
  rewrite (nth_zipWith (replace_entry i) _ _ k [] [] []) by lia.
  assert (Hkv : length (nth k vals []) = c) by (apply Rv, nth_In; lia).
  assert (Hkm : length (nth k misrs []) = c) by (apply Rm, nth_In; lia).
  apply nth_replace_entry; lia.
Qed.

(** ** Counting events *)

Lemma count_events_app (p : event -> bool) (evs1 evs2 : list event) :
  count_events p (evs1 ++ evs2) = (count_events p evs1 + count_events p evs2)%nat.
Proof. unfold count_events. now rewrite filter_app, length_app. Qed.

Lemma count_events_repeat (p : event -> bool) (e : event) (n : nat) :
  count_events p (repeat e n) = if p e then n else 0%nat.
Proof.
  unfold count_events. induction n as [|n IH]; simpl.
  - now destruct (p e).
  - destruct (p e) eqn:E; simpl; [now rewrite IH|exact IH].
Qed.

Lemma count_events_concat {X : Type} (p : event -> bool) (f : X -> nat)
    (xs : list X) (evss : list (list event)) :
  Forall2 (fun x evs => count_events p evs = f x) xs evss ->
  count_events p (concat evss) = list_sum (map f xs).
Proof.
  induction 1 as [|x evs xs evss Hx _ IH]; [reflexivity|].
  simpl. now rewrite count_events_app, Hx, IH.
Qed.

Lemma list_sum_const {X : Type} (c : nat) (xs : list X) :
  list_sum (map (fun _ => c) xs) = (length xs * c)%nat.
Proof. induction xs as [|x xs IH]; simpl; [reflexivity|]. now rewrite IH. Qed.

Lemma list_sum_indicator {X : Type} (p : X -> bool) (xs : list X) :
  list_sum (map (fun x => if p x then 1%nat else 0%nat) xs) = length (filter p xs).
Proof.
  induction xs as [|x xs IH]; simpl; [reflexivity|].
  destruct (p x); simpl; now rewrite IH.
Qed.

Lemma Forall2_impl_l {X Y : Type} (P Q : X -> Y -> Prop) (xs : list X) (ys : list Y) :
  (forall x y, P x y -> Q x y) -> Forall2 P xs ys -> Forall2 Q xs ys.
Proof. intros H. induction 1; constructor; auto. Qed.

(** The calls of a step, counted. *)
Lemma step_trace_counts misr_updates misr_reinit_iv misr_reinit_lim batch_size step evs :
  step_trace misr_updates misr_reinit_iv misr_reinit_lim batch_size step evs ->
  count_events is_update_auct evs = 1%nat
  /\ count_events is_update_misr evs = Z.to_nat misr_updates
  /\ count_events is_reinit evs
     = (if reinit_due misr_reinit_iv misr_reinit_lim step then 1%nat else 0%nat)
  /\ count_events is_sampled evs
     = S (if reinit_due misr_reinit_iv misr_reinit_lim step then 1%nat else 0%nat).
Proof.
  intros (calls & logged & -> & (val_sample & reinit_evs & -> & Hre) & Hlog).
  unfold reinit_due.
  assert (Hl : forall p, (forall line, p (Printed line) = false) ->
                         count_events p logged = 0%nat).
  { intros p Hp. destruct Hlog as [->|(a & m & ->)]; [reflexivity|].
    unfold count_events. simpl. now rewrite Hp. }
  repeat split.
  - rewrite count_events_app, (Hl is_update_auct) by reflexivity.
    change (Sampled batch_size val_sample :: ?l) with ([Sampled batch_size val_sample] ++ l).
    rewrite !count_events_app, count_events_repeat. simpl.
    destruct ((step mod misr_reinit_iv =? 0)%Z && (step <=? misr_reinit_lim)%Z).
    + destruct Hre as [vals ->]. reflexivity.
    + subst reinit_evs. reflexivity.
  - rewrite count_events_app, (Hl is_update_misr) by reflexivity.
    change (Sampled batch_size val_sample :: ?l) with ([Sampled batch_size val_sample] ++ l).
    rewrite !count_events_app, count_events_repeat. simpl.
    destruct ((step mod misr_reinit_iv =? 0)%Z && (step <=? misr_reinit_lim)%Z).
    + destruct Hre as [vals ->]. unfold count_events. simpl. lia.
    + subst reinit_evs. unfold count_events. simpl. lia.
  - rewrite count_events_app, (Hl is_reinit) by reflexivity.
    change (Sampled batch_size val_sample :: ?l) with ([Sampled batch_size val_sample] ++ l).
    rewrite !count_events_app, count_events_repeat. simpl.
    destruct ((step mod misr_reinit_iv =? 0)%Z && (step <=? misr_reinit_lim)%Z).
    + destruct Hre as [vals ->]. reflexivity.
    + subst reinit_evs. reflexivity.
  - rewrite count_events_app, (Hl is_sampled) by reflexivity.
    change (Sampled batch_size val_sample :: ?l) with ([Sampled batch_size val_sample] ++ l).
    rewrite !count_events_app, count_events_repeat. simpl.
    destruct ((step mod misr_reinit_iv =? 0)%Z && (step <=? misr_reinit_lim)%Z).
    + destruct Hre as [vals ->]. reflexivity.
    + subst reinit_evs. reflexivity.
Qed.

Section TrainingProperties.

Variable MLPParams : Type.
Variable MLP : list nat -> MLPParams -> vec -> vec.
Hypothesis MLP_shape :
  forall layers p x, length (MLP layers p x) = last layers 0%nat.

Variable Key : Type.
Variable PRNGKey : Z -> Key.
Variable split : Key -> nat -> nat -> Key.
Variable uniform : Key -> nat -> nat -> mat.
Hypothesis uniform_shape : forall k r c, has_shape2 r c (uniform k r c) = true.

Variable auct_transform_init :
  nat -> nat -> nat -> nat -> Key -> list mat -> AuctParams MLPParams.
Variable misr_transform_init :
  nat -> nat -> nat -> nat -> Key -> list mat -> MisrParams MLPParams.
Variable grad :
  forall P Q : Type, (P -> Q -> list mat -> result R) -> P -> Q -> list mat -> P.
Variable OptState : Type -> Type.
Variable adamw_init : forall P : Type, P -> OptState P.
Variable adamw_update : forall P : Type, P -> OptState P -> P -> P * OptState P.
Variable apply_updates : forall P : Type, P -> P -> P.

(** The sizes of the auction: at least one bidder, and at least two items
    unless there is a single bidder. *)
Variables n_bidders n_items width depth : nat.
Hypothesis bidders_pos : (1 <= n_bidders)%nat.
Hypothesis items_ok : n_items <> 1%nat \/ n_bidders = 1%nat.

Local Abbreviation tpal :=
  {| bidders := n_bidders; items := n_items; net_width := width; net_depth := depth |}.
Local Abbreviation upd_misr :=
  (update_misr MLPParams MLP grad OptState adamw_update apply_updates tpal).
Local Abbreviation upd_auct :=
  (update_auct MLPParams MLP grad OptState adamw_update apply_updates tpal).
Local Abbreviation reinit :=
  (reinit_misr MLPParams MLP Key split misr_transform_init OptState adamw_init tpal).

Local Abbreviation shaped := (shaped n_bidders n_items).

Lemma drawn_shaped (sampler : BidSampler.t Key) (n : Z) :
  BidSampler.bidders sampler = n_bidders -> BidSampler.items sampler = n_items ->
  shaped (drawn split uniform sampler n).
Proof.
  intros HB HI m Hm. apply repeat_spec in Hm. subst m. rewrite HB, HI.
  apply uniform_shape.
Qed.

Lemma v_misr_loss_ok mp ap (batch : list mat) :
  shaped batch ->
  exists v, v_misr_loss MLPParams MLP n_bidders n_items width depth mp ap batch = Ok v.
Proof.
  intros H. unfold v_misr_loss.
  rewrite (mapM_ok_map _ (fun vals =>
             - sum (u_misr MLPParams MLP n_bidders n_items width depth ap mp vals))).
  - simpl. eexists. reflexivity.
  - intros m Hm. apply misr_loss_ok; auto.
Qed.

Lemma v_auct_loss_ok ap mp (batch : list mat) :
  shaped batch ->
  exists v, v_auct_loss MLPParams MLP n_bidders n_items width depth ap mp batch = Ok v.
Proof.
  intros H. unfold v_auct_loss.
  rewrite (mapM_ok_map _ (fun vals =>
             - (sqrt (sum (payments MLPParams MLP n_bidders n_items width depth ap vals))
                - sqrt (sum (regret MLPParams MLP n_bidders n_items width depth ap mp vals)))
             + sum (regret MLPParams MLP n_bidders n_items width depth ap mp vals))).
  - simpl. eexists. reflexivity.
  - intros m Hm. apply auct_loss_ok; auto.
Qed.

(** An update of the misreporter returns, and leaves the auctioneer's
    parameters and optimiser state as they are. *)
Lemma update_misr_ok st (batch : list mat) :
  shaped batch ->
  exists st' loss,
    upd_misr st batch = Ok (st', loss)
    /\ auct (params st') = auct (params st)
    /\ auct (opt_state st') = auct (opt_state st).
Proof.
  intros H. unfold update_misr, value_and_grad. simpl.
  destruct (v_misr_loss_ok (misr (params st)) (auct (params st)) batch H) as [v ->].
  simpl. destruct (adamw_update _ _ _ _) as [u o]. eexists. eexists.
  split; [reflexivity|]. split; reflexivity.
Qed.

(** An update of the auctioneer returns, and leaves the misreporter's
    parameters and optimiser state as they are. *)
Lemma update_auct_ok st (batch : list mat) :
  shaped batch ->
  exists st' loss,
    upd_auct st batch = Ok (st', loss)
    /\ misr (params st') = misr (params st)
    /\ misr (opt_state st') = misr (opt_state st).
Proof.
  intros H. unfold update_auct, value_and_grad. simpl.
  destruct (v_auct_loss_ok (auct (params st)) (misr (params st)) batch H) as [v ->].
  simpl. destruct (adamw_update _ _ _ _) as [u o]. eexists. eexists.
  split; [reflexivity|]. split; reflexivity.
Qed.

(** The sample of one profile that a sampler of the auction's sizes
    draws: the forward passes that the initialisations run on it return. *)
Lemma init_misr_ok rng (vals : list mat) (m : mat) :
  vals = [m] -> has_shape2 n_bidders n_items m = true ->
  init_misr MLPParams MLP Key misr_transform_init tpal rng vals
  = Ok (misr_transform_init n_bidders n_items width depth rng vals).
Proof.
  intros -> Hm. unfold init_misr. cbn [bidders items net_width net_depth].
  destruct (Misreporter3_returns MLPParams MLP MLP_shape n_bidders n_items width depth
              bidders_pos (misr_transform_init n_bidders n_items width depth rng [m]) m Hm)
    as (x & -> & _).
  reflexivity.
Qed.

Lemma init_auct_ok rng (vals : list mat) (m : mat) :
  vals = [m] -> has_shape2 n_bidders n_items m = true ->
  init_auct MLPParams MLP Key auct_transform_init tpal rng vals
  = Ok (auct_transform_init n_bidders n_items width depth rng vals).
Proof.
  intros -> Hm. unfold init_auct. cbn [bidders items net_width net_depth].
  destruct (Auctioneer3_returns MLPParams MLP MLP_shape n_bidders n_items width depth
              bidders_pos (auct_transform_init n_bidders n_items width depth rng [m]) m Hm)
    as (alloc & pay & -> & _).
  reflexivity.
Qed.

Lemma drawn_one (sampler : BidSampler.t Key) :
  BidSampler.bidders sampler = n_bidders -> BidSampler.items sampler = n_items ->
  exists m, drawn split uniform sampler 1 = [m]
            /\ has_shape2 n_bidders n_items m = true.
Proof.
  intros HB HI. eexists. split; [reflexivity|]. rewrite HB, HI. apply uniform_shape.
Qed.

Lemma reinit_misr_ok rng st (vals : list mat) (m : mat) :
  vals = [m] -> has_shape2 n_bidders n_items m = true ->
  reinit rng st vals
  = Ok {| params :=
            {| auct := auct (params st);
               misr := misr_transform_init n_bidders n_items width depth
                         (split rng 2 1) vals |};
          opt_state :=
            {| auct := auct (opt_state st);
               misr := adamw_init _
                         (misr_transform_init n_bidders n_items width depth
                            (split rng 2 1) vals) |} |}.
Proof.
  intros Hvals Hm. unfold reinit_misr.
  rewrite (init_misr_ok (split rng 2 1) vals m Hvals Hm). reflexivity.
Qed.

(** The inner loop: one update of the misreporter per iteration, all on
    the batch. *)
Lemma misr_updates_loop {X : Type} (xs : list X) (batch : list mat) st (log : option R) :
  shaped batch ->
  exists st' log',
    for_each xs
      (fun _ cur =>
         emit (UpdateMisr batch) ;;~
         '(st, loss) <~ lift (upd_misr (fst cur) batch) ;;
         ret (st, Some loss))
      (st, log)
    = (repeat (UpdateMisr batch) (length xs), Ok (st', log'))
    /\ (xs <> [] -> exists loss, log' = Some loss)
    /\ (xs = [] -> log' = log).
Proof.
  intros H. revert st log. induction xs as [|x xs IH]; intros st log.
  - exists st, log. repeat split; congruence.
  - destruct (update_misr_ok st batch H) as (st1 & loss & E & _).
    destruct (IH st1 (Some loss)) as (st' & log' & E' & Hne & Hnil).
    exists st', log'. split; [|split].
    + simpl in E' |- *. rewrite E. simpl. rewrite E'. reflexivity.
    + intros _. destruct xs as [|y ys].
      * exists loss. now apply Hnil.
      * apply Hne. discriminate.
    + discriminate.
Qed.

Local Abbreviation step_fn :=
  (training_step MLPParams MLP Key split uniform misr_transform_init grad OptState
     adamw_init adamw_update apply_updates tpal).

Local Abbreviation sampler_ok := (@sampler_ok MLPParams Key OptState n_bidders n_items).

(** The reinitialisation, when the step calls for it: a sample of one
    profile, then [reinit_misr] on it. *)
Lemma reinit_part_ok (cond : bool) rng (sampler1 : BidSampler.t Key)
    (st : TPALState MLPParams OptState) :
  BidSampler.bidders sampler1 = n_bidders -> BidSampler.items sampler1 = n_items ->
  exists reinit_evs sampler2 st1,
    (if cond
     then
       '(sampler2, vals) <~ call_sample Key split uniform sampler1 1 ;;
       emit (Reinit vals) ;;~
       tpal_state1 <~ lift (reinit rng st vals) ;;
       ret (sampler2, tpal_state1)
     else ret (sampler1, st))
    = (reinit_evs, Ok (sampler2, st1))
    /\ BidSampler.bidders sampler2 = n_bidders
    /\ BidSampler.items sampler2 = n_items
    /\ (if cond then exists vals, reinit_evs = [Sampled 1 vals; Reinit vals]
        else reinit_evs = []).
Proof.
  intros HB HI. destruct cond.
  - destruct (drawn_one sampler1 HB HI) as (m & Hd & Hm).
    rewrite call_sample_ok by lia.
    eexists. exists (next_sampler split sampler1). eexists. split; [|split; [|split]].
    + cbn [bind_io emit app]. unfold lift.
      rewrite (reinit_misr_ok rng st _ m Hd Hm). reflexivity.
    + exact HB.
    + exact HI.
    + eexists. reflexivity.
  - exists [], sampler1, st. repeat split; assumption.
Qed.

Ltac run_ok H := eapply bind_io_ok; [exact H|cbv beta iota].
Ltac run_emit := eapply bind_io_ok; [reflexivity|cbv beta iota].

Lemma training_step_ok rng misr_updates misr_reinit_iv misr_reinit_lim batch_size
    log_every step (l : locals MLPParams Key OptState) :
  sampler_ok l -> misr_reinit_iv <> 0%Z -> log_every <> 0%Z ->
  (1 <= batch_size)%Z -> (1 <= misr_updates)%Z ->
  exists evs l',
    step_fn rng misr_updates misr_reinit_iv misr_reinit_lim batch_size log_every step l
    = (evs, Ok l')
    /\ sampler_ok l'
    /\ step_trace misr_updates misr_reinit_iv misr_reinit_lim batch_size step evs.
Proof.
  intros [HB HI] Hiv Hlog Hbs Hmu.
  set (val_sample := drawn split uniform (sampler l) batch_size).
  assert (Hshape : shaped val_sample) by now apply drawn_shaped.
  destruct (reinit_part_ok
              ((step mod misr_reinit_iv =? 0)%Z && (step <=? misr_reinit_lim)%Z)
              rng (next_sampler split (sampler l)) (tpal_state l) HB HI)
    as (reinit_evs & sampler2 & st1 & Hre & HB2 & HI2 & Hcond).
  destruct (misr_updates_loop (range misr_updates) val_sample st1 (misr_log l) Hshape)
    as (st2 & log2 & Hloop & Hsome & _).
  destruct Hsome as [mloss ->].
  { destruct (range_cons misr_updates Hmu) as [rest ->]. discriminate. }
  destruct (update_auct_ok st2 val_sample Hshape) as (st3 & aloss & Hauct & _).
  rewrite range_length in Hloop.
  assert (Hcalls : step_calls misr_updates misr_reinit_iv misr_reinit_lim batch_size step
                     (Sampled batch_size val_sample :: reinit_evs
                      ++ repeat (UpdateMisr val_sample) (Z.to_nat misr_updates)
                      ++ [UpdateAuct val_sample])).
  { exists val_sample, reinit_evs. split; [reflexivity|exact Hcond]. }
  unfold val_sample in *. clear val_sample.
  destruct (step mod log_every =? 0)%Z eqn:Er.
  - eexists. eexists. split; [|split].
    + unfold training_step.
      run_ok (call_sample_ok Key split uniform (sampler l) batch_size Hbs).
      eapply bind_io_ok; [unfold lift; rewrite (py_mod_ok _ _ Hiv); reflexivity|cbv beta iota].
      run_ok Hre. run_ok Hloop. run_emit.
      eapply bind_io_ok; [unfold lift; rewrite Hauct; reflexivity|cbv beta iota].
      eapply bind_io_ok; [unfold lift; rewrite (py_mod_ok _ _ Hlog); reflexivity|cbv beta iota].
      rewrite Er.
      eapply bind_io_ok; [reflexivity|cbv beta iota].
      run_emit. reflexivity.
    + split; assumption.
    + eexists. exists [Printed (StepLosses step aloss mloss)].
      split; [|split; [exact Hcalls|right; eexists; eexists; reflexivity]].
      simpl. rewrite <- !app_assoc. reflexivity.
  - eexists. eexists. split; [|split].
    + unfold training_step.
      run_ok (call_sample_ok Key split uniform (sampler l) batch_size Hbs).
      eapply bind_io_ok; [unfold lift; rewrite (py_mod_ok _ _ Hiv); reflexivity|cbv beta iota].
      run_ok Hre. run_ok Hloop. run_emit.
      eapply bind_io_ok; [unfold lift; rewrite Hauct; reflexivity|cbv beta iota].
      eapply bind_io_ok; [unfold lift; rewrite (py_mod_ok _ _ Hlog); reflexivity|cbv beta iota].
      rewrite Er. reflexivity.
    + split; assumption.
    + eexists. exists [].
      split; [|split; [exact Hcalls|now left]].
      simpl. rewrite <- !app_assoc. reflexivity.
Qed.

(** With [log_every = 0] the step makes its calls and then raises, at
    [step % log_every]. *)
Lemma training_step_zero_log rng misr_updates misr_reinit_iv misr_reinit_lim batch_size
    step (l : locals MLPParams Key OptState) :
  sampler_ok l -> misr_reinit_iv <> 0%Z -> (1 <= batch_size)%Z ->
  exists evs,
    step_fn rng misr_updates misr_reinit_iv misr_reinit_lim batch_size 0 step l
    = (evs, Raise ZeroDivisionError)
    /\ step_calls misr_updates misr_reinit_iv misr_reinit_lim batch_size step evs.
Proof.
  intros [HB HI] Hiv Hbs.
  assert (Hshape : shaped (drawn split uniform (sampler l) batch_size))
    by now apply drawn_shaped.
  destruct (reinit_part_ok
              ((step mod misr_reinit_iv =? 0)%Z && (step <=? misr_reinit_lim)%Z)
              rng (next_sampler split (sampler l)) (tpal_state l) HB HI)
    as (reinit_evs & sampler2 & st1 & Hre & HB2 & HI2 & Hcond).
  destruct (misr_updates_loop (range misr_updates) _ st1 (misr_log l) Hshape)
    as (st2 & log2 & Hloop & _ & _).
  destruct (update_auct_ok st2 _ Hshape) as (st3 & aloss & Hauct & _).
  rewrite range_length in Hloop.
  eexists. split.
  - unfold training_step.
    run_ok (call_sample_ok Key split uniform (sampler l) batch_size Hbs).
    eapply bind_io_ok; [unfold lift; rewrite (py_mod_ok _ _ Hiv); reflexivity|cbv beta iota].
    run_ok Hre. run_ok Hloop. run_emit.
    eapply bind_io_ok; [unfold lift; rewrite Hauct; reflexivity|cbv beta iota].
    apply bind_io_raise. reflexivity.
  - exists (drawn split uniform (sampler l) batch_size), reinit_evs.
    split; [|exact Hcond]. simpl. reflexivity.
Qed.

Local Abbreviation run :=
  (training MLPParams MLP Key PRNGKey split uniform auct_transform_init
     misr_transform_init grad OptState adamw_init adamw_update apply_updates).

(** The initialisation on the sample drawn before the loop returns, after
    the two shapes have been printed: the parameters are those created with
    the second and third parts of the split of the key. *)
Lemma initial_state_value rng (sampler : BidSampler.t Key) :
  BidSampler.bidders sampler = n_bidders -> BidSampler.items sampler = n_items ->
  let vals := drawn split uniform sampler 1 in
  let pa := auct_transform_init n_bidders n_items width depth (split rng 3 1) vals in
  let pm := misr_transform_init n_bidders n_items width depth (split rng 3 2) vals in
  initial_state MLPParams MLP Key split auct_transform_init misr_transform_init
    OptState adamw_init tpal rng vals
  = ([Printed ParamShapes; Printed ParamShapes],
     Ok {| params := {| auct := pa; misr := pm |};
           opt_state := {| auct := adamw_init _ pa; misr := adamw_init _ pm |} |}).
Proof.
  intros HB HI. cbv zeta. destruct (drawn_one sampler HB HI) as (m & Hd & Hm).
  unfold initial_state, lift.
  rewrite (init_auct_ok _ _ m Hd Hm), (init_misr_ok _ _ m Hd Hm).
  reflexivity.
Qed.

Lemma initial_state_ok rng (sampler : BidSampler.t Key) :
  BidSampler.bidders sampler = n_bidders -> BidSampler.items sampler = n_items ->
  exists st0,
    initial_state MLPParams MLP Key split auct_transform_init misr_transform_init
      OptState adamw_init tpal rng (drawn split uniform sampler 1)
    = ([Printed ParamShapes; Printed ParamShapes], Ok st0).
Proof.
  intros HB HI. eexists. exact (initial_state_value rng sampler HB HI).
Qed.

Lemma training_loop_ok rng num_steps misr_updates misr_reinit_iv misr_reinit_lim
    batch_size log_every (l0 : locals MLPParams Key OptState) :
  sampler_ok l0 -> misr_reinit_iv <> 0%Z -> log_every <> 0%Z ->
  (1 <= batch_size)%Z -> (1 <= misr_updates)%Z ->
  exists steps_evs l',
    for_each (range num_steps)
      (step_fn rng misr_updates misr_reinit_iv misr_reinit_lim batch_size log_every) l0
    = (concat steps_evs, Ok l')
    /\ sampler_ok l'
    /\ Forall2 (step_trace misr_updates misr_reinit_iv misr_reinit_lim batch_size)
         (range num_steps) steps_evs.
Proof.
  intros Hok Hiv Hlog Hbs Hmu.
  apply (for_each_ok sampler_ok); [exact Hok|].
  intros step l _ Hl. now apply training_step_ok.
Qed.

(** X5: the training loop, on a run of at least a hundred steps: after the
    device information, the sample for the initialisation and the two
    shapes printed by [initial_state], the events are those of the steps
    [0], ..., [num_steps - 1] in order, each step making its calls as
    [step_calls] has them, and the run returns. *)
Theorem training_trace
    (num_steps misr_updates misr_reinit_iv misr_reinit_lim batch_size : Z) :
  (100 <= num_steps)%Z -> (1 <= misr_updates)%Z -> misr_reinit_iv <> 0%Z ->
  (1 <= batch_size)%Z ->
  exists vals0 steps_evs st,
    run num_steps misr_updates misr_reinit_iv misr_reinit_lim batch_size
      n_bidders n_items width depth
    = (Printed DeviceInfo :: Sampled 1 vals0
       :: Printed ParamShapes :: Printed ParamShapes :: concat steps_evs,
       Ok (tpal, st))
    /\ Forall2 (step_trace misr_updates misr_reinit_iv misr_reinit_lim batch_size)
         (range num_steps) steps_evs.
Proof.
  intros Hn Hmu Hiv Hbs.
  assert (Hlog : (num_steps / 100 <> 0)%Z).
  { pose proof (Z.div_le_mono 100 num_steps 100 ltac:(lia) Hn) as H.
    rewrite Z.div_same in H by lia. lia. }
  set (rng := PRNGKey 1729).
  set (sampler0 := BidSampler.init Key (split rng 4 1) n_bidders n_items).
  destruct (initial_state_ok (split rng 4 2) sampler0 eq_refl eq_refl)
    as [st0 Hinit].
  destruct (training_loop_ok (split rng 4 3) num_steps misr_updates misr_reinit_iv
              misr_reinit_lim batch_size (num_steps / 100)%Z
              {| sampler := next_sampler split sampler0; tpal_state := st0;
                 misr_log := None; auct_log := None;
                 steps := []; auct_losses := []; misr_losses := [] |})
    as (steps_evs & l' & Hloop & _ & Htrace); try assumption.
  { split; reflexivity. }
  exists (drawn split uniform sampler0 1), steps_evs, (tpal_state l').
  split; [|exact Htrace].
  unfold training. fold rng. fold sampler0.
  assert (H1 : (1 <= 1)%Z) by lia.
  transitivity ([Printed DeviceInfo]
                ++ [Sampled 1 (drawn split uniform sampler0 1)]
                ++ [Printed ParamShapes; Printed ParamShapes]
                ++ concat steps_evs ++ [],
                Ok (tpal, tpal_state l')).
  - run_emit.
    run_ok (call_sample_ok Key split uniform sampler0 1 H1).
    run_ok Hinit. run_ok Hloop. reflexivity.
  - simpl. now rewrite app_nil_r.
Qed.

(** C6: a run of fewer than a hundred steps makes the calls of the step 0
    and then raises a [ZeroDivisionError] at [step % log_every], since
    [log_every = num_steps // 100] is zero: the steps [1], ...,
    [num_steps - 1] are never made. *)
Theorem training_short_run_raises
    (num_steps misr_updates misr_reinit_iv misr_reinit_lim batch_size : Z) :
  (1 <= num_steps < 100)%Z -> misr_reinit_iv <> 0%Z -> (1 <= batch_size)%Z ->
  exists vals0 evs0,
    run num_steps misr_updates misr_reinit_iv misr_reinit_lim batch_size
      n_bidders n_items width depth
    = (Printed DeviceInfo :: Sampled 1 vals0
       :: Printed ParamShapes :: Printed ParamShapes :: evs0,
       Raise ZeroDivisionError)
    /\ step_calls misr_updates misr_reinit_iv misr_reinit_lim batch_size 0 evs0.
Proof.
  intros Hn Hiv Hbs.
  assert (Hlog : (num_steps / 100 = 0)%Z) by (apply Z.div_small; lia).
  set (rng := PRNGKey 1729).
  set (sampler0 := BidSampler.init Key (split rng 4 1) n_bidders n_items).
  destruct (initial_state_ok (split rng 4 2) sampler0 eq_refl eq_refl)
    as [st0 Hinit].
  destruct (training_step_zero_log (split rng 4 3) misr_updates misr_reinit_iv
              misr_reinit_lim batch_size 0%Z
              {| sampler := next_sampler split sampler0; tpal_state := st0;
                 misr_log := None; auct_log := None;
                 steps := []; auct_losses := []; misr_losses := [] |})
    as (evs0 & Hstep & Hcalls); try assumption.
  { split; reflexivity. }
  destruct (range_cons num_steps) as [rest Hrange]; [lia|].
  exists (drawn split uniform sampler0 1), evs0. split; [|exact Hcalls].
  unfold training. fold rng. fold sampler0. rewrite Hlog, Hrange.
  assert (H1 : (1 <= 1)%Z) by lia.
  change (Printed DeviceInfo :: Sampled 1 (drawn split uniform sampler0 1)
          :: Printed ParamShapes :: Printed ParamShapes :: evs0)
    with ([Printed DeviceInfo]
          ++ [Sampled 1 (drawn split uniform sampler0 1)]
          ++ [Printed ParamShapes; Printed ParamShapes]
          ++ evs0).
  run_emit.
  run_ok (call_sample_ok Key split uniform sampler0 1 H1).
  run_ok Hinit. apply bind_io_raise. now apply for_each_raises.
Qed.

(** *** Runs that end early, and the steps that are logged *)

(** X17: with [num_steps <= 0], for an auction with at least one bidder,
    the loop has no iteration and nothing is divided by [log_every]: the
    run prints the device information, draws one profile, initialises the
    learner with the keys split from [PRNGKey(1729)], the forward passes of
    the initialisation returning, prints the two shapes, and returns that
    initial state. *)
Theorem training_no_steps
    (num_steps misr_updates misr_reinit_iv misr_reinit_lim batch_size : Z) :
  (num_steps <= 0)%Z ->
  let rng := PRNGKey 1729 in
  let vals0 := [uniform (split (split rng 4 1) 2 1) n_bidders n_items] in
  let pa := auct_transform_init n_bidders n_items width depth
              (split (split rng 4 2) 3 1) vals0 in
  let pm := misr_transform_init n_bidders n_items width depth
              (split (split rng 4 2) 3 2) vals0 in
  training MLPParams MLP Key PRNGKey split uniform auct_transform_init
    misr_transform_init grad OptState adamw_init adamw_update apply_updates
    num_steps misr_updates misr_reinit_iv misr_reinit_lim batch_size
    n_bidders n_items width depth
  = ([Printed DeviceInfo; Sampled 1 vals0; Printed ParamShapes; Printed ParamShapes],
     Ok (tpal,
         {| params := {| auct := pa; misr := pm |};
            opt_state := {| auct := adamw_init _ pa; misr := adamw_init _ pm |} |})).
Proof.
  clear items_ok. intros Hn. cbv zeta.
  set (rng := PRNGKey 1729).
  set (sampler0 := BidSampler.init Key (split rng 4 1) n_bidders n_items).
  pose proof (initial_state_value (split rng 4 2) sampler0 eq_refl eq_refl) as Hinit.
  cbv zeta in Hinit.
  unfold training. fold rng. fold sampler0. rewrite (range_nil num_steps Hn).
  assert (H1 : (1 <= 1)%Z) by (clear; lia).
  match goal with
  | |- _ = (_, ?r) =>
      transitivity ([Printed DeviceInfo]
                    ++ [Sampled 1 (drawn split uniform sampler0 1)]
                    ++ [Printed ParamShapes; Printed ParamShapes]
                    ++ [] ++ [], r); [|reflexivity]
  end.
  run_emit.
  run_ok (call_sample_ok Key split uniform sampler0 1 H1).
  run_ok Hinit. reflexivity.
Qed.

(** The first step of a run with [misr_reinit_iv = 0]. *)
Lemma training_step_zero_interval rng misr_updates misr_reinit_lim batch_size log_every
    step (l : locals MLPParams Key OptState) :
  (1 <= batch_size)%Z ->
  step_fn rng misr_updates 0 misr_reinit_lim batch_size log_every step l
  = ([Sampled batch_size (drawn split uniform (sampler l) batch_size)],
     Raise ZeroDivisionError).
Proof.
  clear bidders_pos items_ok. intros Hbs. unfold training_step.
  rewrite (call_sample_ok Key split uniform (sampler l) batch_size Hbs). reflexivity.
Qed.

(** X18: with [misr_reinit_iv = 0], for an auction with at least one
    bidder, the first step draws its batch and then raises a
    [ZeroDivisionError] at [step % misr_reinit_iv]: no update is ever
    made. *)
Theorem training_zero_reinit_interval
    (num_steps misr_updates misr_reinit_lim batch_size : Z) :
  (1 <= num_steps)%Z -> (1 <= batch_size)%Z ->
  exists vals0 batch,
    training MLPParams MLP Key PRNGKey split uniform auct_transform_init
      misr_transform_init grad OptState adamw_init adamw_update apply_updates
      num_steps misr_updates 0 misr_reinit_lim batch_size
      n_bidders n_items width depth
    = ([Printed DeviceInfo; Sampled 1 vals0; Printed ParamShapes; Printed ParamShapes;
        Sampled batch_size batch],
       Raise ZeroDivisionError)
    /\ length batch = Z.to_nat batch_size.
Proof.
  clear items_ok. intros Hn Hbs.
  set (rng := PRNGKey 1729).
  set (sampler0 := BidSampler.init Key (split rng 4 1) n_bidders n_items).
  destruct (initial_state_ok (split rng 4 2) sampler0 eq_refl eq_refl) as [st0 Hinit].
  destruct (range_cons num_steps Hn) as [rest Hrange].
  exists (drawn split uniform sampler0 1),
    (drawn split uniform (next_sampler split sampler0) batch_size).
  split; [|unfold drawn; apply repeat_length].
  unfold training. fold rng. fold sampler0. rewrite Hrange.
  assert (H1 : (1 <= 1)%Z) by (clear; lia).
  change [Printed DeviceInfo; Sampled 1 (drawn split uniform sampler0 1);
          Printed ParamShapes; Printed ParamShapes;
          Sampled batch_size (drawn split uniform (next_sampler split sampler0) batch_size)]
    with ([Printed DeviceInfo]
          ++ [Sampled 1 (drawn split uniform sampler0 1)]
          ++ [Printed ParamShapes; Printed ParamShapes]
          ++ [Sampled batch_size
                (drawn split uniform (next_sampler split sampler0) batch_size)]).
  run_emit.
  run_ok (call_sample_ok Key split uniform sampler0 1 H1).
  run_ok Hinit. apply bind_io_raise. apply for_each_raises.
  now rewrite training_step_zero_interval.
Qed.

(** The first step of a run with [batch_size <= 0]. *)
Lemma training_step_empty_batch rng misr_updates misr_reinit_iv misr_reinit_lim
    batch_size log_every step (l : locals MLPParams Key OptState) :
  (batch_size <= 0)%Z ->
  step_fn rng misr_updates misr_reinit_iv misr_reinit_lim batch_size log_every step l
  = ([], Raise ValueError).
Proof.
  clear bidders_pos items_ok. intros Hbs. unfold training_step.
  rewrite (call_sample_raises Key split uniform (sampler l) batch_size Hbs). reflexivity.
Qed.

(** X19: with [batch_size <= 0], for an auction with at least one bidder,
    the first step has nothing to stack: the run raises a [ValueError]
    before any update, after the sample and the initialisation that
    precede the loop. *)
Theorem training_nonpositive_batch
    (num_steps misr_updates misr_reinit_iv misr_reinit_lim batch_size : Z) :
  (1 <= num_steps)%Z -> (batch_size <= 0)%Z ->
  exists vals0,
    training MLPParams MLP Key PRNGKey split uniform auct_transform_init
      misr_transform_init grad OptState adamw_init adamw_update apply_updates
      num_steps misr_updates misr_reinit_iv misr_reinit_lim batch_size
      n_bidders n_items width depth
    = ([Printed DeviceInfo; Sampled 1 vals0; Printed ParamShapes; Printed ParamShapes],
       Raise ValueError).
Proof.
  clear items_ok. intros Hn Hbs.
  set (rng := PRNGKey 1729).
  set (sampler0 := BidSampler.init Key (split rng 4 1) n_bidders n_items).
  destruct (initial_state_ok (split rng 4 2) sampler0 eq_refl eq_refl) as [st0 Hinit].
  destruct (range_cons num_steps Hn) as [rest Hrange].
  exists (drawn split uniform sampler0 1).
  unfold training. fold rng. fold sampler0. rewrite Hrange.
  assert (H1 : (1 <= 1)%Z) by (clear; lia).
  change [Printed DeviceInfo; Sampled 1 (drawn split uniform sampler0 1);
          Printed ParamShapes; Printed ParamShapes]
    with ([Printed DeviceInfo]
          ++ [Sampled 1 (drawn split uniform sampler0 1)]
          ++ [Printed ParamShapes; Printed ParamShapes]
          ++ []).
  run_emit.
  run_ok (call_sample_ok Key split uniform sampler0 1 H1).
  run_ok Hinit. apply bind_io_raise. apply for_each_raises.
  now rewrite training_step_empty_batch.
Qed.

(** With no update of the misreporter in a step that is logged, the step
    makes its calls and then raises, at the reading of [misr_log]. *)
Lemma training_step_unbound_log rng misr_updates misr_reinit_iv misr_reinit_lim batch_size
    log_every step (l : locals MLPParams Key OptState) :
  sampler_ok l -> misr_reinit_iv <> 0%Z -> log_every <> 0%Z -> (1 <= batch_size)%Z ->
  (misr_updates <= 0)%Z -> misr_log l = None -> (step mod log_every = 0)%Z ->
  exists evs,
    step_fn rng misr_updates misr_reinit_iv misr_reinit_lim batch_size log_every step l
    = (evs, Raise UnboundLocalError)
    /\ step_calls misr_updates misr_reinit_iv misr_reinit_lim batch_size step evs.
Proof.
  intros [HB HI] Hiv Hlog Hbs Hmu Hnone Hmod.
  assert (Hshape : shaped (drawn split uniform (sampler l) batch_size))
    by now apply drawn_shaped.
  destruct (reinit_part_ok
              ((step mod misr_reinit_iv =? 0)%Z && (step <=? misr_reinit_lim)%Z)
              rng (next_sampler split (sampler l)) (tpal_state l) HB HI)
    as (reinit_evs & sampler2 & st1 & Hre & HB2 & HI2 & Hcond).
  destruct (misr_updates_loop (range misr_updates) _ st1 (misr_log l) Hshape)
    as (st2 & log2 & Hloop & _ & Hnil).
  rewrite (Hnil (range_nil misr_updates Hmu)) in Hloop.
  destruct (update_auct_ok st2 _ Hshape) as (st3 & aloss & Hauct & _).
  rewrite range_length in Hloop.
  eexists. split.
  - unfold training_step.
    run_ok (call_sample_ok Key split uniform (sampler l) batch_size Hbs).
    eapply bind_io_ok; [unfold lift; rewrite (py_mod_ok _ _ Hiv); reflexivity|cbv beta iota].
    run_ok Hre. run_ok Hloop. run_emit.
    eapply bind_io_ok; [unfold lift; rewrite Hauct; reflexivity|cbv beta iota].
    eapply bind_io_ok; [unfold lift; rewrite (py_mod_ok _ _ Hlog); reflexivity|cbv beta iota].
    rewrite Hmod. apply bind_io_raise. unfold lift, read_local. now rewrite Hnone.
  - exists (drawn split uniform (sampler l) batch_size), reinit_evs.
    split; [|exact Hcond]. simpl. reflexivity.
Qed.

(** X20: with [misr_updates <= 0], in a run of at least a hundred steps,
    the step 0 makes its calls, no update of the misreporter among them,
    and then raises an [UnboundLocalError]: the step is logged, and
    [misr_log] was never assigned. *)
Theorem training_without_misr_updates
    (num_steps misr_updates misr_reinit_iv misr_reinit_lim batch_size : Z) :
  (100 <= num_steps)%Z -> (misr_updates <= 0)%Z -> misr_reinit_iv <> 0%Z ->
  (1 <= batch_size)%Z ->
  exists vals0 evs0,
    training MLPParams MLP Key PRNGKey split uniform auct_transform_init
      misr_transform_init grad OptState adamw_init adamw_update apply_updates
      num_steps misr_updates misr_reinit_iv misr_reinit_lim batch_size
      n_bidders n_items width depth
    = (Printed DeviceInfo :: Sampled 1 vals0
       :: Printed ParamShapes :: Printed ParamShapes :: evs0,
       Raise UnboundLocalError)
    /\ step_calls misr_updates misr_reinit_iv misr_reinit_lim batch_size 0 evs0
    /\ (forall batch, ~ In (UpdateMisr batch) evs0).
Proof.
  intros Hn Hmu Hiv Hbs.
  assert (Hlog : (num_steps / 100 <> 0)%Z).
  { pose proof (Z.div_le_mono 100 num_steps 100 ltac:(lia) Hn) as H.
    rewrite Z.div_same in H by lia. lia. }
  set (rng := PRNGKey 1729).
  set (sampler0 := BidSampler.init Key (split rng 4 1) n_bidders n_items).
  destruct (initial_state_ok (split rng 4 2) sampler0 eq_refl eq_refl)
    as [st0 Hinit].
  destruct (training_step_unbound_log (split rng 4 3) misr_updates misr_reinit_iv
              misr_reinit_lim batch_size (num_steps / 100)%Z 0%Z
              {| sampler := next_sampler split sampler0; tpal_state := st0;
                 misr_log := None; auct_log := None;
                 steps := []; auct_losses := []; misr_losses := [] |})
    as (evs0 & Hstep & Hcalls); try assumption; try reflexivity.
  { split; reflexivity. }
  destruct (range_cons num_steps) as [rest Hrange]; [lia|].
  exists (drawn split uniform sampler0 1), evs0. split; [|split; [exact Hcalls|]].
  - unfold training. fold rng. fold sampler0. rewrite Hrange.
    assert (H1 : (1 <= 1)%Z) by lia.
    change (Printed DeviceInfo :: Sampled 1 (drawn split uniform sampler0 1)
            :: Printed ParamShapes :: Printed ParamShapes :: evs0)
      with ([Printed DeviceInfo]
            ++ [Sampled 1 (drawn split uniform sampler0 1)]
            ++ [Printed ParamShapes; Printed ParamShapes]
            ++ evs0).
    run_emit.
    run_ok (call_sample_ok Key split uniform sampler0 1 H1).
    run_ok Hinit. apply bind_io_raise. now apply for_each_raises.
  - intros batch Hin. destruct Hcalls as (val_sample & reinit_evs & -> & Hre).
    replace (Z.to_nat misr_updates) with 0%nat in Hin by lia. simpl in Hin.
    destruct Hin as [Hin|Hin]; [discriminate|].
    apply in_app_or in Hin as [Hin|[Hin|[]]]; [|discriminate].
    destruct ((0 mod misr_reinit_iv =? 0)%Z && (0 <=? misr_reinit_lim)%Z).
    + destruct Hre as [vals ->]. destruct Hin as [Hin|[Hin|[]]]; discriminate.
    + subst reinit_evs. contradiction.
Qed.

Lemma logged_steps_repeat_update (batch : list mat) (n : nat) :
  logged_steps (repeat (UpdateMisr batch) n) = [].
Proof. induction n as [|n IH]; [reflexivity|exact IH]. Qed.

Lemma logged_steps_calls misr_updates misr_reinit_iv misr_reinit_lim batch_size step evs :
  step_calls misr_updates misr_reinit_iv misr_reinit_lim batch_size step evs ->
  logged_steps evs = [].
Proof.
  intros (val_sample & reinit_evs & -> & Hre). unfold logged_steps.
  simpl. rewrite !flat_map_app. fold logged_steps.
  rewrite logged_steps_repeat_update. simpl. rewrite app_nil_r.
  destruct ((step mod misr_reinit_iv =? 0)%Z && (step <=? misr_reinit_lim)%Z).
  - destruct Hre as [vals ->]. reflexivity.
  - subst reinit_evs. reflexivity.
Qed.

(** A step that returns prints its line exactly when the step is a
    multiple of [log_every]. *)
Lemma training_step_logged rng misr_updates misr_reinit_iv misr_reinit_lim batch_size
    log_every step (l : locals MLPParams Key OptState) :
  sampler_ok l -> misr_reinit_iv <> 0%Z -> log_every <> 0%Z ->
  (1 <= batch_size)%Z -> (1 <= misr_updates)%Z ->
  exists evs l',
    step_fn rng misr_updates misr_reinit_iv misr_reinit_lim batch_size log_every step l
    = (evs, Ok l')
    /\ sampler_ok l'
    /\ logged_steps evs = (if (step mod log_every =? 0)%Z then [step] else []).
Proof.
  intros [HB HI] Hiv Hlog Hbs Hmu.
  set (val_sample := drawn split uniform (sampler l) batch_size).
  assert (Hshape : shaped val_sample) by now apply drawn_shaped.
  destruct (reinit_part_ok
              ((step mod misr_reinit_iv =? 0)%Z && (step <=? misr_reinit_lim)%Z)
              rng (next_sampler split (sampler l)) (tpal_state l) HB HI)
    as (reinit_evs & sampler2 & st1 & Hre & HB2 & HI2 & Hcond).
  destruct (misr_updates_loop (range misr_updates) val_sample st1 (misr_log l) Hshape)
    as (st2 & log2 & Hloop & Hsome & _).
  destruct Hsome as [mloss ->].
  { destruct (range_cons misr_updates Hmu) as [rest ->]. discriminate. }
  destruct (update_auct_ok st2 val_sample Hshape) as (st3 & aloss & Hauct & _).
  rewrite range_length in Hloop.
  assert (Hcalls : logged_steps
                     (Sampled batch_size val_sample :: reinit_evs
                      ++ repeat (UpdateMisr val_sample) (Z.to_nat misr_updates)
                      ++ [UpdateAuct val_sample]) = []).
  { apply (logged_steps_calls misr_updates misr_reinit_iv misr_reinit_lim batch_size step).
    exists val_sample, reinit_evs. split; [reflexivity|exact Hcond]. }
  unfold val_sample in *. clear val_sample.
  destruct (step mod log_every =? 0)%Z eqn:Er.
  - eexists. eexists. split; [|split].
    + unfold training_step.
      run_ok (call_sample_ok Key split uniform (sampler l) batch_size Hbs).
      eapply bind_io_ok; [unfold lift; rewrite (py_mod_ok _ _ Hiv); reflexivity|cbv beta iota].
      run_ok Hre. run_ok Hloop. run_emit.
      eapply bind_io_ok; [unfold lift; rewrite Hauct; reflexivity|cbv beta iota].
      eapply bind_io_ok; [unfold lift; rewrite (py_mod_ok _ _ Hlog); reflexivity|cbv beta iota].
      rewrite Er.
      eapply bind_io_ok; [reflexivity|cbv beta iota].
      run_emit. reflexivity.
    + split; assumption.
    + change (logged_steps ?a) with (flat_map (fun e => match e with
                     | Printed (StepLosses step _ _) => [step]
                     | _ => []
                     end) a).
      simpl. rewrite !flat_map_app. fold logged_steps.
      unfold logged_steps in Hcalls. simpl in Hcalls. rewrite !flat_map_app in Hcalls.
      fold logged_steps in Hcalls.
      apply app_eq_nil in Hcalls as [H1 H2]. apply app_eq_nil in H2 as [H2 _].
      rewrite H1, H2. reflexivity.
  - eexists. eexists. split; [|split].
    + unfold training_step.
      run_ok (call_sample_ok Key split uniform (sampler l) batch_size Hbs).
      eapply bind_io_ok; [unfold lift; rewrite (py_mod_ok _ _ Hiv); reflexivity|cbv beta iota].
      run_ok Hre. run_ok Hloop. run_emit.
      eapply bind_io_ok; [unfold lift; rewrite Hauct; reflexivity|cbv beta iota].
      eapply bind_io_ok; [unfold lift; rewrite (py_mod_ok _ _ Hlog); reflexivity|cbv beta iota].
      rewrite Er. reflexivity.
    + split; assumption.
    + unfold logged_steps in *. simpl in *. rewrite !flat_map_app in *.
      apply app_eq_nil in Hcalls as [H1 H2]. apply app_eq_nil in H2 as [H2 _].
      rewrite H1, H2. reflexivity.
Qed.

Lemma logged_steps_concat (f : Z -> bool) (xs : list Z) (evss : list (list event)) :
  Forall2 (fun x evs => logged_steps evs = if f x then [x] else []) xs evss ->
  logged_steps (concat evss) = filter f xs.
Proof.
  induction 1 as [|x evs xs evss Hx _ IH]; [reflexivity|].
  simpl. unfold logged_steps in *. rewrite flat_map_app, Hx, IH.
  destruct (f x); reflexivity.
Qed.

(** X21: in a run of at least a hundred steps that returns, the steps whose
    losses are printed are the multiples of [num_steps // 100] among
    [0], ..., [num_steps - 1], in order. *)
Theorem training_logged_steps
    (num_steps misr_updates misr_reinit_iv misr_reinit_lim batch_size : Z) :
  (100 <= num_steps)%Z -> (1 <= misr_updates)%Z -> misr_reinit_iv <> 0%Z ->
  (1 <= batch_size)%Z ->
  exists evs st,
    training MLPParams MLP Key PRNGKey split uniform auct_transform_init
      misr_transform_init grad OptState adamw_init adamw_update apply_updates
      num_steps misr_updates misr_reinit_iv misr_reinit_lim batch_size
      n_bidders n_items width depth
    = (evs, Ok (tpal, st))
    /\ logged_steps evs
       = filter (fun step => (step mod (num_steps / 100) =? 0)%Z) (range num_steps).
Proof.
  intros Hn Hmu Hiv Hbs.
  assert (Hlog : (num_steps / 100 <> 0)%Z).
  { pose proof (Z.div_le_mono 100 num_steps 100 ltac:(lia) Hn) as H.
    rewrite Z.div_same in H by lia. lia. }
  set (rng := PRNGKey 1729).
  set (sampler0 := BidSampler.init Key (split rng 4 1) n_bidders n_items).
  destruct (initial_state_ok (split rng 4 2) sampler0 eq_refl eq_refl)
    as [st0 Hinit].
  destruct (for_each_ok sampler_ok
              (fun step evs =>
                 logged_steps evs
                 = if (step mod (num_steps / 100) =? 0)%Z then [step] else [])
              (step_fn (split rng 4 3) misr_updates misr_reinit_iv misr_reinit_lim
                 batch_size (num_steps / 100)%Z)
              (range num_steps)
              {| sampler := next_sampler split sampler0; tpal_state := st0;
                 misr_log := None; auct_log := None;
                 steps := []; auct_losses := []; misr_losses := [] |})
    as (steps_evs & l' & Hloop & _ & Hlogged).
  { split; reflexivity. }
  { intros step l _ Hl. now apply training_step_logged. }
  exists ([Printed DeviceInfo]
          ++ [Sampled 1 (drawn split uniform sampler0 1)]
          ++ [Printed ParamShapes; Printed ParamShapes]
          ++ concat steps_evs ++ []), (tpal_state l').
  split.
  - unfold training. fold rng. fold sampler0.
    assert (H1 : (1 <= 1)%Z) by lia.
    run_emit.
    run_ok (call_sample_ok Key split uniform sampler0 1 H1).
    run_ok Hinit. run_ok Hloop. reflexivity.
  - rewrite app_nil_r. simpl.
    now apply (logged_steps_concat (fun step => (step mod (num_steps / 100) =? 0)%Z)).
Qed.

(** An update of the misreporter that returns leaves the auctioneer's
    parameters and optimiser state as they are, whatever the batch. *)
Lemma update_misr_frame st (batch : list mat) st' loss :
  upd_misr st batch = Ok (st', loss) ->
  auct (params st') = auct (params st)
  /\ auct (opt_state st') = auct (opt_state st).
Proof using Type.
  unfold update_misr, value_and_grad.
  destruct (v_misr_loss _ _ _ _ _ _ _ _ _) as [v|e]; simpl; [|discriminate].
  destruct (adamw_update _ _ _ _) as [u o]. intros H. inversion H. split; reflexivity.
Qed.

(** X22: the loop [for _ in range(0, misr_updates)] of a step keeps the
    auctioneer: every call it makes is an update of the misreporter on the
    batch, and when the loop ends without an exception it has made one
    call per iteration and the auctioneer's parameters and optimiser state
    are those the loop started with, on any batch. *)
Theorem misr_updates_keep_auctioneer {X : Type} (xs : list X) (batch : list mat)
    (st : TPALState MLPParams OptState) (log : option R) :
  let '(evs, r) :=
    for_each xs
      (fun _ cur =>
         emit (UpdateMisr batch) ;;~
         '(st, loss) <~
           lift (update_misr MLPParams MLP grad OptState adamw_update apply_updates
                   tpal (fst cur) batch) ;;
         ret (st, Some loss))
      (st, log) in
  (forall e, In e evs -> e = UpdateMisr batch)
  /\ match r with
     | Ok (st', _) =>
         evs = repeat (UpdateMisr batch) (length xs)
         /\ auct (params st') = auct (params st)
         /\ auct (opt_state st') = auct (opt_state st)
     | Raise _ => (length evs <= length xs)%nat
     end.
Proof using Type.
  clear bidders_pos items_ok.
  revert st log. induction xs as [|x xs IH]; intros st log.
  - simpl. repeat split. intros e [].
  - cbn [for_each]. cbn [fst].
    destruct (upd_misr st batch) as [[st1 loss]|e] eqn:E.
    + destruct (update_misr_frame st batch st1 loss E) as [F1 F2].
      specialize (IH st1 (Some loss)).
      cbn [bind_io emit lift ret app] in *.
      destruct (for_each xs _ (st1, Some loss)) as [evs r].
      destruct IH as [IH1 IH2]. split.
      * intros e [<-|He]; [reflexivity|now apply IH1].
      * destruct r as [[st' log']|e].
        -- destruct IH2 as (-> & G1 & G2). repeat split; congruence.
        -- simpl. lia.
    + cbn [bind_io emit lift ret app]. split.
      * intros e' [<-|[]]. reflexivity.
      * simpl. lia.
Qed.

(** A run of at least a hundred steps returns. *)
Lemma training_returns
    (num_steps misr_updates misr_reinit_iv misr_reinit_lim batch_size : Z) :
  (100 <= num_steps)%Z -> (1 <= misr_updates)%Z -> misr_reinit_iv <> 0%Z ->
  (1 <= batch_size)%Z ->
  exists evs st,
    run num_steps misr_updates misr_reinit_iv misr_reinit_lim batch_size
      n_bidders n_items width depth
    = (evs, Ok (tpal, st)).
Proof.
  intros Hn Hmu Hiv Hbs.
  assert (Hlog : (num_steps / 100 <> 0)%Z).
  { pose proof (Z.div_le_mono 100 num_steps 100 ltac:(lia) Hn) as H.
    rewrite Z.div_same in H by lia. lia. }
  set (rng := PRNGKey 1729).
  set (sampler0 := BidSampler.init Key (split rng 4 1) n_bidders n_items).
  destruct (initial_state_ok (split rng 4 2) sampler0 eq_refl eq_refl)
    as [st0 Hinit].
  destruct (training_loop_ok (split rng 4 3) num_steps misr_updates misr_reinit_iv
              misr_reinit_lim batch_size (num_steps / 100)%Z
              {| sampler := next_sampler split sampler0; tpal_state := st0;
                 misr_log := None; auct_log := None;
                 steps := []; auct_losses := []; misr_losses := [] |})
    as (steps_evs & l' & Hloop & _ & _); try assumption.
  { split; reflexivity. }
  eexists. exists (tpal_state l').
  unfold training. fold rng. fold sampler0.
  assert (H1 : (1 <= 1)%Z) by lia.
  run_emit.
  run_ok (call_sample_ok Key split uniform sampler0 1 H1).
  run_ok Hinit. run_ok Hloop. reflexivity.
Qed.

(** X28: the calls of a run of at least a hundred steps that returns,
    counted: one update of the auctioneer and [misr_updates] updates of
    the misreporter for every step, one reinitialisation of the
    misreporter for every step that is a multiple of [misr_reinit_iv] and
    not beyond [misr_reinit_lim], and one call of the sampler before the
    loop, one for every step and one for every reinitialisation. *)
Theorem training_call_counts
    (num_steps misr_updates misr_reinit_iv misr_reinit_lim batch_size : Z) :
  (100 <= num_steps)%Z -> (1 <= misr_updates)%Z -> misr_reinit_iv <> 0%Z ->
  (1 <= batch_size)%Z ->
  exists evs st,
    training MLPParams MLP Key PRNGKey split uniform auct_transform_init
      misr_transform_init grad OptState adamw_init adamw_update apply_updates
      num_steps misr_updates misr_reinit_iv misr_reinit_lim batch_size
      n_bidders n_items width depth
    = (evs, Ok (tpal, st))
    /\ count_events is_update_auct evs = Z.to_nat num_steps
    /\ count_events is_update_misr evs = (Z.to_nat num_steps * Z.to_nat misr_updates)%nat
    /\ count_events is_reinit evs
       = length (filter (reinit_due misr_reinit_iv misr_reinit_lim) (range num_steps))
    /\ count_events is_sampled evs
       = (1 + Z.to_nat num_steps + count_events is_reinit evs)%nat.
Proof.
  intros Hn Hmu Hiv Hbs.
  assert (Hlog : (num_steps / 100 <> 0)%Z).
  { pose proof (Z.div_le_mono 100 num_steps 100 ltac:(lia) Hn) as H.
    rewrite Z.div_same in H by lia. lia. }
  set (rng := PRNGKey 1729).
  set (sampler0 := BidSampler.init Key (split rng 4 1) n_bidders n_items).
  destruct (initial_state_ok (split rng 4 2) sampler0 eq_refl eq_refl)
    as [st0 Hinit].
  destruct (training_loop_ok (split rng 4 3) num_steps misr_updates misr_reinit_iv
              misr_reinit_lim batch_size (num_steps / 100)%Z
              {| sampler := next_sampler split sampler0; tpal_state := st0;
                 misr_log := None; auct_log := None;
                 steps := []; auct_losses := []; misr_losses := [] |})
    as (steps_evs & l' & Hloop & _ & Htrace); try assumption.
  { split; reflexivity. }
  exists ([Printed DeviceInfo]
          ++ [Sampled 1 (drawn split uniform sampler0 1)]
          ++ [Printed ParamShapes; Printed ParamShapes]
          ++ concat steps_evs ++ []), (tpal_state l').
  split.
  { unfold training. fold rng. fold sampler0.
    assert (H1 : (1 <= 1)%Z) by lia.
    run_emit.
    run_ok (call_sample_ok Key split uniform sampler0 1 H1).
    run_ok Hinit. run_ok Hloop. reflexivity. }
  rewrite app_nil_r.
  assert (Ha : count_events is_update_auct (concat steps_evs) = Z.to_nat num_steps).
  { rewrite (count_events_concat _ (fun _ => 1%nat) (range num_steps)).
    - now rewrite list_sum_const, range_length, Nat.mul_1_r.
    - eapply Forall2_impl_l; [|exact Htrace]. intros x y H.
      now apply step_trace_counts in H. }
  assert (Hm : count_events is_update_misr (concat steps_evs)
               = (Z.to_nat num_steps * Z.to_nat misr_updates)%nat).
  { rewrite (count_events_concat _ (fun _ => Z.to_nat misr_updates) (range num_steps)).
    - now rewrite list_sum_const, range_length.
    - eapply Forall2_impl_l; [|exact Htrace]. intros x y H.
      now apply step_trace_counts in H. }
  assert (Hr : count_events is_reinit (concat steps_evs)
               = length (filter (reinit_due misr_reinit_iv misr_reinit_lim)
                           (range num_steps))).
  { rewrite (count_events_concat _
               (fun s => if reinit_due misr_reinit_iv misr_reinit_lim s
                         then 1%nat else 0%nat) (range num_steps)).
    - apply list_sum_indicator.
    - eapply Forall2_impl_l; [|exact Htrace]. intros x y H.
      now apply step_trace_counts in H. }
  assert (Hs : count_events is_sampled (concat steps_evs)
               = (Z.to_nat num_steps
                  + length (filter (reinit_due misr_reinit_iv misr_reinit_lim)
                              (range num_steps)))%nat).
  { rewrite (count_events_concat _
               (fun s => S (if reinit_due misr_reinit_iv misr_reinit_lim s
                            then 1%nat else 0%nat)) (range num_steps)).
    - rewrite <- (range_length num_steps). clear.
      induction (range num_steps) as [|s l IH]; [reflexivity|].
      simpl. rewrite IH.
      destruct (reinit_due misr_reinit_iv misr_reinit_lim s); simpl; lia.
    - eapply Forall2_impl_l; [|exact Htrace]. intros x y H.
      now apply step_trace_counts in H. }
  rewrite !count_events_app, Ha, Hm, Hr, Hs. unfold count_events. simpl.
  repeat split; lia.
Qed.

End TrainingProperties.

(** ** The script *)

(** ** The initialisations and the number of bidders *)

(** Without bidders the forward passes stack an empty list. *)
Lemma Misreporter3_no_bidders (MLPParams : Type) (MLP : list nat -> MLPParams -> vec -> vec)
    (n_items width depth : nat) (mp : MisrParams MLPParams) (vals : list mat) :
  Misreporter3 MLPParams MLP 0%nat n_items width depth mp vals = Raise ValueError.
Proof. reflexivity. Qed.

Lemma Auctioneer3_no_bidders (MLPParams : Type) (MLP : list nat -> MLPParams -> vec -> vec)
    (n_items width depth : nat) (ap : AuctParams MLPParams) (vals : list mat) :
  (forall layers p x, length (MLP layers p x) = last layers 0%nat) ->
  Auctioneer3 MLPParams MLP 0%nat n_items width depth ap vals = Raise ValueError.
Proof.
  intros MLP_shape. unfold Auctioneer3, has_shape1.
  rewrite length_map, MLP_shape. unfold layers_alloc. cbn [last].
  rewrite Nat.eqb_refl. reflexivity.
Qed.

(** X6: [reinit_misr] on a batch of one profile.  With at least one bidder
    and a profile of the auction's shape, the forward pass that the
    initialisation of the misreporter runs on the batch returns misreports
    of the auction's shape, and [reinit_misr] returns the state with the
    auctioneer's parameters and optimiser state of the given state, and for
    the misreporter the parameters created with the second half of the
    split of the key and the initial optimiser state for them.  Without
    bidders the forward pass stacks an empty list, and [reinit_misr] raises
    [ValueError]. *)
Theorem reinit_misr_frame (MLPParams : Type) (MLP : list nat -> MLPParams -> vec -> vec)
    (Key : Type) (split : Key -> nat -> nat -> Key)
    (misr_transform_init : nat -> nat -> nat -> nat -> Key -> list mat -> MisrParams MLPParams)
    (OptState : Type -> Type) (adamw_init : forall P : Type, P -> OptState P)
    (n_bidders n_items width depth : nat) (rng : Key)
    (st : TPALState MLPParams OptState) (m : mat) :
  (forall layers p x, length (MLP layers p x) = last layers 0%nat) ->
  ((1 <= n_bidders)%nat -> has_shape2 n_bidders n_items m = true ->
   exists misreports,
     Misreporter3 MLPParams MLP n_bidders n_items width depth
       (misr_transform_init n_bidders n_items width depth (split rng 2%nat 1%nat) [m]) [m]
     = Ok misreports
     /\ has_shape2 n_bidders n_items misreports = true
     /\ reinit_misr MLPParams MLP Key split misr_transform_init OptState adamw_init
          {| bidders := n_bidders; items := n_items;
             net_width := width; net_depth := depth |} rng st [m]
        = Ok {| params :=
                  {| auct := auct (params st);
                     misr := misr_transform_init n_bidders n_items width depth
                               (split rng 2%nat 1%nat) [m] |};
                opt_state :=
                  {| auct := auct (opt_state st);
                     misr := adamw_init _
                               (misr_transform_init n_bidders n_items width depth
                                  (split rng 2%nat 1%nat) [m]) |} |})
  /\ (n_bidders = 0%nat ->
      reinit_misr MLPParams MLP Key split misr_transform_init OptState adamw_init
        {| bidders := n_bidders; items := n_items;
           net_width := width; net_depth := depth |} rng st [m]
      = Raise ValueError).
Proof.
  intros MLP_shape. split.
  - intros HB Hm.
    destruct (Misreporter3_returns MLPParams MLP MLP_shape n_bidders n_items width depth
                HB (misr_transform_init n_bidders n_items width depth (split rng 2%nat 1%nat) [m])
                m Hm) as (misreports & Hrun & Hshape).
    exists misreports. split; [exact Hrun|]. split; [exact Hshape|].
    unfold reinit_misr, init_misr. cbn [bidders items net_width net_depth].
    rewrite Hrun. reflexivity.
  - intros ->. unfold reinit_misr, init_misr. cbn [bidders items net_width net_depth].
    rewrite Misreporter3_no_bidders. reflexivity.
Qed.

(** Without bidders [training] draws the sample for the initialisation and
    raises [ValueError] in the initialisation of the auctioneer, before the
    shapes of the parameters are printed. *)
Lemma training_without_bidders (MLPParams : Type)
    (MLP : list nat -> MLPParams -> vec -> vec) (Key : Type) (PRNGKey : Z -> Key)
    (split : Key -> nat -> nat -> Key) (uniform : Key -> nat -> nat -> mat)
    (auct_transform_init : nat -> nat -> nat -> nat -> Key -> list mat -> AuctParams MLPParams)
    (misr_transform_init : nat -> nat -> nat -> nat -> Key -> list mat -> MisrParams MLPParams)
    (grad : forall P Q : Type, (P -> Q -> list mat -> result R) -> P -> Q -> list mat -> P)
    (OptState : Type -> Type) (adamw_init : forall P : Type, P -> OptState P)
    (adamw_update : forall P : Type, P -> OptState P -> P -> P * OptState P)
    (apply_updates : forall P : Type, P -> P -> P)
    (num_steps misr_updates misr_reinit_iv misr_reinit_lim batch_size : Z)
    (n_items width depth : nat) :
  (forall layers p x, length (MLP layers p x) = last layers 0%nat) ->
  training MLPParams MLP Key PRNGKey split uniform auct_transform_init
    misr_transform_init grad OptState adamw_init adamw_update apply_updates
    num_steps misr_updates misr_reinit_iv misr_reinit_lim batch_size
    0%nat n_items width depth
  = ([Printed DeviceInfo;
      Sampled 1
        [uniform (split (split (PRNGKey 1729%Z) 4%nat 1%nat) 2%nat 1%nat) 0%nat n_items]],
     Raise ValueError).
Proof.
  intros MLP_shape. unfold training, initial_state, init_auct.
  cbn [bidders items net_width net_depth].
  rewrite (call_sample_ok Key split uniform _ 1 ltac:(lia)).
  cbv beta iota delta [bind_io emit lift ret bind].
  rewrite Auctioneer3_no_bidders by exact MLP_shape. reflexivity.
Qed.

Section ScriptProperties.

Variable MLPParams : Type.
Variable MLP : list nat -> MLPParams -> vec -> vec.
Hypothesis MLP_shape :
  forall layers p x, length (MLP layers p x) = last layers 0%nat.

Variable Key : Type.
Variable PRNGKey : Z -> Key.
Variable split : Key -> nat -> nat -> Key.
Variable uniform : Key -> nat -> nat -> mat.
Hypothesis uniform_shape : forall k r c, has_shape2 r c (uniform k r c) = true.

Variable auct_transform_init :
  nat -> nat -> nat -> nat -> Key -> list mat -> AuctParams MLPParams.
Variable misr_transform_init :
  nat -> nat -> nat -> nat -> Key -> list mat -> MisrParams MLPParams.
Variable grad :
  forall P Q : Type, (P -> Q -> list mat -> result R) -> P -> Q -> list mat -> P.
Variable OptState : Type -> Type.
Variable adamw_init : forall P : Type, P -> OptState P.
Variable adamw_update : forall P : Type, P -> OptState P -> P -> P * OptState P.
Variable apply_updates : forall P : Type, P -> P -> P.

(** X26: the script runs to its end: the training of a thousand steps
    returns, the heading is printed, and [test] prints the four lines of
    each of its ten iterations. *)
Theorem main_runs :
  exists evs blocks,
    main MLPParams MLP Key PRNGKey split uniform auct_transform_init
      misr_transform_init grad OptState adamw_init adamw_update apply_updates
    = (evs, (MetricsHeading :: concat blocks, Ok tt))
    /\ length blocks = 10%nat
    /\ Forall iteration_lines blocks.
Proof.
  destruct (training_returns MLPParams MLP MLP_shape Key PRNGKey split uniform
              uniform_shape auct_transform_init misr_transform_init grad OptState
              adamw_init adamw_update apply_updates 10 5 200 7
              ltac:(lia) ltac:(left; lia) 1000 50 500 1000 100
              ltac:(lia) ltac:(lia) ltac:(lia) ltac:(lia))
    as (evs & st & Htrain).
  destruct (test_loop_ok MLPParams MLP MLP_shape Key split uniform uniform_shape
              OptState 10 5 200 7 ltac:(lia) (range 10) st
              (BidSampler.init Key (PRNGKey 1337) 10 5)
              eq_refl eq_refl ltac:(lia) ltac:(lia))
    as (blocks & Htest & Lb & Fb).
  exists evs, blocks. split; [|split; [|exact Fb]].
  - unfold main. rewrite Htrain. unfold test. cbn [bidders items].
    rewrite Htest. reflexivity.
  - rewrite Lb. apply range_length.
Qed.

End ScriptProperties.

(** ** Concrete runs *)

Lemma uniform_half_shape (k r c : nat) : has_shape2 r c (uniform_half k r c) = true.
Proof.
  apply has_shape2_intro.
  - apply repeat_length.
  - intros row H. apply repeat_spec in H. subst. apply repeat_length.
Qed.

Lemma uniform_half_range (k r c : nat) (row : vec) (x : R) :
  In row (uniform_half k r c) -> In x row -> 0 <= x < 1.
Proof.
  intros Hrow Hx. apply repeat_spec in Hrow. subst row.
  apply repeat_spec in Hx. subst x. lra.
Qed.

Lemma vals_2x2_nonneg (row : vec) (x : R) : In row vals_2x2 -> In x row -> 0 <= x.
Proof.
  unfold vals_2x2. simpl. intros [<-|[<-|[]]] [<-|[<-|[]]]; lra.
Qed.

Lemma Misreporter_shape_and_range_witness :
  exists misreports,
    Misreporter unit zero_MLP 2 2 200 7 zero_misr vals_2x2 = Ok misreports
    /\ has_shape2 2 2 misreports = true
    /\ (forall row x, In row misreports -> In x row -> 0 < x < 1).
Proof.
  destruct (Misreporter_shape_and_range unit zero_MLP zero_MLP_shape 2 2 200 7
              zero_misr vals_2x2) as (m & H1 & H2 & _ & H4);
    [lia|reflexivity|].
  exists m. split; [exact H1|]. split; [exact H2|exact H4].
Defined.

(** The profile of three bidders, with the network of zero weights. *)
Lemma Misreporter_views_permute_items_witness :
  Misreporter unit zero_MLP 3 2 200 7 zero_misr vals_3x2
  = Ok [map sigmoid
          (zero_MLP (layers_misr 3 2 200 7) tt [1 / 8; 1 / 4; 3 / 8; 1 / 2; 5 / 8; 3 / 4]);
        map sigmoid
          (zero_MLP (layers_misr 3 2 200 7) tt [1 / 4; 1 / 8; 1 / 2; 3 / 8; 3 / 4; 5 / 8]);
        map sigmoid
          (zero_MLP (layers_misr 3 2 200 7) tt [1 / 8; 1 / 4; 3 / 8; 1 / 2; 5 / 8; 3 / 4])]
  /\ ravel (bidder_view vals_3x2 1) <> [1 / 4; 1 / 8; 1 / 2; 3 / 8; 3 / 4; 5 / 8].
Proof.
  destruct (Misreporter_views_permute_items unit zero_MLP 200 7 zero_misr zero_MLP_shape)
    as (H & _ & _ & _ & H1 & _).
  split; [exact H|exact H1].
Defined.

Lemma Auctioneer_allocation_feasible_witness :
  exists alloc pay,
    Auctioneer unit zero_MLP 2 2 200 7 zero_auct vals_2x2 = Ok (alloc, pay)
    /\ has_shape2 2 2 alloc = true
    /\ (forall row x, In row alloc -> In x row -> 0 <= x <= 1)
    /\ (forall j, (j < 2)%nat -> sum (column j alloc) <= 1).
Proof.
  destruct (Auctioneer_allocation_feasible unit zero_MLP zero_MLP_shape 2 2 200 7
              zero_auct vals_2x2) as (alloc & pay & H1 & H2 & H3 & H4);
    [lia|reflexivity|].
  exists alloc, pay. split; [exact H1|]. split; [exact H2|]. split; [exact H3|].
  intros j Hj. now destruct (H4 j Hj) as (_ & _ & _ & _ & H).
Defined.

Lemma sample_slices_identical_witness :
  exists batch,
    snd (BidSampler.sample nat example_split uniform_half
           (BidSampler.init nat 0%nat 10 5) 100) = Ok batch
    /\ length batch = 100%nat
    /\ (forall m1 m2, In m1 batch -> In m2 batch -> m1 = m2).
Proof.
  destruct (sample_slices_identical nat example_split uniform_half uniform_half_shape
              uniform_half_range (BidSampler.init nat 0%nat 10 5) 100)
    as (batch & H1 & H2 & _ & H4 & _); [lia|].
  exists batch. rewrite H1. split; [reflexivity|]. split; [exact H2|exact H4].
Defined.

Lemma auct_loss_value_witness :
  exists loss,
    auct_loss unit zero_MLP 2 2 200 7 zero_auct zero_misr vals_2x2 = Ok loss
    /\ 0 <= sum (payments unit zero_MLP 2 2 200 7 zero_auct vals_2x2).
Proof.
  destruct (auct_loss_value unit zero_MLP zero_MLP_shape 2 2 200 7 zero_auct zero_misr
              vals_2x2) as (H & Hp & _);
    [lia|left; discriminate|reflexivity|exact vals_2x2_nonneg|].
  eexists. split; [exact H|exact Hp].
Defined.

Lemma misr_loss_value_witness :
  exists loss, misr_loss unit zero_MLP 2 2 200 7 zero_misr zero_auct vals_2x2 = Ok loss.
Proof.
  destruct (misr_loss_value unit zero_MLP zero_MLP_shape 2 2 200 7 zero_misr zero_auct
              vals_2x2) as (H & _); [lia|left; discriminate|reflexivity|].
  eexists. exact H.
Defined.

Lemma Auctioneer_payment_rule_witness :
  exists alloc pay,
    Auctioneer unit zero_MLP 2 2 200 7 zero_auct vals_2x2 = Ok (alloc, pay)
    /\ length pay = 2%nat.
Proof.
  destruct (Auctioneer_payment_rule unit zero_MLP zero_MLP_shape 2 2 200 7 zero_auct
              vals_2x2) as (alloc & pay & H1 & _ & H3 & _);
    [lia|left; discriminate|reflexivity|].
  exists alloc, pay. split; [exact H1|exact H3].
Defined.

Lemma truthful_utility_nonneg_witness :
  exists alloc pay utilities,
    Auctioneer unit zero_MLP 2 2 200 7 zero_auct vals_2x2 = Ok (alloc, pay)
    /\ utility vals_2x2 alloc pay = Ok utilities
    /\ (forall i, (i < 2)%nat -> 0 <= nth i utilities 0).
Proof.
  destruct (truthful_utility_nonneg unit zero_MLP zero_MLP_shape 2 2 200 7 zero_auct
              vals_2x2) as (alloc & pay & u & H1 & H2 & _ & H4);
    [lia|left; discriminate|reflexivity|exact vals_2x2_nonneg|].
  exists alloc, pay, u. split; [exact H1|]. split; [exact H2|].
  intros i Hi. now destruct (H4 i Hi) as (_ & _ & H).
Defined.

Lemma sizes_of_the_script : 5%nat <> 1%nat \/ 10%nat = 1%nat.
Proof. left. lia. Qed.

(** The run of the script: [training(1000, 50, 500, 1000, 100, 10, 5, 200, 7)]. *)
Lemma training_trace_witness :
  exists evs st,
    training unit zero_MLP nat Z.to_nat example_split uniform_half zero_auct_init
      zero_misr_init no_grad NoOptState no_opt_init no_opt_update keep_params
      1000 50 500 1000 100 10 5 200 7
    = (evs, Ok st).
Proof.
  destruct (training_trace unit zero_MLP zero_MLP_shape nat Z.to_nat example_split
              uniform_half uniform_half_shape zero_auct_init zero_misr_init no_grad
              NoOptState no_opt_init no_opt_update keep_params 10 5 200 7
              ltac:(lia) sizes_of_the_script 1000 50 500 1000 100
              ltac:(lia) ltac:(lia) ltac:(lia) ltac:(lia))
    as (vals0 & steps_evs & st & H & _).
  eexists. eexists. exact H.
Defined.

(** A run of fifty steps: [training(50, 50, 500, 1000, 100, 10, 5, 200, 7)]. *)
Lemma training_short_run_raises_witness :
  exists evs,
    training unit zero_MLP nat Z.to_nat example_split uniform_half zero_auct_init
      zero_misr_init no_grad NoOptState no_opt_init no_opt_update keep_params
      50 50 500 1000 100 10 5 200 7
    = (evs, Raise ZeroDivisionError).
Proof.
  destruct (training_short_run_raises unit zero_MLP zero_MLP_shape nat Z.to_nat
              example_split uniform_half uniform_half_shape zero_auct_init zero_misr_init
              no_grad NoOptState no_opt_init no_opt_update keep_params 10 5 200 7
              ltac:(lia) sizes_of_the_script 50 50 500 1000 100
              ltac:(lia) ltac:(lia) ltac:(lia))
    as (vals0 & evs0 & H & _).
  eexists. exact H.
Defined.

(** *** Further concrete instances *)

Lemma vals_2x2_unit_range (row : vec) (x : R) :
  In row vals_2x2 -> In x row -> 0 <= x <= 1.
Proof.
  unfold vals_2x2. simpl. intros [<-|[<-|[]]] [<-|[<-|[]]]; lra.
Qed.

Lemma misr_utility_truthful_witness :
  exists alloc pay utilities,
    Auctioneer unit zero_MLP 2 2 200 7 zero_auct vals_2x2 = Ok (alloc, pay)
    /\ utility vals_2x2 alloc pay = Ok utilities
    /\ misr_utility unit zero_MLP 2 2 200 7 vals_2x2 vals_2x2 zero_auct = Ok utilities.
Proof.
  destruct (misr_utility_truthful unit zero_MLP zero_MLP_shape 2 2 200 7 zero_auct vals_2x2)
    as [_ H]; [lia|left; discriminate|reflexivity|].
  exact H.
Defined.

Lemma utility_agrees_with_utility_i_witness :
  exists utilities,
    utility vals_2x2 [[1 / 4; 1 / 4]; [1 / 4; 1 / 4]] [5 / 32; 5 / 32] = Ok utilities
    /\ (forall i, (i < 2)%nat ->
          utility_i vals_2x2 i [[1 / 4; 1 / 4]; [1 / 4; 1 / 4]] [5 / 32; 5 / 32]
          = Ok (nth i utilities 0)).
Proof.
  destruct (utility_agrees_with_utility_i 2 2 vals_2x2 [[1 / 4; 1 / 4]; [1 / 4; 1 / 4]]
              [5 / 32; 5 / 32]) as (u & H1 & _ & H3);
    [lia|left; discriminate|reflexivity|reflexivity|reflexivity|].
  exists u. split; [exact H1|exact H3].
Defined.

Lemma Auctioneer_single_bidder_witness :
  exists pay,
    Auctioneer unit zero_MLP 1 2 200 7 zero_auct [[1 / 2; 3 / 4]]
    = Ok ([alloc_gate unit zero_MLP 1 2 200 7 zero_auct [[1 / 2; 3 / 4]]], pay).
Proof.
  eexists.
  exact (Auctioneer_single_bidder unit zero_MLP zero_MLP_shape 1 2 200 7 zero_auct
           [[1 / 2; 3 / 4]] eq_refl eq_refl).
Defined.

Lemma Auctioneer_revenue_bounded_witness :
  exists alloc pay,
    Auctioneer unit zero_MLP 2 2 200 7 zero_auct vals_2x2 = Ok (alloc, pay)
    /\ 0 <= sum pay <= INR 2.
Proof.
  destruct (Auctioneer_revenue_bounded unit zero_MLP zero_MLP_shape 2 2 200 7 zero_auct
              vals_2x2) as (alloc & pay & H1 & H2 & H3 & H4 & H5);
    [lia|left; discriminate|reflexivity|exact vals_2x2_unit_range|].
  exists alloc, pay. split; [exact H1|]. split; [exact H2|].
  exact (Rle_trans _ _ _ H3 (Rle_trans _ _ _ H4 H5)).
Defined.

Lemma auct_loss_bounded_below_witness :
  exists loss,
    auct_loss unit zero_MLP 2 2 200 7 zero_auct zero_misr vals_2x2 = Ok loss
    /\ - sqrt (INR 2) <= loss.
Proof.
  destruct (auct_loss_bounded_below unit zero_MLP zero_MLP_shape 2 2 200 7 zero_auct
              zero_misr vals_2x2) as (loss & H1 & H2);
    [lia|left; discriminate|reflexivity|exact vals_2x2_unit_range|].
  exists loss. split; [exact H1|exact H2].
Defined.

Lemma no_bidders_raise_witness :
  Auctioneer unit zero_MLP 0 2 200 7 zero_auct [] = Raise ValueError
  /\ Misreporter unit zero_MLP 0 2 200 7 zero_misr [] = Raise ValueError.
Proof.
  destruct (no_bidders_raise unit zero_MLP zero_MLP_shape 0 2 200 7 zero_auct zero_misr
              [] [] eq_refl) as (H1 & H2 & _).
  split; [exact H1|exact H2].
Defined.

Lemma sample_nonpositive_raises_witness :
  snd (BidSampler.sample nat example_split uniform_half (BidSampler.init nat 0%nat 10 5) 0)
  = Raise ValueError.
Proof.
  rewrite (sample_nonpositive_raises nat example_split uniform_half
             (BidSampler.init nat 0%nat 10 5) 0 (Z.le_refl 0)).
  reflexivity.
Defined.

Lemma batch_loss_of_sample_witness :
  exists batch,
    snd (BidSampler.sample nat example_split uniform_half (BidSampler.init nat 0%nat 2 2) 100)
    = Ok batch
    /\ length batch = 100%nat
    /\ v_auct_loss unit zero_MLP 2 2 200 7 zero_auct zero_misr batch
       = auct_loss unit zero_MLP 2 2 200 7 zero_auct zero_misr
           (uniform_half (example_split 0 2 1) 2 2).
Proof.
  destruct (batch_loss_of_sample unit zero_MLP 2 2 200 7 nat example_split uniform_half
              zero_auct zero_misr (BidSampler.init nat 0%nat 2 2) 100)
    as (batch & H1 & H2 & H3 & _); [lia|].
  exists batch. split; [exact H1|]. split; [exact H2|exact H3].
Defined.

(** A run without steps: [training(0, 50, 500, 1000, 100, 10, 5, 200, 7)]. *)
Lemma training_no_steps_witness :
  exists evs st,
    training unit zero_MLP nat Z.to_nat example_split uniform_half zero_auct_init
      zero_misr_init no_grad NoOptState no_opt_init no_opt_update keep_params
      0 50 500 1000 100 10 5 200 7
    = (evs, Ok st).
Proof.
  eexists. eexists.
  exact (training_no_steps unit zero_MLP zero_MLP_shape nat Z.to_nat example_split
           uniform_half uniform_half_shape zero_auct_init zero_misr_init no_grad
           NoOptState no_opt_init no_opt_update keep_params 10 5 200 7 ltac:(lia)
           0 50 500 1000 100 (Z.le_refl 0)).
Defined.

(** A reinitialisation interval of zero:
    [training(1000, 50, 0, 1000, 100, 10, 5, 200, 7)]. *)
Lemma training_zero_reinit_interval_witness :
  exists evs,
    training unit zero_MLP nat Z.to_nat example_split uniform_half zero_auct_init
      zero_misr_init no_grad NoOptState no_opt_init no_opt_update keep_params
      1000 50 0 1000 100 10 5 200 7
    = (evs, Raise ZeroDivisionError).
Proof.
  destruct (training_zero_reinit_interval unit zero_MLP zero_MLP_shape nat Z.to_nat
              example_split uniform_half uniform_half_shape zero_auct_init zero_misr_init
              no_grad NoOptState no_opt_init no_opt_update keep_params 10 5 200 7
              ltac:(lia) 1000 50 1000 100 ltac:(lia) ltac:(lia))
    as (vals0 & batch & H & _).
  eexists. exact H.
Defined.

(** An empty batch: [training(1000, 50, 500, 1000, 0, 10, 5, 200, 7)]. *)
Lemma training_nonpositive_batch_witness :
  exists evs,
    training unit zero_MLP nat Z.to_nat example_split uniform_half zero_auct_init
      zero_misr_init no_grad NoOptState no_opt_init no_opt_update keep_params
      1000 50 500 1000 0 10 5 200 7
    = (evs, Raise ValueError).
Proof.
  destruct (training_nonpositive_batch unit zero_MLP zero_MLP_shape nat Z.to_nat
              example_split uniform_half uniform_half_shape zero_auct_init zero_misr_init
              no_grad NoOptState no_opt_init no_opt_update keep_params 10 5 200 7
              ltac:(lia) 1000 50 500 1000 0 ltac:(lia) ltac:(lia))
    as (vals0 & H).
  eexists. exact H.
Defined.

(** No update of the misreporter:
    [training(1000, 0, 500, 1000, 100, 10, 5, 200, 7)]. *)
Lemma training_without_misr_updates_witness :
  exists evs,
    training unit zero_MLP nat Z.to_nat example_split uniform_half zero_auct_init
      zero_misr_init no_grad NoOptState no_opt_init no_opt_update keep_params
      1000 0 500 1000 100 10 5 200 7
    = (evs, Raise UnboundLocalError).
Proof.
  destruct (training_without_misr_updates unit zero_MLP zero_MLP_shape nat Z.to_nat
              example_split uniform_half uniform_half_shape zero_auct_init zero_misr_init
              no_grad NoOptState no_opt_init no_opt_update keep_params 10 5 200 7
              ltac:(lia) sizes_of_the_script 1000 0 500 1000 100
              ltac:(lia) ltac:(lia) ltac:(lia) ltac:(lia))
    as (vals0 & evs0 & H & _).
  eexists. exact H.
Defined.

(** The lines of the run of the script: the steps 0, 10, 20, ... are
    logged. *)
Lemma training_logged_steps_witness :
  exists evs st,
    training unit zero_MLP nat Z.to_nat example_split uniform_half zero_auct_init
      zero_misr_init no_grad NoOptState no_opt_init no_opt_update keep_params
      1000 50 500 1000 100 10 5 200 7
    = (evs, Ok st)
    /\ logged_steps evs = filter (fun step => (step mod (1000 / 100) =? 0)%Z) (range 1000).
Proof.
  destruct (training_logged_steps unit zero_MLP zero_MLP_shape nat Z.to_nat example_split
              uniform_half uniform_half_shape zero_auct_init zero_misr_init no_grad
              NoOptState no_opt_init no_opt_update keep_params 10 5 200 7
              ltac:(lia) sizes_of_the_script 1000 50 500 1000 100
              ltac:(lia) ltac:(lia) ltac:(lia) ltac:(lia))
    as (evs & st & H1 & H2).
  eexists. eexists. split; [exact H1|exact H2].
Defined.

Lemma permute_along_bidders3_moves_row_witness :
  exists P,
    permute_along_bidders3 [vals_2x2] 1 = Ok P
    /\ nth 0 (nth 0 P []) [] = nth 1 vals_2x2 [].
Proof.
  destruct (permute_along_bidders3_moves_row [vals_2x2] 2 2 1) as (P & H1 & _ & H3).
  { intros m [<-|[]]. reflexivity. }
  exists P. split; [exact H1|].
  destruct (H3 0%nat ltac:(simpl; lia)) as (_ & _ & H & _).
  destruct (H ltac:(lia)) as (H0 & _). exact H0.
Defined.

(** An auction of one item: [test] raises. *)
Lemma test_raises_on_single_witness :
  test unit zero_MLP nat Z.to_nat example_split uniform_half NoOptState
    {| bidders := 2; items := 1; net_width := 200; net_depth := 7 |} zero_state
  = ([], Raise IndexError).
Proof.
  exact (test_raises_on_single unit zero_MLP zero_MLP_shape nat Z.to_nat example_split
           uniform_half uniform_half_shape NoOptState 2 1 200 7 ltac:(lia) zero_state
           (or_intror eq_refl)).
Defined.

(** The auction of the script, ten bidders and five items. *)
Lemma test_prints_metrics_witness :
  exists blocks,
    test unit zero_MLP nat Z.to_nat example_split uniform_half NoOptState
      {| bidders := 10; items := 5; net_width := 200; net_depth := 7 |} zero_state
    = (concat blocks, Ok tt)
    /\ length blocks = 10%nat
    /\ (forall k, (k < 10)%nat ->
          iteration_metrics unit zero_MLP 10 5 200 7 zero_auct zero_misr
            (uniform_half
               (example_split (advance example_split k (Z.to_nat 1337)) 2 1) 10 5)
            (nth k blocks [])).
Proof.
  destruct (test_prints_metrics unit zero_MLP zero_MLP_shape nat Z.to_nat example_split
              uniform_half uniform_half_shape NoOptState 10 5 200 7 ltac:(lia) zero_state
              ltac:(lia) ltac:(lia))
    as (blocks & H1 & H2 & H3).
  exists blocks. split; [exact H1|]. split; [exact H2|exact H3].
Defined.

Lemma main_runs_witness :
  exists evs lines,
    main unit zero_MLP nat Z.to_nat example_split uniform_half zero_auct_init
      zero_misr_init no_grad NoOptState no_opt_init no_opt_update keep_params
    = (evs, (MetricsHeading :: lines, Ok tt)).
Proof.
  destruct (main_runs unit zero_MLP zero_MLP_shape nat Z.to_nat example_split
              uniform_half uniform_half_shape zero_auct_init zero_misr_init no_grad
              NoOptState no_opt_init no_opt_update keep_params)
    as (evs & blocks & H & _).
  eexists. eexists. exact H.
Defined.

Lemma misr_bidder_i_replaces_column_witness :
  exists V,
    misr_bidder_i vals_2x2 [[1 / 2; 1 / 2]; [1 / 2; 1 / 2]] 0 = Ok V
    /\ nth 0 (nth 1 V []) 0 = 1 / 2
    /\ nth 1 (nth 1 V []) 0 = 1 / 2.
Proof.
  destruct (misr_bidder_i_replaces_column vals_2x2 [[1 / 2; 1 / 2]; [1 / 2; 1 / 2]]
              2 2 0 eq_refl eq_refl) as (V & H1 & _ & H3).
  exists V. split; [exact H1|]. split.
  - exact (H3 1%nat 0%nat ltac:(lia) ltac:(lia)).
  - exact (H3 1%nat 1%nat ltac:(lia) ltac:(lia)).
Defined.

Lemma Auctioneer_single_item_rule_witness :
  exists alloc pay utilities,
    Auctioneer unit zero_MLP 2 1 200 7 zero_auct vals_2x1' = Ok (alloc, pay)
    /\ utility vals_2x1' alloc pay = Ok utilities
    /\ length utilities = 2%nat.
Proof.
  destruct (Auctioneer_single_item_rule unit zero_MLP zero_MLP_shape 2 1 200 7 zero_auct
              vals_2x1') as (alloc & pay & u & H1 & _ & _ & H4 & H5 & _);
    [lia|reflexivity|reflexivity|].
  exists alloc, pay, u. split; [exact H1|]. split; [exact H4|exact H5].
Defined.

(** The calls of the run of the script. *)
Lemma training_call_counts_witness :
  exists evs st,
    training unit zero_MLP nat Z.to_nat example_split uniform_half zero_auct_init
      zero_misr_init no_grad NoOptState no_opt_init no_opt_update keep_params
      1000 50 500 1000 100 10 5 200 7
    = (evs, Ok st)
    /\ count_events is_update_auct evs = Z.to_nat 1000
    /\ count_events is_update_misr evs = (Z.to_nat 1000 * Z.to_nat 50)%nat.
Proof.
  destruct (training_call_counts unit zero_MLP zero_MLP_shape nat Z.to_nat example_split
              uniform_half uniform_half_shape zero_auct_init zero_misr_init no_grad
              NoOptState no_opt_init no_opt_update keep_params 10 5 200 7
              ltac:(lia) sizes_of_the_script 1000 50 500 1000 100
              ltac:(lia) ltac:(lia) ltac:(lia) ltac:(lia))
    as (evs & st & H1 & H2 & H3 & _).
  eexists. eexists. split; [exact H1|]. split; [exact H2|exact H3].
Defined.

(** A reinitialisation on the profile of two bidders and two items. *)
Lemma reinit_misr_frame_witness :
  exists misreports,
    Misreporter3 unit zero_MLP 2 2 200 7
      (zero_misr_init 2 2 200 7 (example_split 5 2 1) [vals_2x2]) [vals_2x2]
    = Ok misreports
    /\ has_shape2 2 2 misreports = true
    /\ reinit_misr unit zero_MLP nat example_split zero_misr_init NoOptState no_opt_init
         {| bidders := 2; items := 2; net_width := 200; net_depth := 7 |}
         5%nat zero_state [vals_2x2]
       = Ok {| params :=
                 {| auct := auct (params zero_state);
                    misr := zero_misr_init 2 2 200 7 (example_split 5 2 1) [vals_2x2] |};
               opt_state :=
                 {| auct := auct (opt_state zero_state);
                    misr := no_opt_init _
                              (zero_misr_init 2 2 200 7 (example_split 5 2 1)
                                 [vals_2x2]) |} |}.
Proof.
  destruct (reinit_misr_frame unit zero_MLP nat example_split zero_misr_init NoOptState
              no_opt_init 2 2 200 7 5%nat zero_state vals_2x2 zero_MLP_shape) as (H & _).
  exact (H ltac:(lia) eq_refl).
Defined.
